(** * KAMCORP inventory ledger: sales, purchases, stock and reports

    A shallow embedding of the transactional controllers
    ([saleController.js], [purchaseController.js], [productController.js]),
    the Mongoose schemas they save through, the audit and notification
    helpers, and the two report queries [getSalesReport] and
    [getDashboardSummary].

    Conventions of the embedding:
    - a JavaScript [Number] is an exact integer [Z]: quantities are whole
      units and amounts are whole TZS (the average order value, the only
      quotient, is a rational [Q]);
    - an ObjectId is a [positive]; a collection is a [gmap] from ids to
      documents;
    - a field of a request body is an [option]: [None] is [undefined];
      a numeric field of the body of a sale or a purchase is a
      [Numeric]: a number [n], or the string [String(n)] that writes it
      in decimal, as the body parsers deliver both; text is ASCII;
    - a handler is a function on a [World] in a small state-and-exception
      monad; the MongoDB session is a working copy of the database that
      [commitTransaction] publishes and [abortTransaction] discards;
    - every externally visible effect is appended to the [trace]. *)

From Stdlib Require Import ZArith QArith Lia DecimalString.
From stdpp Require Import gmap strings list fin_maps sorting.

Local Open Scope string_scope.
Local Open Scope Z_scope.

(** ** Documents *)

(** [models/Product.js] *)
Record Product := mkProduct {
  name : string;
  sku : string;
  category : string;
  unitPriceTZS : Z;
  costPriceTZS : Z;
  stockQuantity : Z
}.

Record ProductSnapshot := mkSnapshot {
  snapshot_name : string;
  snapshot_sku : string
}.

(** [models/Sale.js] *)
Record Sale := mkSale {
  sale_productId : positive;
  productSnapshot : ProductSnapshot;
  quantitySold : Z;
  unitPriceAtSaleTZS : Z;
  totalPriceTZS : Z;
  paymentMethod : string;
  paymentStatus : string;
  soldBy : positive;
  sale_date : Z
}.

(** [models/Purchase.js] *)
Record Purchase := mkPurchase {
  purchase_productId : positive;
  quantityPurchased : Z;
  unitCostTZS : Z;
  totalCostTZS : Z;
  supplierText : string;
  purchasedBy : positive;
  purchase_date : Z
}.

Record Db := mkDb {
  products : gmap positive Product;
  sales : gmap positive Sale;
  purchases : gmap positive Purchase
}.

Definition emptyDb : Db := mkDb ∅ ∅ ∅.

(** ** Schema validation, as run by [create] and [save]

    Mongoose validates a document against its schema before it writes
    it, and throws a ValidationError when a validator fails. *)

(** [required] on a String path rejects the empty string. *)
Definition required_string (s : string) : bool :=
  if decide (s = "") then false else true.

Definition enum (allowed : list string) (s : string) : bool :=
  if decide (s ∈ allowed) then true else false.

(** productSchema: required strings, and [min: 0] on the three numbers.
    The [trim] and [uppercase] setters of the schema are left out: names,
    skus and categories are taken as already trimmed, and [createProduct]
    upper-cases the sku itself. *)
Definition validate_product (p : Product) : bool :=
  required_string (name p) && required_string (sku p)
  && required_string (category p)
  && (0 <=? unitPriceTZS p) && (0 <=? costPriceTZS p)
  && (0 <=? stockQuantity p).

Definition paymentMethod_enum : list string := ["cash"; "mobile"; "card"].
Definition paymentStatus_enum : list string := ["paid"; "pending"].

(** saleSchema *)
Definition validate_sale (s : Sale) : bool :=
  required_string (snapshot_name (productSnapshot s))
  && required_string (snapshot_sku (productSnapshot s))
  && (1 <=? quantitySold s) && (0 <=? unitPriceAtSaleTZS s)
  && (0 <=? totalPriceTZS s)
  && enum paymentMethod_enum (paymentMethod s)
  && enum paymentStatus_enum (paymentStatus s).

(** purchaseSchema. The [trim] setter of [supplierText] runs when a
    document is built or the path is assigned ([Purchase_doc],
    [set_supplierText]); the validators see its result. *)
Definition validate_purchase (p : Purchase) : bool :=
  (1 <=? quantityPurchased p) && (0 <=? unitCostTZS p)
  && (0 <=? totalCostTZS p) && required_string (supplierText p).

(** auditLogSchema: the [action] and [entityType] enums. *)
Definition audit_action_enum : list string :=
  ["login"; "login_2fa"; "logout"; "create_user"; "create_product";
   "update_product"; "delete_product"; "create_sale"; "create_purchase";
   "create_expense"; "update_expense"; "delete_expense"; "reset_password";
   "update_user"; "delete_user"].

Definition audit_entityType_enum : list string :=
  ["user"; "product"; "sale"; "purchase"; "expense"; "auth"].

(** ** Responses, exceptions, effects *)

Inductive ErrorBody :=
  | AllFieldsRequired
  | ProductNotFound
  | SaleNotFound
  | PurchaseNotFound
  | InsufficientStock (available requested : Z)
  | NegativeSellingPrice
  | SkuExists
  | FailedTo (what : string).

Inductive Payload :=
  | SalePayload (id : positive) (s : Sale)
  | PurchasePayload (id : positive) (p : Purchase)
  | ProductPayload (id : positive) (p : Product)
  | MessageOnly (message : string).

(** [res.status(code).json(...)] *)
Inductive Response :=
  | Ok (status : Z) (data : Payload)
  | Err (status : Z) (error : ErrorBody).

Inductive Exn :=
  | ValidationError
  | DatabaseError
  | TransactionError.

Inductive Event :=
  | EvStartTransaction
  | EvInsertSale (id : positive)
  | EvSaveSale (id : positive)
  | EvDeleteSale (id : positive)
  | EvInsertPurchase (id : positive)
  | EvSavePurchase (id : positive)
  | EvDeletePurchase (id : positive)
  | EvInsertProduct (id : positive)
  | EvSaveProduct (id : positive)
  | EvAuditLog (action entityType : string) (entityId : positive)
  | EvNotification (type : string) (recipient : positive)
  | EvConsoleError (message : string)
  | EvCommit
  | EvAbort
  | EvEndSession.

(** What a request carries besides its body, and what the handler cannot
    control: the clock (milliseconds since the epoch) and the server's
    time zone (milliseconds east of UTC), the authenticated user, the
    [User] collection's admins ([None]: the query fails), and which
    writes fail. *)
Record Env := mkEnv {
  now : Z;
  timezone : Z;
  userId : positive;
  admins : option (list positive);
  auditLogFails : bool;
  notificationFails : bool;
  commitFails : bool
}.

Record World := mkWorld {
  committed : Db;
  session : option Db;
  trace : list Event
}.

(** ** The handler monad *)

Inductive Outcome (A : Type) :=
  | Normal (a : A)
  | Returned (r : Response)
  | Thrown (e : Exn).
Arguments Normal {A} a.
Arguments Returned {A} r.
Arguments Thrown {A} e.

Definition Handler (A : Type) : Type := World -> Outcome A * World.

Definition ret {A} (a : A) : Handler A := fun w => (Normal a, w).

Definition bind {A B} (c : Handler A) (k : A -> Handler B) : Handler B :=
  fun w =>
    match c w with
    | (Normal a, w1) => k a w1
    | (Returned r, w1) => (Returned r, w1)
    | (Thrown e, w1) => (Thrown e, w1)
    end.

Notation "'let!' x ':=' c 'in' k" := (bind c (fun x => k))
  (at level 10, x pattern, c at level 100, k at level 200).

(** [return res.status(..).json(..)] *)
Definition respond {A} (r : Response) : Handler A := fun w => (Returned r, w).

Definition throw {A} (e : Exn) : Handler A := fun w => (Thrown e, w).

Definition emit (e : Event) : Handler unit :=
  fun w => (Normal tt, mkWorld (committed w) (session w) (trace w ++ [e])).

(** [try { body } catch (error) { handler }] *)
Definition try_catch {A} (body : Handler A) (handler : Exn -> Handler A)
  : Handler A :=
  fun w =>
    match body w with
    | (Thrown e, w1) => handler e w1
    | r => r
    end.

(** [try { body } catch (error) { handler } finally { fin }] *)
Definition try_catch_finally {A} (body : Handler A)
    (handler : Exn -> Handler A) (fin : Handler unit) : Handler A :=
  fun w =>
    let '(o, w1) := try_catch body handler w in
    (o, snd (fin w1)).

Definition when (b : bool) (c : Handler unit) : Handler unit :=
  if b then c else ret tt.

(** [for (const x of xs) { await f(x) }] *)
Fixpoint for_each {A} (xs : list A) (f : A -> Handler unit) : Handler unit :=
  match xs with
  | [] => ret tt
  | x :: xs' => let! _ := f x in for_each xs' f
  end.

(** ** The session *)

(** The database as the open transaction sees it. *)
Definition txdb (w : World) : Db := default (committed w) (session w).

Definition set_txdb (d : Db) : Handler unit :=
  fun w => (Normal tt, mkWorld (committed w) (Some d) (trace w)).

Definition read {A} (f : Db -> A) : Handler A :=
  fun w => (Normal (f (txdb w)), w).

(** [mongoose.startSession(); session.startTransaction()] *)
Definition startTransaction : Handler unit :=
  fun w => (Normal tt,
            mkWorld (committed w) (Some (committed w))
                    (trace w ++ [EvStartTransaction])).

(** [session.abortTransaction()] discards the open transaction; the
    driver throws when there is none: once [commitTransaction] has been
    called, whether it succeeded or failed, or after an abort. *)
Definition abortTransaction : Handler unit :=
  fun w =>
    match session w with
    | Some _ =>
      (Normal tt, mkWorld (committed w) None (trace w ++ [EvAbort]))
    | None => (Thrown TransactionError, w)
    end.

(** [session.commitTransaction()]: whether it publishes the working copy
    or fails, the transaction is no longer open. *)
Definition commitTransaction (env : Env) : Handler unit :=
  fun w =>
    if commitFails env then
      (Thrown TransactionError, mkWorld (committed w) None (trace w))
    else (Normal tt, mkWorld (txdb w) None (trace w ++ [EvCommit])).

Definition endSession : Handler unit :=
  fun w => (Normal tt,
            mkWorld (committed w) None (trace w ++ [EvEndSession])).

(** ** Model operations, all of them on the session *)

Definition Product_findById (id : positive) : Handler (option Product) :=
  read (fun d => products d !! id).

Definition Sale_findById (id : positive) : Handler (option Sale) :=
  read (fun d => sales d !! id).

Definition Purchase_findById (id : positive) : Handler (option Purchase) :=
  read (fun d => purchases d !! id).

(** [product.save({ session })] *)
Definition Product_save (id : positive) (p : Product) : Handler unit :=
  if validate_product p then
    let! d := read (fun d => d) in
    let! _ := set_txdb (mkDb (<[id := p]> (products d)) (sales d) (purchases d)) in
    emit (EvSaveProduct id)
  else throw ValidationError.

(** [sale.save({ session })] *)
Definition Sale_save (id : positive) (s : Sale) : Handler unit :=
  if validate_sale s then
    let! d := read (fun d => d) in
    let! _ := set_txdb (mkDb (products d) (<[id := s]> (sales d)) (purchases d)) in
    emit (EvSaveSale id)
  else throw ValidationError.

(** [product.save({ session })] on a product that may carry a cast
    error. *)
Definition Product_save_cast (id : positive) (doc : option Product)
  : Handler unit :=
  match doc with
  | Some p => Product_save id p
  | None => throw ValidationError
  end.

Definition Purchase_save (id : positive) (p : Purchase) : Handler unit :=
  if validate_purchase p then
    let! d := read (fun d => d) in
    let! _ := set_txdb (mkDb (products d) (sales d) (<[id := p]> (purchases d))) in
    emit (EvSavePurchase id)
  else throw ValidationError.

(** [Sale.create([doc], { session })]: the new document gets an id that
    no sale has. *)
Definition Sale_create (s : Sale) : Handler positive :=
  if validate_sale s then
    let! d := read (fun d => d) in
    let id := fresh (dom (sales d)) in
    let! _ := set_txdb (mkDb (products d) (<[id := s]> (sales d)) (purchases d)) in
    let! _ := emit (EvInsertSale id) in
    ret id
  else throw ValidationError.

Definition Purchase_create (p : Purchase) : Handler positive :=
  if validate_purchase p then
    let! d := read (fun d => d) in
    let id := fresh (dom (purchases d)) in
    let! _ := set_txdb (mkDb (products d) (sales d) (<[id := p]> (purchases d))) in
    let! _ := emit (EvInsertPurchase id) in
    ret id
  else throw ValidationError.

(** [Sale.findByIdAndDelete(id).session(session)] *)
Definition Sale_findByIdAndDelete (id : positive) : Handler unit :=
  let! d := read (fun d => d) in
  let! _ := set_txdb (mkDb (products d) (delete id (sales d)) (purchases d)) in
  emit (EvDeleteSale id).

Definition Purchase_findByIdAndDelete (id : positive) : Handler unit :=
  let! d := read (fun d => d) in
  let! _ := set_txdb (mkDb (products d) (sales d) (delete id (purchases d))) in
  emit (EvDeletePurchase id).

(** [User.find({ role: 'admin' })] *)
Definition User_find_admins (env : Env) : Handler (list positive) :=
  match admins env with
  | Some l => ret l
  | None => throw DatabaseError
  end.

(** ** [utils/auditLogger.js] *)

(** [AuditLog.create]: no session is passed, so the entry is written at
    once, whatever the transaction does later. *)
Definition AuditLog_create (env : Env) (action entityType : string)
    (entityId : positive) : Handler unit :=
  if auditLogFails env then throw DatabaseError
  else if enum audit_action_enum action && enum audit_entityType_enum entityType
  then emit (EvAuditLog action entityType entityId)
  else throw ValidationError.

Definition createAuditLog (env : Env) (action entityType : string)
    (entityId : positive) : Handler unit :=
  try_catch (AuditLog_create env action entityType entityId)
            (fun _ => emit (EvConsoleError "Failed to create audit log:")).

(** ** [utils/notificationHelper.js] *)

Definition Notification_create (env : Env) (type : string)
    (recipient : positive) : Handler unit :=
  if notificationFails env then throw DatabaseError
  else emit (EvNotification type recipient).

Definition createNotification (env : Env) (type : string)
    (recipient : positive) : Handler unit :=
  try_catch (Notification_create env type recipient)
            (fun _ => emit (EvConsoleError "Create notification error:")).

(** [Notification.insertMany], one document per admin. *)
Definition createLowStockNotification (env : Env) (allAdmins : list positive)
  : Handler unit :=
  try_catch (for_each allAdmins (Notification_create env "low_stock"))
            (fun _ => emit (EvConsoleError "Create low stock notification error:")).

Definition createSaleNotification (env : Env) (recipient : positive)
  : Handler unit :=
  try_catch (createNotification env "sale" recipient)
            (fun _ => emit (EvConsoleError "Create sale notification error:")).

Definition createPurchaseNotification (env : Env) (recipient : positive)
  : Handler unit :=
  try_catch (createNotification env "purchase" recipient)
            (fun _ => emit (EvConsoleError "Create purchase notification error:")).

(** ** Request bodies and JavaScript coercions *)

(** A numeric field as [express.json()] and [express.urlencoded()]
    deliver it: the number [n], or the string that writes [n] in decimal
    (the string of 5 is the text 5, of -3 the text -3). *)
Inductive Numeric :=
  | Num (n : Z)
  | NumStr (n : Z).

(** [parseFloat(x)], and what [-], [*], [<] and the cast of a Number
    path read of [x]. *)
Definition to_number (x : Numeric) : Z :=
  match x with
  | Num n => n
  | NumStr n => n
  end.

(** [if (x)]: [undefined] and the number 0 are falsy; a string that
    writes a number is not empty and is truthy, also the string of 0. *)
Definition truthy (x : option Numeric) : option Numeric :=
  match x with
  | Some (Num n) => if n =? 0 then None else Some (Num n)
  | Some (NumStr n) => Some (NumStr n)
  | None => None
  end.

(** The number read of a truthy field. *)
Definition truthy_number (x : option Numeric) : option Z :=
  to_number <$> truthy x.

(** [String(n)] *)
Definition String_of (n : Z) : string :=
  NilZero.string_of_int (Z.to_int n).

(** The cast of a string to a Number path ([Number(s)]); [None] is the
    cast error of a string that writes no number. *)
Definition Number_of (s : string) : option Z :=
  Z.of_int <$> NilZero.int_of_string s.

(** [a + x] assigned to a Number path, for a number [a]: the sum when
    [x] is a number; when [x] is a string, the text of [a] followed by
    [x], cast back to a number. *)
Definition plus (a : Z) (x : Numeric) : option Z :=
  match x with
  | Num n => Some (a + n)
  | NumStr n => Number_of (String_of a ++ String_of n)
  end.

(** [s.trim()], the setter of a String path with [trim: true]. *)
Definition is_space (c : Ascii.ascii) : bool :=
  let n := Ascii.nat_of_ascii c in
  (((9 <=? n) && (n <=? 13)) || (n =? 32))%nat.

Fixpoint trimStart (s : string) : string :=
  match s with
  | EmptyString => EmptyString
  | String c s' => if is_space c then trimStart s' else s
  end.

Fixpoint trimEnd (s : string) : string :=
  match s with
  | EmptyString => EmptyString
  | String c s' =>
    match trimEnd s' with
    | EmptyString => if is_space c then EmptyString else String c EmptyString
    | t => String c t
    end
  end.

Definition trim (s : string) : string := trimEnd (trimStart s).

(** [if (x)] on a string: [undefined] and the empty string are falsy. *)
Definition truthy_string (x : option string) : option string :=
  match x with
  | Some s => if decide (s = "") then None else Some s
  | None => None
  end.

(** [req.body] of [POST /sales] and [PUT /sales/:id] *)
Record SaleBody := mkSaleBody {
  sale_body_productId : option positive;
  sale_body_quantity : option Numeric;
  sale_body_sellingPrice : option Numeric;
  sale_body_paymentMethod : option string;
  sale_body_paymentStatus : option string
}.

(** [req.body] of [POST /purchases] and [PUT /purchases/:id] *)
Record PurchaseBody := mkPurchaseBody {
  purchase_body_productId : option positive;
  purchase_body_quantity : option Numeric;
  purchase_body_costPrice : option Numeric;
  purchase_body_supplier : option string
}.

(** [req.body] of [POST /products]; [description] and [reorderLevel] are
    not paths of productSchema and are dropped by [Product.create]. The
    handlers of products only test the numeric fields against
    [undefined] and hand them to the schema, whose cast reads a number
    and the string that writes it alike: a numeric field is given by the
    number it is cast to. *)
Record ProductBody := mkProductBody {
  product_body_name : option string;
  product_body_sku : option string;
  product_body_category : option string;
  product_body_costPrice : option Z;
  product_body_sellingPrice : option Z;
  product_body_stockQuantity : option Z
}.

Definition set_stockQuantity (p : Product) (q : Z) : Product :=
  mkProduct (name p) (sku p) (category p) (unitPriceTZS p) (costPriceTZS p) q.

Definition set_costPriceTZS (p : Product) (c : Z) : Product :=
  mkProduct (name p) (sku p) (category p) (unitPriceTZS p) c (stockQuantity p).

Definition set_quantitySold (s : Sale) (q : Z) : Sale :=
  mkSale (sale_productId s) (productSnapshot s) q (unitPriceAtSaleTZS s)
         (totalPriceTZS s) (paymentMethod s) (paymentStatus s) (soldBy s)
         (sale_date s).

Definition set_unitPriceAtSaleTZS (s : Sale) (u : Z) : Sale :=
  mkSale (sale_productId s) (productSnapshot s) (quantitySold s) u
         (totalPriceTZS s) (paymentMethod s) (paymentStatus s) (soldBy s)
         (sale_date s).

Definition set_totalPriceTZS (s : Sale) (t : Z) : Sale :=
  mkSale (sale_productId s) (productSnapshot s) (quantitySold s)
         (unitPriceAtSaleTZS s) t (paymentMethod s) (paymentStatus s)
         (soldBy s) (sale_date s).

Definition set_paymentMethod (s : Sale) (m : string) : Sale :=
  mkSale (sale_productId s) (productSnapshot s) (quantitySold s)
         (unitPriceAtSaleTZS s) (totalPriceTZS s) m (paymentStatus s)
         (soldBy s) (sale_date s).

Definition set_paymentStatus (s : Sale) (st : string) : Sale :=
  mkSale (sale_productId s) (productSnapshot s) (quantitySold s)
         (unitPriceAtSaleTZS s) (totalPriceTZS s) (paymentMethod s) st
         (soldBy s) (sale_date s).

Definition set_quantityPurchased (p : Purchase) (q : Z) : Purchase :=
  mkPurchase (purchase_productId p) q (unitCostTZS p) (totalCostTZS p)
             (supplierText p) (purchasedBy p) (purchase_date p).

Definition set_unitCostTZS (p : Purchase) (c : Z) : Purchase :=
  mkPurchase (purchase_productId p) (quantityPurchased p) c (totalCostTZS p)
             (supplierText p) (purchasedBy p) (purchase_date p).

Definition set_totalCostTZS (p : Purchase) (t : Z) : Purchase :=
  mkPurchase (purchase_productId p) (quantityPurchased p) (unitCostTZS p) t
             (supplierText p) (purchasedBy p) (purchase_date p).

(** [purchase.supplierText = s]: the path has [trim: true]. *)
Definition set_supplierText (p : Purchase) (s : string) : Purchase :=
  mkPurchase (purchase_productId p) (quantityPurchased p) (unitCostTZS p)
             (totalCostTZS p) (trim s) (purchasedBy p) (purchase_date p).

(** [new Purchase({ .. })]: the numbers are cast and the supplier is
    trimmed, before any validator runs. *)
Definition Purchase_doc (productId : positive)
    (quantityPurchased unitCostTZS : Numeric) (totalCostTZS : Z)
    (supplierText : string) (purchasedBy : positive) (date : Z) : Purchase :=
  mkPurchase productId (to_number quantityPurchased) (to_number unitCostTZS)
             totalCostTZS (trim supplierText) purchasedBy date.

(** [product.stockQuantity += x]: the value of [+] is cast when it is
    assigned; a text that writes no number leaves a cast error on the
    path ([None]), which [save] throws. *)
Definition add_to_stock (product : Product) (x : Numeric) : option Product :=
  set_stockQuantity product <$> plus (stockQuantity product) x.

(** [obj.field = x] under [if (x)] *)
Definition assign_if {A B} (set : A -> B -> A) (a : A) (x : option B) : A :=
  match x with
  | Some b => set a b
  | None => a
  end.

(** [await session.abortTransaction(); return res.status(..).json(..)] *)
Definition abort_with {A} (status : Z) (e : ErrorBody) : Handler A :=
  let! _ := abortTransaction in respond (Err status e).

(** [catch (error) { await session.abortTransaction(); console.error(..);
    res.status(500).json(..) }] *)
Definition on_error {A} (logged what : string) (_ : Exn) : Handler A :=
  let! _ := abortTransaction in
  let! _ := emit (EvConsoleError logged) in
  respond (Err 500 (FailedTo what)).

(** ** [controllers/saleController.js] *)

Definition createSale (env : Env) (body : SaleBody) : Handler unit :=
  let! _ := startTransaction in
  try_catch_finally
    (let paymentStatus := default "Paid" (sale_body_paymentStatus body) in
     match sale_body_productId body, truthy_number (sale_body_quantity body),
           truthy_number (sale_body_sellingPrice body),
           truthy_string (sale_body_paymentMethod body) with
     | Some productId, Some quantity, Some sellingPrice, Some paymentMethod =>
       let! found := Product_findById productId in
       match found with
       | None => abort_with 404 ProductNotFound
       | Some product =>
         if stockQuantity product <? quantity then
           abort_with 400 (InsufficientStock (stockQuantity product) quantity)
         else
           let unitPriceAtSaleTZS := sellingPrice in
           let quantitySold := quantity in
           if unitPriceAtSaleTZS <? 0 then abort_with 400 NegativeSellingPrice
           else
             let totalPriceTZS := quantitySold * unitPriceAtSaleTZS in
             let sale :=
               mkSale productId (mkSnapshot (name product) (sku product))
                      quantitySold unitPriceAtSaleTZS totalPriceTZS
                      paymentMethod paymentStatus (userId env) (now env) in
             let! saleId := Sale_create sale in
             let product :=
               set_stockQuantity product (stockQuantity product - quantitySold) in
             let! _ := Product_save productId product in
             let! _ :=
               when ((stockQuantity product <=? 5) && (0 <? stockQuantity product))
                 (let! admins := User_find_admins env in
                  match admins with
                  | [] => ret tt
                  | _ => createLowStockNotification env admins
                  end) in
             let! _ := createAuditLog env "create_sale" "sale" saleId in
             let! admins := User_find_admins env in
             let! _ := for_each admins (createSaleNotification env) in
             let! _ := commitTransaction env in
             respond (Ok 201 (SalePayload saleId sale))
       end
     | _, _, _, _ => abort_with 400 AllFieldsRequired
     end)
    (on_error "Create sale error:" "record sale")
    endSession.

Definition updateSale (env : Env) (id : positive) (body : SaleBody)
  : Handler unit :=
  let! _ := startTransaction in
  try_catch_finally
    (let quantity := truthy_number (sale_body_quantity body) in
     let sellingPrice := truthy_number (sale_body_sellingPrice body) in
     let paymentMethod := truthy_string (sale_body_paymentMethod body) in
     let paymentStatus := truthy_string (sale_body_paymentStatus body) in
     let! found := Sale_findById id in
     match found with
     | None => abort_with 404 SaleNotFound
     | Some sale =>
       let! found := Product_findById (sale_productId sale) in
       match found with
       | None => abort_with 404 ProductNotFound
       | Some product =>
         (* Restore old stock *)
         let product :=
           set_stockQuantity product (stockQuantity product + quantitySold sale) in
         (* Validate new stock *)
         let! _ :=
           match quantity with
           | Some q =>
             if stockQuantity product <? q then
               abort_with 400 (InsufficientStock (stockQuantity product) q)
             else ret tt
           | None => ret tt
           end in
         (* Update sale fields *)
         let product :=
           assign_if (fun p q => set_stockQuantity p (stockQuantity p - q))
                     product quantity in
         let sale := assign_if set_quantitySold sale quantity in
         let sale := assign_if set_unitPriceAtSaleTZS sale sellingPrice in
         let sale := assign_if set_paymentMethod sale paymentMethod in
         let sale := assign_if set_paymentStatus sale paymentStatus in
         (* Recalculate total *)
         let sale :=
           set_totalPriceTZS sale (quantitySold sale * unitPriceAtSaleTZS sale) in
         let! _ := Sale_save id sale in
         let! _ := Product_save (sale_productId sale) product in
         let! _ := createAuditLog env "update_sale" "sale" id in
         let! _ := commitTransaction env in
         respond (Ok 200 (SalePayload id sale))
       end
     end)
    (on_error "Update sale error:" "update sale")
    endSession.

Definition deleteSale (env : Env) (id : positive) : Handler unit :=
  let! _ := startTransaction in
  try_catch_finally
    (let! found := Sale_findById id in
     match found with
     | None => abort_with 404 SaleNotFound
     | Some sale =>
       (* Restore stock to product *)
       let! found := Product_findById (sale_productId sale) in
       let! _ :=
         match found with
         | Some product =>
           Product_save (sale_productId sale)
             (set_stockQuantity product (stockQuantity product + quantitySold sale))
         | None => ret tt
         end in
       let! _ := createAuditLog env "delete_sale" "sale" id in
       let! _ := Sale_findByIdAndDelete id in
       let! _ := commitTransaction env in
       respond (Ok 200 (MessageOnly "Sale deleted successfully and stock restored."))
     end)
    (on_error "Delete sale error:" "delete sale")
    endSession.

(** ** [controllers/purchaseController.js] *)

Definition createPurchase (env : Env) (body : PurchaseBody) : Handler unit :=
  let! _ := startTransaction in
  try_catch_finally
    (match purchase_body_productId body,
           truthy (purchase_body_quantity body),
           truthy (purchase_body_costPrice body),
           truthy_string (purchase_body_supplier body) with
     | Some productId, Some quantity, Some costPrice, Some supplier =>
       let! found := Product_findById productId in
       match found with
       | None => abort_with 404 ProductNotFound
       | Some product =>
         let quantityPurchased := quantity in
         let unitCostTZS := costPrice in
         let supplierText := supplier in
         let totalCostTZS :=
           to_number quantityPurchased * to_number unitCostTZS in
         let purchase :=
           Purchase_doc productId quantityPurchased unitCostTZS totalCostTZS
                        supplierText (userId env) (now env) in
         let! purchaseId := Purchase_create purchase in
         (* Increment stock *)
         let product := add_to_stock product quantityPurchased in
         let product :=
           (fun p => set_costPriceTZS p (to_number unitCostTZS)) <$> product in
         let! _ := Product_save_cast productId product in
         let! _ := createAuditLog env "create_purchase" "purchase" purchaseId in
         let! admins := User_find_admins env in
         let! _ := for_each admins (createPurchaseNotification env) in
         let! _ := commitTransaction env in
         respond (Ok 201 (PurchasePayload purchaseId purchase))
       end
     | _, _, _, _ => abort_with 400 AllFieldsRequired
     end)
    (on_error "Create purchase error:" "record purchase")
    endSession.

Definition updatePurchase (env : Env) (id : positive) (body : PurchaseBody)
  : Handler unit :=
  let! _ := startTransaction in
  try_catch_finally
    (let quantity := truthy (purchase_body_quantity body) in
     let costPrice := truthy_number (purchase_body_costPrice body) in
     let supplier := truthy_string (purchase_body_supplier body) in
     let! found := Purchase_findById id in
     match found with
     | None => abort_with 404 PurchaseNotFound
     | Some purchase =>
       let! found := Product_findById (purchase_productId purchase) in
       match found with
       | None => abort_with 404 ProductNotFound
       | Some product =>
         (* Restore old stock *)
         let product :=
           set_stockQuantity product
             (stockQuantity product - quantityPurchased purchase) in
         (* Update purchase fields *)
         let product :=
           match quantity with
           | Some q => add_to_stock product q
           | None =>
             Some (set_stockQuantity product
                     (stockQuantity product + quantityPurchased purchase))
           end in
         let purchase :=
           assign_if set_quantityPurchased purchase (to_number <$> quantity) in
         let purchase := assign_if set_unitCostTZS purchase costPrice in
         let product :=
           (fun p => assign_if set_costPriceTZS p costPrice) <$> product in
         let purchase := assign_if set_supplierText purchase supplier in
         (* Recalculate total *)
         let purchase :=
           set_totalCostTZS purchase
             (quantityPurchased purchase * unitCostTZS purchase) in
         let! _ := Purchase_save id purchase in
         let! _ := Product_save_cast (purchase_productId purchase) product in
         let! _ := createAuditLog env "update_purchase" "purchase" id in
         let! _ := commitTransaction env in
         respond (Ok 200 (PurchasePayload id purchase))
       end
     end)
    (on_error "Update purchase error:" "update purchase")
    endSession.

Definition deletePurchase (env : Env) (id : positive) : Handler unit :=
  let! _ := startTransaction in
  try_catch_finally
    (let! found := Purchase_findById id in
     match found with
     | None => abort_with 404 PurchaseNotFound
     | Some purchase =>
       (* Remove stock from product *)
       let! found := Product_findById (purchase_productId purchase) in
       let! _ :=
         match found with
         | Some product =>
           Product_save (purchase_productId purchase)
             (set_stockQuantity product
                (stockQuantity product - quantityPurchased purchase))
         | None => ret tt
         end in
       let! _ := createAuditLog env "delete_purchase" "purchase" id in
       let! _ := Purchase_findByIdAndDelete id in
       let! _ := commitTransaction env in
       respond (Ok 200 (MessageOnly "Purchase deleted successfully and stock adjusted."))
     end)
    (on_error "Delete purchase error:" "delete purchase")
    endSession.

(** ** [controllers/productController.js] *)

Definition upper_ascii (c : Ascii.ascii) : Ascii.ascii :=
  let n := Ascii.nat_of_ascii c in
  if ((97 <=? n) && (n <=? 122))%nat then Ascii.ascii_of_nat (n - 32) else c.

Fixpoint toUpperCase (s : string) : string :=
  match s with
  | EmptyString => EmptyString
  | String c s' => String (upper_ascii c) (toUpperCase s')
  end.

(** [Product.findOne({ sku })], outside any session *)
Definition Product_findOne_sku (s : string) : Handler (option Product) :=
  fun w =>
    (Normal (snd <$> head (filter (fun kp => sku (snd kp) = s)
                                  (map_to_list (products (committed w))))),
     w).

(** [Product.create(doc)], outside any session *)
Definition Product_create (p : Product) : Handler positive :=
  fun w =>
    if validate_product p then
      let d := committed w in
      let id := fresh (dom (products d)) in
      (Normal id,
       mkWorld (mkDb (<[id := p]> (products d)) (sales d) (purchases d))
               (session w) (trace w ++ [EvInsertProduct id]))
    else (Thrown ValidationError, w).

Definition createProduct (env : Env) (body : ProductBody) : Handler unit :=
  try_catch
    (match truthy_string (product_body_name body),
           truthy_string (product_body_sku body),
           truthy_string (product_body_category body),
           product_body_costPrice body, product_body_sellingPrice body with
     | Some name, Some sku, Some category, Some costPrice, Some sellingPrice =>
       let! existingSKU := Product_findOne_sku (toUpperCase sku) in
       match existingSKU with
       | Some _ => respond (Err 400 SkuExists)
       | None =>
         (* [stockQuantity || 0]: a falsy quantity is cast to 0 *)
         let product :=
           mkProduct name (toUpperCase sku) category sellingPrice costPrice
                     (default 0 (product_body_stockQuantity body)) in
         let! id := Product_create product in
         let! _ := createAuditLog env "create_product" "product" id in
         respond (Ok 201 (ProductPayload id product))
       end
     | _, _, _, _, _ => respond (Err 400 AllFieldsRequired)
     end)
    (fun _ =>
       let! _ := emit (EvConsoleError "Create product error:") in
       respond (Err 500 (FailedTo "create product"))).

(** ** Running a request *)

(** The six operations that record or rewrite a transaction. *)
Inductive Op :=
  | CreateSale (body : SaleBody)
  | UpdateSale (id : positive) (body : SaleBody)
  | DeleteSale (id : positive)
  | CreatePurchase (body : PurchaseBody)
  | UpdatePurchase (id : positive) (body : PurchaseBody)
  | DeletePurchase (id : positive).

Definition handler (env : Env) (op : Op) : Handler unit :=
  match op with
  | CreateSale body => createSale env body
  | UpdateSale id body => updateSale env id body
  | DeleteSale id => deleteSale env id
  | CreatePurchase body => createPurchase env body
  | UpdatePurchase id body => updatePurchase env id body
  | DeletePurchase id => deletePurchase env id
  end.

(** The response a handler sends, if it sends one, and the world it
    leaves. *)
Definition run (h : Handler unit) (w : World) : option Response * World :=
  match h w with
  | (Returned r, w') => (Some r, w')
  | (_, w') => (None, w')
  end.

Definition response (h : Handler unit) (w : World) : option Response :=
  fst (run h w).

Definition after (h : Handler unit) (w : World) : World := snd (run h w).

Definition is_success (r : option Response) : bool :=
  match r with
  | Some (Ok _ _) => true
  | _ => false
  end.

Definition is_error (r : option Response) : bool :=
  match r with
  | Some (Err _ _) => true
  | _ => false
  end.

Definition world_of (d : Db) : World := mkWorld d None [].

(** The stock of a product in the committed database. *)
Definition stock (w : World) (pid : positive) : option Z :=
  stockQuantity <$> products (committed w) !! pid.

(** ** [controllers/reportController.js] *)

(** Only the totals of [getSalesReport] are embedded; its timeline,
    top-products and payment-method pipelines share [matchStage]. *)

Definition msPerDay : Z := 86400000.

(** [d.setHours(h, m, s, ms)] in the server's time zone *)
Definition setHours (tz t h m s ms : Z) : Z :=
  let local := t + tz in
  local - local mod msPerDay + (h * 3600000 + m * 60000 + s * 1000 + ms) - tz.

(** [req.query] of the report routes, the dates already parsed by
    [new Date(..)]. *)
Record ReportQuery := mkReportQuery {
  startDate : option Z;
  endDate : option Z;
  groupBy : option string
}.

(** [{ $gte, $lte }] *)
Record DateFilter := mkDateFilter {
  gte : option Z;
  lte : option Z
}.

Definition in_date_filter (f : DateFilter) (t : Z) : bool :=
  match gte f with Some a => a <=? t | None => true end
  && match lte f with Some b => t <=? b | None => true end.

(** The documents of a collection that a [$match] stage lets through. *)
Definition aggregate_match {A} (coll : gmap positive A) (m : A -> bool)
  : list A :=
  List.filter m (snd <$> map_to_list coll).

Definition sum_of {A} (f : A -> Z) (l : list A) : Z :=
  foldr (fun a acc => f a + acc) 0 l.

(** [{ $group: { _id: null, .. } }] yields no document on no input. *)
Definition group_null {A B} (summary : list A -> B) (l : list A) : list B :=
  match l with
  | [] => []
  | _ => [summary l]
  end.

(** A JSON object whose values are numbers. *)
Definition JsonNumbers := list (string * Q).

Definition field (k : string) (o : JsonNumbers) : option Q :=
  snd <$> head (filter (fun kv => fst kv = k) o).

Record SalesTotals := mkSalesTotals {
  totalRevenue : Z;
  totalOrders : Z;
  totalQuantity : Z
}.

Record PendingTotals := mkPendingTotals {
  totalPending : Z;
  pendingOrders : Z
}.

Definition sales_dateFilter (env : Env) (q : ReportQuery) : DateFilter :=
  mkDateFilter (startDate q)
               ((fun e => setHours (timezone env) e 23 59 59 999) <$> endDate q).

(** [matchStage]: the date range, and paid sales only. *)
Definition matchStage (env : Env) (q : ReportQuery) (s : Sale) : bool :=
  in_date_filter (sales_dateFilter env q) (sale_date s)
  && bool_decide (paymentStatus s = "paid").

Definition pendingMatchStage (env : Env) (q : ReportQuery) (s : Sale) : bool :=
  in_date_filter (sales_dateFilter env q) (sale_date s)
  && bool_decide (paymentStatus s = "pending").

Definition totalsResult (env : Env) (q : ReportQuery) (d : Db)
  : list SalesTotals :=
  group_null
    (fun l => mkSalesTotals (sum_of totalPriceTZS l) (Z.of_nat (length l))
                            (sum_of quantitySold l))
    (aggregate_match (sales d) (matchStage env q)).

Definition pendingTotalsResult (env : Env) (q : ReportQuery) (d : Db)
  : list PendingTotals :=
  group_null
    (fun l => mkPendingTotals (sum_of totalPriceTZS l) (Z.of_nat (length l)))
    (aggregate_match (sales d) (pendingMatchStage env q)).

(** The local [totals] object, after [totals.pendingRevenue = ..] and
    [totals.pendingOrders = ..]. *)
Definition salesReport_local_totals (env : Env) (q : ReportQuery) (d : Db)
  : JsonNumbers :=
  let totals := default (mkSalesTotals 0 0 0) (head (totalsResult env q d)) in
  let pendingTotals :=
    default (mkPendingTotals 0 0) (head (pendingTotalsResult env q d)) in
  [("totalRevenue", inject_Z (totalRevenue totals));
   ("totalOrders", inject_Z (totalOrders totals));
   ("totalQuantity", inject_Z (totalQuantity totals));
   ("pendingRevenue", inject_Z (totalPending pendingTotals));
   ("pendingOrders", inject_Z (pendingOrders pendingTotals))].

(** [data.totals] of the response of [getSalesReport]. *)
Definition getSalesReport_totals (env : Env) (q : ReportQuery) (d : Db)
  : JsonNumbers :=
  let totals := default (mkSalesTotals 0 0 0) (head (totalsResult env q d)) in
  [("totalRevenue", inject_Z (totalRevenue totals));
   ("totalOrders", inject_Z (totalOrders totals));
   ("totalQuantity", inject_Z (totalQuantity totals));
   ("averageOrderValue",
    if 0 <? totalOrders totals
    then (inject_Z (totalRevenue totals) / inject_Z (totalOrders totals))%Q
    else 0%Q)].

(** The group of one product in [topProductToday]'s pipeline. *)
Record ProductGroup := mkProductGroup {
  group_id : positive;
  group_name : string;
  group_sku : string;
  group_quantity : Z
}.

(** [{ $group: { _id: '$productId', name: { $first: .. },
    sku: { $first: .. }, quantity: { $sum: '$quantitySold' } } }],
    one document at a time. *)
Fixpoint group_add (s : Sale) (groups : list ProductGroup)
  : list ProductGroup :=
  match groups with
  | [] =>
    [mkProductGroup (sale_productId s) (snapshot_name (productSnapshot s))
                    (snapshot_sku (productSnapshot s)) (quantitySold s)]
  | g :: gs =>
    if decide (group_id g = sale_productId s) then
      mkProductGroup (group_id g) (group_name g) (group_sku g)
                     (group_quantity g + quantitySold s) :: gs
    else g :: group_add s gs
  end.

Definition group_by_product (l : list Sale) : list ProductGroup :=
  foldl (fun groups s => group_add s groups) [] l.

(** [{ $sort: { quantity: -1 } }, { $limit: 1 }]; among equal
    quantities the first group met is kept. *)
Definition top_by_quantity (groups : list ProductGroup) : option ProductGroup :=
  foldl (fun best g =>
           match best with
           | None => Some g
           | Some b =>
             if group_quantity b <? group_quantity g then Some g else Some b
           end) None groups.

(** [{ $group: { _id: <day>, revenue: { $sum: .. } } }, { $sort: { _id: 1 } }]:
    the buckets are kept in ascending order of their day. *)
Fixpoint bucket_add (day revenue : Z) (buckets : list (Z * Z))
  : list (Z * Z) :=
  match buckets with
  | [] => [(day, revenue)]
  | (d, r) :: rest =>
    if day <? d then (day, revenue) :: buckets
    else if day =? d then (d, r + revenue) :: rest
    else (d, r) :: bucket_add day revenue rest
  end.

(** The day of a date, standing for its ['%Y-%m-%d'] string. *)
Definition day_of (t : Z) : Z := t / msPerDay.

Definition daily_revenue (l : list Sale) : list (Z * Z) :=
  foldr (fun s acc => bucket_add (day_of (sale_date s)) (totalPriceTZS s) acc)
        [] l.

Record TodayStats := mkTodayStats {
  revenue : Z;
  orders : Z
}.

(** [dashboard] of the response of [getDashboardSummary]. *)
Record Dashboard := mkDashboard {
  todayRevenue : Z;
  todayOrders : Z;
  topProductToday : option ProductGroup;
  lowStockCount : Z;
  pendingPayments : Z;
  monthlyRevenueChart : list (Z * Z)
}.

Definition getDashboardSummary (env : Env) (d : Db) : Dashboard :=
  let today := setHours (timezone env) (now env) 0 0 0 0 in
  let tomorrow := today + msPerDay in
  let is_today (s : Sale) := (today <=? sale_date s) && (sale_date s <? tomorrow) in
  (* Today's sales *)
  let todaySales :=
    group_null (fun l => mkTodayStats (sum_of totalPriceTZS l) (Z.of_nat (length l)))
               (aggregate_match (sales d) is_today) in
  let todayStats := default (mkTodayStats 0 0) (head todaySales) in
  (* Top product today *)
  let topProductToday :=
    top_by_quantity (group_by_product (aggregate_match (sales d) is_today)) in
  (* Low stock count *)
  let lowStockCount :=
    Z.of_nat (length (aggregate_match (products d)
                                      (fun p => stockQuantity p <=? 5))) in
  (* Monthly revenue (last 30 days) *)
  let thirtyDaysAgo := today - 30 * msPerDay in
  let monthlyRevenue :=
    daily_revenue (aggregate_match (sales d)
                                   (fun s => thirtyDaysAgo <=? sale_date s)) in
  (* Pending payments *)
  let pendingPayments :=
    Z.of_nat (length (aggregate_match (sales d)
                        (fun s => bool_decide (paymentStatus s = "pending")))) in
  mkDashboard (revenue todayStats) (orders todayStats) topProductToday
              lowStockCount pendingPayments monthlyRevenue.

(** ** The ledger read back from the committed rows *)

(** The sum of [f] over the documents of a collection. *)
Definition total {A} (f : A -> Z) (coll : gmap positive A) : Z :=
  sum_of f (snd <$> map_to_list coll).

(** Units of product [pid] sold, over all sale rows. *)
Definition sold (d : Db) (pid : positive) : Z :=
  total (fun s => if decide (sale_productId s = pid) then quantitySold s else 0)
        (sales d).

(** Units of product [pid] purchased, over all purchase rows. *)
Definition purchased (d : Db) (pid : positive) : Z :=
  total (fun p => if decide (purchase_productId p = pid)
                  then quantityPurchased p else 0)
        (purchases d).

(** The stock that replaying the rows from 0 gives. *)
Definition replayed_stock (d : Db) (pid : positive) : Z :=
  purchased d pid - sold d pid.

(** The same world with more events logged. *)
Definition log (w : World) (events : list Event) : World :=
  mkWorld (committed w) (session w) (trace w ++ events).

(** What [createAuditLog] appends to the trace. *)
Definition audit_events (env : Env) (action entityType : string)
    (entityId : positive) : list Event :=
  if auditLogFails env then [EvConsoleError "Failed to create audit log:"]
  else if enum audit_action_enum action && enum audit_entityType_enum entityType
  then [EvAuditLog action entityType entityId]
  else [EvConsoleError "Failed to create audit log:"].

(** What one sale or purchase notification appends to the trace. *)
Definition notification_events (env : Env) (type : string)
    (recipient : positive) : list Event :=
  if notificationFails env then [EvConsoleError "Create notification error:"]
  else [EvNotification type recipient].

(** What [createLowStockNotification] appends to the trace. *)
Definition lowStock_events (env : Env) (allAdmins : list positive)
  : list Event :=
  match allAdmins with
  | [] => []
  | _ =>
    if notificationFails env
    then [EvConsoleError "Create low stock notification error:"]
    else EvNotification "low_stock" <$> allAdmins
  end.

(** The same request when the audit and notification writes fail as
    [audit] and [notification] say. *)
Definition with_failures (env : Env) (audit notification : bool) : Env :=
  mkEnv (now env) (timezone env) (userId env) (admins env)
        audit notification (commitFails env).

(** Audit and notification writes, and the console lines that replace
    them when they fail. *)
Definition is_side_write (e : Event) : bool :=
  match e with
  | EvAuditLog _ _ _ | EvNotification _ _ | EvConsoleError _ => true
  | _ => false
  end.

Definition is_commit (e : Event) : bool :=
  match e with
  | EvCommit => true
  | _ => false
  end.

(** The events up to the first commit. *)
Fixpoint before_commit (t : list Event) : list Event :=
  match t with
  | [] => []
  | e :: t' => if is_commit e then [] else e :: before_commit t'
  end.

(** No audit entry and no notification is written before the commit. *)
Definition side_writes_after_commit (t : list Event) : bool :=
  forallb (fun e => negb (is_side_write e)) (before_commit t).

(** The product's stock minus what the committed rows replay to. *)
Definition ledger_offset (d : Db) (pid : positive) : option Z :=
  (fun p => stockQuantity p - replayed_stock d pid) <$> products d !! pid.

(** Whether a quantity is absent or sent as a number, not as text. *)
Definition sent_as_number (x : option Numeric) : bool :=
  match x with
  | Some (NumStr _) => false
  | _ => true
  end.

(** The operations that move the stock with the rows: an update of a
    sale that carries a quantity, a purchase recorded or updated with a
    quantity that is not sent as text, and every other operation. *)
Definition keeps_offset (op : Op) : bool :=
  match op with
  | UpdateSale _ body =>
    match truthy_number (sale_body_quantity body) with
    | Some _ => true
    | None => false
    end
  | CreatePurchase body => sent_as_number (purchase_body_quantity body)
  | UpdatePurchase _ body => sent_as_number (purchase_body_quantity body)
  | _ => true
  end.

(** ** The scenarios of the specification *)

Definition admin : positive := 1%positive.
Definition P : positive := 7%positive.

Definition env0 : Env := mkEnv 0 0 admin (Some [admin]) false false false.

(** Product P: stock 10, cost 100, price 150. *)
Definition productP : Product := mkProduct "Widget" "W-1" "tools" 150 100 10.

Definition world0 : World := world_of (mkDb {[ P := productP ]} ∅ ∅).

(** Scenario A: a sale of 3 at 150, cash, paid. *)
Definition saleA : SaleBody :=
  mkSaleBody (Some P) (Some (Num 3)) (Some (Num 150)) (Some "cash")
             (Some "paid").

Definition worldA : World := after (createSale env0 saleA) world0.

(** Scenario B: a purchase of 5 at 90 from Acme. *)
Definition purchaseB : PurchaseBody :=
  mkPurchaseBody (Some P) (Some (Num 5)) (Some (Num 90)) (Some "Acme").

Definition worldB : World := after (createPurchase env0 purchaseB) worldA.

(** Scenario C: a sale of 20. *)
Definition saleC : SaleBody :=
  mkSaleBody (Some P) (Some (Num 20)) (Some (Num 150)) (Some "cash")
             (Some "paid").

(** A product with no stock yet, a purchase of 5 and then a sale of 3,
    which leaves 2 of the purchased units. *)
Definition worldZ : World :=
  world_of (mkDb {[ P := set_stockQuantity productP 0 ]} ∅ ∅).

Definition worldPurchased : World := after (createPurchase env0 purchaseB) worldZ.

Definition worldSold : World := after (createSale env0 saleA) worldPurchased.

(** An update of a sale that changes its payment status only, and an
    update of a purchase that changes its supplier only. *)
Definition onlyStatus : SaleBody :=
  mkSaleBody None None None None (Some "pending").

Definition onlySupplier : PurchaseBody :=
  mkPurchaseBody None None None (Some "Beta").

(** One paid sale of 3 for 450 and one pending sale of 2 for 200, both
    made today. *)
Definition paidSale : Sale :=
  mkSale P (mkSnapshot "Widget" "W-1") 3 150 450 "cash" "paid" admin 1000.

Definition pendingSale : Sale :=
  mkSale P (mkSnapshot "Widget" "W-1") 2 100 200 "cash" "pending" admin 2000.

Definition reportDb : Db :=
  mkDb {[ P := productP ]}
       {[ 1%positive := paidSale; 2%positive := pendingSale ]} ∅.

(** Only the pending sale. *)
Definition pendingDb : Db :=
  mkDb {[ P := productP ]} {[ 1%positive := pendingSale ]} ∅.

Definition anyRange : ReportQuery := mkReportQuery None None None.

(** [n] createSale requests with the same body, served one after the
    other: their responses, in order, and the world they leave. *)
Fixpoint serve_sales (env : Env) (body : SaleBody) (n : nat) (w : World)
  : list (option Response) * World :=
  match n with
  | O => ([], w)
  | S n' =>
    let '(r, w1) := run (createSale env body) w in
    let '(rs, w2) := serve_sales env body n' w1 in
    (r :: rs, w2)
  end.

Definition successes (rs : list (option Response)) : nat :=
  length (List.filter is_success rs).

(** ** Handlers that open no session

    [updatePaymentStatus], [updateProduct] and [deleteProduct] read and
    write the collections directly. Their early [return res...] are the
    branches of the embedding, and their answer is the value of the
    handler. *)

(** What these handlers refuse with. *)
Inductive Refusal :=
  | InvalidPaymentStatus
  | NotFound (what : string)
  | Failed (what : string).

Inductive Reply (A : Type) :=
  | Done (status : Z) (data : A)
  | Refused (status : Z) (error : Refusal).
Arguments Done {A} status data.
Arguments Refused {A} status error.

Definition is_done {A} (o : Outcome (Reply A)) : bool :=
  match o with
  | Normal (Done _ _) => true
  | _ => false
  end.

Definition read_committed {A} (f : Db -> A) : Handler A :=
  fun w => (Normal (f (committed w)), w).

Definition set_committed (d : Db) : Handler unit :=
  fun w => (Normal tt, mkWorld d (session w) (trace w)).

(** [sale.save()] *)
Definition Sale_save_direct (id : positive) (s : Sale) : Handler unit :=
  if validate_sale s then
    let! d := read_committed (fun d => d) in
    let! _ := set_committed (mkDb (products d) (<[id := s]> (sales d)) (purchases d)) in
    emit (EvSaveSale id)
  else throw ValidationError.

(** Whether a product other than [id] has the sku [s]. *)
Definition sku_taken (d : Db) (id : positive) (s : string) : bool :=
  bool_decide (Exists (fun kp => fst kp <> id /\ sku (snd kp) = s)
                      (map_to_list (products d))).

(** Whether saving [p] under [id] writes a new value of the sku. *)
Definition sku_modified (d : Db) (id : positive) (p : Product) : bool :=
  match products d !! id with
  | Some old => bool_decide (sku old <> sku p)
  | None => true
  end.

(** [product.save()]: the document is validated, and the write of a
    modified sku fails on the unique index of [sku] when another product
    has it. *)
Definition Product_save_direct (id : positive) (p : Product) : Handler unit :=
  if validate_product p then
    let! d := read_committed (fun d => d) in
    if sku_modified d id p && sku_taken d id (sku p) then throw DatabaseError
    else
      let! _ := set_committed (mkDb (<[id := p]> (products d)) (sales d) (purchases d)) in
      emit (EvSaveProduct id)
  else throw ValidationError.

(** [product.deleteOne()] *)
Definition Product_deleteOne (id : positive) : Handler unit :=
  let! d := read_committed (fun d => d) in
  set_committed (mkDb (delete id (products d)) (sales d) (purchases d)).

Definition set_name (p : Product) (n : string) : Product :=
  mkProduct n (sku p) (category p) (unitPriceTZS p) (costPriceTZS p)
            (stockQuantity p).

Definition set_sku (p : Product) (s : string) : Product :=
  mkProduct (name p) s (category p) (unitPriceTZS p) (costPriceTZS p)
            (stockQuantity p).

Definition set_category (p : Product) (c : string) : Product :=
  mkProduct (name p) (sku p) c (unitPriceTZS p) (costPriceTZS p)
            (stockQuantity p).

Definition set_unitPriceTZS (p : Product) (u : Z) : Product :=
  mkProduct (name p) (sku p) (category p) u (costPriceTZS p) (stockQuantity p).

(** [PATCH /sales/:id/payment-status] *)
Definition updatePaymentStatus (env : Env) (id : positive)
    (body_paymentStatus : option string)
  : Handler (Reply (positive * string)) :=
  try_catch
    (match body_paymentStatus with
     | Some status =>
       if enum paymentStatus_enum status then
         let! found := read_committed (fun d => sales d !! id) in
         match found with
         | None => ret (Refused 404 (NotFound "Sale"))
         | Some sale =>
           let sale := set_paymentStatus sale status in
           let! _ := Sale_save_direct id sale in
           let! _ := createAuditLog env "update_sale_payment" "sale" id in
           ret (Done 200 (id, paymentStatus sale))
         end
       else ret (Refused 400 InvalidPaymentStatus)
     | None => ret (Refused 400 InvalidPaymentStatus)
     end)
    (fun _ =>
       let! _ := emit (EvConsoleError "Update payment status error:") in
       ret (Refused 500 (Failed "update payment status"))).

(** [// Update fields]: a field of the body that is not [undefined]
    replaces the product's. *)
Definition update_fields (product : Product) (body : ProductBody) : Product :=
  let product := assign_if set_name product (product_body_name body) in
  let product :=
    assign_if (fun p s => set_sku p (toUpperCase s)) product
              (product_body_sku body) in
  let product := assign_if set_category product (product_body_category body) in
  let product :=
    assign_if set_unitPriceTZS product (product_body_sellingPrice body) in
  let product := assign_if set_costPriceTZS product (product_body_costPrice body) in
  assign_if set_stockQuantity product (product_body_stockQuantity body).

(** [PUT /products/:id] *)
Definition updateProduct (env : Env) (id : positive) (body : ProductBody)
  : Handler (Reply Product) :=
  try_catch
    (let! found := read_committed (fun d => products d !! id) in
     match found with
     | None => ret (Refused 404 (NotFound "Product"))
     | Some product =>
       let product := update_fields product body in
       let! _ := Product_save_direct id product in
       let! _ := createAuditLog env "update_product" "product" id in
       ret (Done 200 product)
     end)
    (fun _ =>
       let! _ := emit (EvConsoleError "Update product error:") in
       ret (Refused 500 (Failed "update product"))).

(** [DELETE /products/:id] *)
Definition deleteProduct (env : Env) (id : positive) : Handler (Reply unit) :=
  try_catch
    (let! found := read_committed (fun d => products d !! id) in
     match found with
     | None => ret (Refused 404 (NotFound "Product"))
     | Some product =>
       let! _ := Product_deleteOne id in
       let! _ := createAuditLog env "delete_product" "product" id in
       ret (Done 200 tt)
     end)
    (fun _ =>
       let! _ := emit (EvConsoleError "Delete product error:") in
       ret (Refused 500 (Failed "delete product"))).

(** No two products have the same sku. *)
Definition unique_skus (d : Db) : Prop :=
  forall i j p q,
    products d !! i = Some p -> products d !! j = Some q ->
    sku p = sku q -> i = j.

(** An entry of the audit trail. *)
Definition is_audit_entry (e : Event) : bool :=
  match e with
  | EvAuditLog _ _ _ => true
  | _ => false
  end.

(** The operations whose audit action is none of the schema's. *)
Definition unlisted_action (op : Op) : bool :=
  match op with
  | CreateSale _ | CreatePurchase _ => false
  | _ => true
  end.

(** Revenue and pending total of the sales report over a range. *)
Definition paid_total (env : Env) (q : ReportQuery) (d : Db) : Z :=
  sum_of totalPriceTZS (aggregate_match (sales d) (matchStage env q)).

Definition pending_total (env : Env) (q : ReportQuery) (d : Db) : Z :=
  sum_of totalPriceTZS (aggregate_match (sales d) (pendingMatchStage env q)).

(** ** Requests served one after the other *)

Inductive Request :=
  | Ledger (op : Op)
  | CreateProduct (body : ProductBody)
  | UpdateProduct (id : positive) (body : ProductBody)
  | DeleteProduct (id : positive)
  | UpdatePaymentStatus (id : positive) (status : option string).

(** The world a request leaves. *)
Definition serve (env : Env) (r : Request) (w : World) : World :=
  match r with
  | Ledger op => after (handler env op) w
  | CreateProduct body => after (createProduct env body) w
  | UpdateProduct id body => snd (updateProduct env id body w)
  | DeleteProduct id => snd (deleteProduct env id w)
  | UpdatePaymentStatus id status => snd (updatePaymentStatus env id status w)
  end.

(** Each request comes with the environment it is served in (its time,
    its user, the writes that fail). *)
Definition serve_all (requests : list (Env * Request)) (w : World) : World :=
  foldl (fun w er => serve (fst er) (snd er) w) w requests.

(** What the ledger operations leave of a product. *)
Definition same_catalogue (p p' : Product) : Prop :=
  name p' = name p /\ sku p' = sku p /\ category p' = category p
  /\ unitPriceTZS p' = unitPriceTZS p.

(** Product [k] is untouched, or rewritten to a valid document with the
    same catalogue fields. *)
Definition product_kept (d d' : Db) (k : positive) : Prop :=
  products d' !! k = products d !! k
  \/ exists p p',
       products d !! k = Some p /\ products d' !! k = Some p'
       /\ same_catalogue p p' /\ validate_product p' = true.

Definition sale_ok (s : Sale) : Prop :=
  validate_sale s = true
  /\ totalPriceTZS s = quantitySold s * unitPriceAtSaleTZS s.

Definition purchase_ok (p : Purchase) : Prop :=
  validate_purchase p = true
  /\ totalCostTZS p = quantityPurchased p * unitCostTZS p.

(** Every document passes its schema, totals are quantity times price,
    and skus are unique. *)
Definition consistent (d : Db) : Prop :=
  unique_skus d
  /\ (forall id p, products d !! id = Some p -> validate_product p = true)
  /\ (forall id s, sales d !! id = Some s -> sale_ok s)
  /\ (forall id p, purchases d !! id = Some p -> purchase_ok p).


(** ** [getStockReport] of [controllers/reportController.js] *)

Module StockReport.

(** A row of [categoryBreakdown]. *)
Record CategoryRow := mkCategoryRow {
  row_category : string;
  row_count : Z;
  row_stockQuantity : Z;
  row_value : Z
}.

(** A row of [lowStockProducts]. *)
Record LowStockRow := mkLowStockRow {
  low_id : positive;
  low_name : string;
  low_sku : string;
  low_category : string;
  low_stockQuantity : Z;
  low_value : Z
}.

(** A row of [outOfStockProducts]. *)
Record OutOfStockRow := mkOutOfStockRow {
  out_id : positive;
  out_name : string;
  out_sku : string;
  out_category : string
}.

(** A row of [allProducts]. *)
Record ProductRow := mkProductRow {
  all_id : positive;
  all_product : Product;
  stockValue : Z;
  isLowStock : bool
}.

(** The names that every object inherits from [Object.prototype]: for
    them [acc[name]] is truthy on the empty object [{}]. *)
Definition Object_prototype : list string :=
  ["constructor"; "__defineGetter__"; "__defineSetter__"; "hasOwnProperty";
   "__lookupGetter__"; "__lookupSetter__"; "isPrototypeOf";
   "propertyIsEnumerable"; "toString"; "valueOf"; "__proto__";
   "toLocaleString"].

(** The own properties of [acc], in the order of their creation. *)
Definition Acc := list (string * CategoryRow).

(** [acc[c].count++; acc[c].stockQuantity += ..; acc[c].value += ..] on
    the own property [c], created first when [acc] has none. *)
Fixpoint bump (acc : Acc) (p : Product) : Acc :=
  match acc with
  | [] =>
    [(category p,
      mkCategoryRow (category p) (0 + 1) (0 + stockQuantity p)
                    (0 + stockQuantity p * costPriceTZS p))]
  | (c, r) :: rest =>
    if decide (c = category p) then
      (c, mkCategoryRow (row_category r) (row_count r + 1)
                        (row_stockQuantity r + stockQuantity p)
                        (row_value r + stockQuantity p * costPriceTZS p))
      :: rest
    else (c, r) :: bump rest p
  end.

(** One step of the [reduce] of the category breakdown. For a category
    that is a name of [Object.prototype], [!acc[category]] is false
    without any own property: the three updates land on the inherited
    object and [acc] gets no row. *)
Definition breakdown_step (acc : Acc) (p : Product) : Acc :=
  if decide (category p ∈ Object_prototype) then acc else bump acc p.

Definition is_low (p : Product) : bool :=
  (stockQuantity p <=? 5) && (0 <? stockQuantity p).

(** [.sort((a, b) => a.stockQuantity - b.stockQuantity)]: ascending and
    stable. *)
Fixpoint insert_row (x : LowStockRow) (l : list LowStockRow)
  : list LowStockRow :=
  match l with
  | [] => [x]
  | y :: l' =>
    if low_stockQuantity x <=? low_stockQuantity y then x :: l
    else y :: insert_row x l'
  end.

Definition sort_rows (l : list LowStockRow) : list LowStockRow :=
  foldr insert_row [] l.

Record Report := mkReport {
  totalStockValue : Z;
  totalProducts : Z;
  lowStockCount : Z;
  outOfStockCount : Z;
  categoryBreakdown : Acc;
  lowStockProducts : list LowStockRow;
  outOfStockProducts : list OutOfStockRow;
  allProducts : list ProductRow
}.

(** [data] of the response, from the result of [Product.find()]. *)
Definition report_of (found : list (positive * Product)) : Report :=
  let products := found in
  mkReport
    (foldl (fun sum kp => sum + stockQuantity (snd kp) * costPriceTZS (snd kp))
           0 products)
    (Z.of_nat (length products))
    (Z.of_nat (length (List.filter (fun kp => stockQuantity (snd kp) <=? 5)
                                   products)))
    (Z.of_nat (length (List.filter (fun kp => stockQuantity (snd kp) =? 0)
                                   products)))
    (foldl (fun acc kp => breakdown_step acc (snd kp)) [] products)
    (sort_rows
       ((fun kp =>
           mkLowStockRow (fst kp) (name (snd kp)) (sku (snd kp))
                         (category (snd kp)) (stockQuantity (snd kp))
                         (stockQuantity (snd kp) * costPriceTZS (snd kp)))
        <$> List.filter (fun kp => is_low (snd kp)) products))
    ((fun kp =>
        mkOutOfStockRow (fst kp) (name (snd kp)) (sku (snd kp))
                        (category (snd kp)))
     <$> List.filter (fun kp => stockQuantity (snd kp) =? 0) products)
    ((fun kp =>
        mkProductRow (fst kp) (snd kp)
                     (stockQuantity (snd kp) * costPriceTZS (snd kp))
                     (stockQuantity (snd kp) <=? 5))
     <$> products).

(** [GET /reports/stock] *)
Definition getStockReport (d : Db) : Report :=
  report_of (map_to_list (products d)).

End StockReport.

(** Sums over the rows of a category breakdown, and over products. *)
Definition sum_rows (f : StockReport.CategoryRow -> Z) (acc : StockReport.Acc)
  : Z :=
  sum_of (fun cr => f (snd cr)) acc.

(** The products that get a row in the category breakdown. *)
Definition has_own_row (p : Product) : bool :=
  bool_decide (category p ∉ StockReport.Object_prototype).

Definition value_at_cost (p : Product) : Z := stockQuantity p * costPriceTZS p.

(** The own property [c] of [acc]. *)
Definition own_property (acc : StockReport.Acc) (c : string)
  : option StockReport.CategoryRow :=
  snd <$> head (List.filter (fun cr => bool_decide (fst cr = c)) acc).

(** The order of [lowStockProducts]. *)
Definition ascending (x y : StockReport.LowStockRow) : Prop :=
  StockReport.low_stockQuantity x <= StockReport.low_stockQuantity y.

(** The row of a category after the products [ps] of that category, met
    in this order, from the row [o] it had. *)
Definition absorb (o : option StockReport.CategoryRow) (ps : list Product)
  : option StockReport.CategoryRow :=
  foldl (fun o p =>
           Some (match o with
                 | Some r =>
                   StockReport.mkCategoryRow
                     (StockReport.row_category r)
                     (StockReport.row_count r + 1)
                     (StockReport.row_stockQuantity r + stockQuantity p)
                     (StockReport.row_value r + value_at_cost p)
                 | None =>
                   StockReport.mkCategoryRow (category p) 1 (stockQuantity p)
                                             (value_at_cost p)
                 end)) o ps.

(** The products of category [c] among the found ones. *)
Definition of_category (c : string) (found : list (positive * Product))
  : list Product :=
  List.filter (fun p => bool_decide (category p = c)) (snd <$> found).

(** Scenario of the stock report: product 1 is out of stock, product 2
    has 3 units and the category toString, product 3 has 40 units. *)
Definition stockDb : Db :=
  mkDb {[ 1%positive := mkProduct "Widget" "W-1" "tools" 150 100 0;
          2%positive := mkProduct "Gadget" "G-1" "toString" 300 200 3;
          3%positive := mkProduct "Hammer" "H-1" "tools" 90 50 40 ]}
       ∅ ∅.

(** ** Reading the dashboard *)

(** The revenue the chart shows for a day. *)
Definition bucket_revenue (chart : list (Z * Z)) (day : Z) : Z :=
  sum_of (fun b => if fst b =? day then snd b else 0) chart.

(** The quantity the groups hold for a product. *)
Definition grouped_quantity (groups : list ProductGroup) (pid : positive) : Z :=
  sum_of (fun g => if decide (group_id g = pid) then group_quantity g else 0)
         groups.

(** The sales of the last 30 days and the sales of today, as the
    dashboard matches them. *)
Definition monthlySales (env : Env) (d : Db) : list Sale :=
  let today := setHours (timezone env) (now env) 0 0 0 0 in
  aggregate_match (sales d) (fun s => today - 30 * msPerDay <=? sale_date s).

Definition todaySales (env : Env) (d : Db) : list Sale :=
  let today := setHours (timezone env) (now env) 0 0 0 0 in
  aggregate_match (sales d)
    (fun s => (today <=? sale_date s) && (sale_date s <? today + msPerDay)).

Definition earlier (a b : Z * Z) : Prop := fst a < fst b.

(** The units of product [pid] in a list of sales. *)
Definition quantity_of (pid : positive) (l : list Sale) : Z :=
  sum_of (fun s => if decide (sale_productId s = pid) then quantitySold s else 0)
         l.

(** ** [controllers/notificationController.js]

    The handlers read and write the collection of notifications with one
    query each; the user is the one of the token ([req.user.userId]).
    A notification carries the fields the controller reads and writes
    ([userId], [type], [title], [message], [isRead], [createdAt]); the
    queries embedded here run no schema validator. *)

Module Notifications.

Record Notification := mkNotification {
  notification_userId : positive;
  notification_type : string;
  title : string;
  message : string;
  isRead : bool;
  createdAt : Z
}.

(** [{ isRead: true }] as an update *)
Definition set_isRead (n : Notification) : Notification :=
  mkNotification (notification_userId n) (notification_type n) (title n)
                 (message n) true (createdAt n).

(** [Notification.countDocuments(filter)] *)
Definition countDocuments (store : gmap positive Notification)
    (filter : Notification -> bool) : Z :=
  Z.of_nat (length (aggregate_match store filter)).

(** [{ userId, isRead: false }] *)
Definition unread_of (userId : positive) (n : Notification) : bool :=
  bool_decide (notification_userId n = userId) && negb (isRead n).

(** [GET /notifications/unread-count] *)
Definition getUnreadCount (userId : positive)
    (store : gmap positive Notification) : Z :=
  countDocuments store (unread_of userId).

(** [PUT /notifications/:id/read]:
    [findOneAndUpdate({ _id: id, userId }, { isRead: true }, { new: true })] *)
Definition markAsRead (userId id : positive)
    (store : gmap positive Notification)
  : Reply Notification * gmap positive Notification :=
  match store !! id with
  | Some n =>
    if bool_decide (notification_userId n = userId) then
      (Done 200 (set_isRead n), <[id := set_isRead n]> store)
    else (Refused 404 (NotFound "Notification"), store)
  | None => (Refused 404 (NotFound "Notification"), store)
  end.

(** [PUT /notifications/read-all]:
    [updateMany({ userId, isRead: false }, { isRead: true })] *)
Definition markAllAsRead (userId : positive)
    (store : gmap positive Notification)
  : Reply unit * gmap positive Notification :=
  (Done 200 tt,
   (fun n => if unread_of userId n then set_isRead n else n) <$> store).

(** [DELETE /notifications/:id]: [findOneAndDelete({ _id: id, userId })] *)
Definition deleteNotification (userId id : positive)
    (store : gmap positive Notification)
  : Reply unit * gmap positive Notification :=
  match store !! id with
  | Some n =>
    if bool_decide (notification_userId n = userId) then
      (Done 200 tt, delete id store)
    else (Refused 404 (NotFound "Notification"), store)
  | None => (Refused 404 (NotFound "Notification"), store)
  end.

(** The requests of a user on their notifications. *)
Inductive Request :=
  | MarkAsRead (id : positive)
  | MarkAllAsRead
  | DeleteNotification (id : positive).

Definition serve (userId : positive) (r : Request)
    (store : gmap positive Notification) : gmap positive Notification :=
  match r with
  | MarkAsRead id => snd (markAsRead userId id store)
  | MarkAllAsRead => snd (markAllAsRead userId store)
  | DeleteNotification id => snd (deleteNotification userId id store)
  end.

End Notifications.

(** ** Routes and roles ([routes/*.js], [middleware/auth.js]) *)

(** [checkRole(roles)]: [roles.includes(req.user.role)] *)
Definition checkRole (roles : list string) (role : string) : bool :=
  bool_decide (role ∈ roles).

(** The roles each route is mounted with. *)
Definition required_roles (r : Request) : list string :=
  match r with
  | Ledger (CreateSale _) | Ledger (UpdateSale _ _) | Ledger (DeleteSale _)
  | UpdatePaymentStatus _ _ => ["admin"; "sales"]
  | Ledger (CreatePurchase _) | Ledger (UpdatePurchase _ _)
  | Ledger (DeletePurchase _)
  | CreateProduct _ | UpdateProduct _ _ | DeleteProduct _ => ["admin"; "stock"]
  end.

(** A request of a user with the role [role] of their token: answered
    with 403 by [checkRole], without a call of the handler, when the role
    is not one of the route's. *)
Definition route (role : string) (env : Env) (r : Request) (w : World)
  : World :=
  if checkRole (required_roles r) role then serve env r w else w.

Definition route_all (role : string) (requests : list (Env * Request))
    (w : World) : World :=
  foldl (fun w er => route role (fst er) (snd er) w) w requests.

(** The products with their stock erased: what the catalogue says of
    them. *)
Definition catalogue (d : Db) : gmap positive Product :=
  (fun p => set_stockQuantity p 0) <$> products d.

(** ** [getSales] of [controllers/saleController.js] *)

Module SalesList.

(** [req.query], its [page] and [limit] already through [parseInt]. *)
Record Query := mkQuery {
  query_startDate : option Z;
  query_endDate : option Z;
  query_productId : option positive;
  page : Z;
  limit : Z
}.

(** An element of [data]. *)
Record Row := mkRow {
  row_id : positive;
  row_productId : positive;
  row_name : string;
  row_sku : string;
  row_sellingPrice : Z;
  row_quantity : Z;
  row_totalAmount : Z;
  row_paymentMethod : string;
  row_paymentStatus : string;
  row_saleDate : Z;
  row_createdBy : positive
}.

Record Pagination := mkPagination {
  pagination_page : Z;
  pagination_limit : Z;
  pagination_total : Z;
  pages : option Z
}.

(** [filter]: the date range and the product. *)
Definition matches (env : Env) (q : Query) (s : Sale) : bool :=
  in_date_filter
    (mkDateFilter (query_startDate q)
       ((fun e => setHours (timezone env) e 23 59 59 999) <$> query_endDate q))
    (sale_date s)
  && match query_productId q with
     | Some pid => bool_decide (sale_productId s = pid)
     | None => true
     end.

(** [.sort({ date: -1 })]: the latest first; sales of the same date stay
    in the order the collection yields them. *)
Fixpoint insert_sale (x : positive * Sale) (l : list (positive * Sale))
  : list (positive * Sale) :=
  match l with
  | [] => [x]
  | y :: l' =>
    if sale_date (snd y) <=? sale_date (snd x) then x :: l
    else y :: insert_sale x l'
  end.

Definition sort_by_date (l : list (positive * Sale)) : list (positive * Sale) :=
  foldr insert_sale [] l.

(** [x || fallback] on a string *)
Definition or_else (x fallback : string) : string :=
  if decide (x = "") then fallback else x.

Definition row_of (ks : positive * Sale) : Row :=
  let sale := snd ks in
  mkRow (fst ks) (sale_productId sale)
        (or_else (snapshot_name (productSnapshot sale)) "Unknown")
        (or_else (snapshot_sku (productSnapshot sale)) "N/A")
        (unitPriceAtSaleTZS sale) (quantitySold sale) (totalPriceTZS sale)
        (paymentMethod sale) (paymentStatus sale) (sale_date sale)
        (soldBy sale).

(** [.limit(n)] of a cursor: 0 sets no limit, and a negative [n] yields
    at most [-n] documents. *)
Definition cursor_limit {A} (n : Z) (l : list A) : list A :=
  if n =? 0 then l else take (Z.to_nat (Z.abs n)) l.

(** [Math.ceil(total / limit)]; a division by 0 is not a number of JSON. *)
Definition ceil_div (total limit : Z) : option Z :=
  if limit =? 0 then None else Some (- ((- total) / limit)).

(** The sales the filter lets through. *)
Definition matched (env : Env) (q : Query) (d : Db) : list (positive * Sale) :=
  List.filter (fun ks => matches env q (snd ks)) (map_to_list (sales d)).

(** [GET /sales]: the page and its pagination, or the 500 of the [catch]
    when the cursor refuses a negative [skip]. *)
Definition getSales (env : Env) (q : Query) (d : Db)
  : Reply (list Row * Pagination) :=
  let skip := (page q - 1) * limit q in
  if skip <? 0 then Refused 500 (Failed "fetch sales")
  else
    let sales :=
      cursor_limit (limit q)
        (drop (Z.to_nat skip) (sort_by_date (matched env q d))) in
    let total := Z.of_nat (length (matched env q d)) in
    Done 200 (row_of <$> sales,
              mkPagination (page q) (limit q) total (ceil_div total (limit q))).

(** The same query for another page. *)
Definition at_page (q : Query) (p : Z) : Query :=
  mkQuery (query_startDate q) (query_endDate q) (query_productId q) p (limit q).

(** The rows of a reply. *)
Definition rows {B} (r : Reply (list Row * B)) : list Row :=
  match r with
  | Done _ data => fst data
  | Refused _ _ => []
  end.

(** The pages from 1 to [k]. *)
Definition page_numbers (k : Z) : list Z :=
  (fun i => Z.of_nat i + 1) <$> seq 0 (Z.to_nat k).

End SalesList.

(** The order of the rows of [getSales]. *)
Definition latest_first (x y : positive * Sale) : Prop :=
  sale_date (snd y) <= sale_date (snd x).

(** ** [utils/csvExport.js]

    A text is the list of its characters; the cells are the values after
    [String(value)]. *)

Module Csv.

Definition quote : Ascii.ascii := Ascii.ascii_of_nat 34.
Definition comma : Ascii.ascii := Ascii.ascii_of_nat 44.
Definition newline : Ascii.ascii := Ascii.ascii_of_nat 10.
Definition carriage_return : Ascii.ascii := Ascii.ascii_of_nat 13.

(** [value.replace(..)]: every quote is written twice. *)
Definition double_quotes (value : list Ascii.ascii) : list Ascii.ascii :=
  flat_map (fun c => if decide (c = quote) then [quote; quote] else [c]) value.

(** [value.includes(c)] *)
Definition includes (value : list Ascii.ascii) (c : Ascii.ascii) : bool :=
  bool_decide (c ∈ value).

(** The escaping of a cell: quotes are doubled, and the cell is wrapped
    in quotes if it contains a comma, a newline or a quote. *)
Definition escape (value : list Ascii.ascii) : list Ascii.ascii :=
  let value := double_quotes value in
  if includes value comma || includes value newline || includes value quote
  then (quote :: value ++ [quote])%list
  else value.

(** [parts.join(sep)] *)
Fixpoint join (sep : Ascii.ascii) (parts : list (list Ascii.ascii))
  : list Ascii.ascii :=
  match parts with
  | [] => []
  | [part] => part
  | part :: rest => (part ++ sep :: join sep rest)%list
  end.

(** [jsonToCSV(data, headers)], each item of [data] as the list of its
    cells under the headers. *)
Definition jsonToCSV (data : list (list (list Ascii.ascii)))
    (headers : list (list Ascii.ascii)) : list Ascii.ascii :=
  match data with
  | [] => []
  | _ =>
    let headerRow := join comma headers in
    let dataRows := (fun item => join comma (escape <$> item)) <$> data in
    join newline (headerRow :: dataRows)
  end.

(** *** A reader of comma-separated values

    A reader in the manner of RFC 4180. Fields are separated by commas.
    A record ends at a line break: a carriage return and a newline, or
    either of them alone; the line break after the last record is
    optional, so a text that ends with a line break holds no further
    record, and the empty text holds none. A field that starts with a
    quote runs to its closing quote, whatever it holds, and two quotes
    inside it stand for one. *)

Inductive Mode := RecordStart | FieldStart | Unquoted | Quoted | QuoteSeen.

(** The records read so far, the current record and field first. *)
Definition add_char (c : Ascii.ascii) (records : list (list (list Ascii.ascii)))
  : list (list (list Ascii.ascii)) :=
  match records with
  | (field :: fields) :: rest => ((c :: field) :: fields) :: rest
  | [] :: rest => [[c]] :: rest
  | [] => [[[c]]]
  end.

Definition new_field (records : list (list (list Ascii.ascii)))
  : list (list (list Ascii.ascii)) :=
  match records with
  | fields :: rest => ([] :: fields) :: rest
  | [] => [[[]]]
  end.

Definition new_record (records : list (list (list Ascii.ascii)))
  : list (list (list Ascii.ascii)) :=
  [[]] :: records.

Fixpoint read (mode : Mode) (text : list Ascii.ascii)
  : list (list (list Ascii.ascii)) :=
  match text with
  | [] =>
    match mode with
    | RecordStart => []
    | _ => [[[]]]
    end
  | c :: rest =>
    (* outside quotes *)
    let unquoted :=
      if decide (c = comma) then new_field (read FieldStart rest)
      else if decide (c = newline) then new_record (read RecordStart rest)
      else if decide (c = carriage_return) then
        (* the newline of the same line break ends the record *)
        if decide (head rest = Some newline) then read Unquoted rest
        else new_record (read RecordStart rest)
      else add_char c (read Unquoted rest) in
    match mode with
    | Quoted =>
      if decide (c = quote) then read QuoteSeen rest
      else add_char c (read Quoted rest)
    | QuoteSeen =>
      if decide (c = quote) then add_char quote (read Quoted rest)
      else unquoted
    | RecordStart | FieldStart =>
      if decide (c = quote) then read Quoted rest
      else unquoted
    | Unquoted => unquoted
    end
  end.

Definition read_csv (text : list Ascii.ascii) : list (list (list Ascii.ascii)) :=
  read RecordStart text.

(** A header the reader takes as it is: no comma, line break or quote. *)
Definition plain (value : list Ascii.ascii) : Prop :=
  (comma ∉ value) /\ (newline ∉ value) /\ (quote ∉ value)
  /\ (carriage_return ∉ value).

(** Where a field ends: at the end of the text, a comma or a newline. *)
Definition at_separator (rest : list Ascii.ascii) : Prop :=
  rest = [] \/ exists r, rest = comma :: r \/ rest = newline :: r.

(** A row whose cells hold no carriage return. *)
Definition without_carriage_return (item : list (list Ascii.ascii)) : Prop :=
  Forall (fun cell => carriage_return ∉ cell) item.

End Csv.
(** * Properties *)

(** ** The helpers never fail *)

Lemma log_nil w : log w [] = w.
Proof. destruct w; unfold log; simpl. by rewrite app_nil_r. Qed.

Lemma log_log w a b : log (log w a) b = log w (a ++ b).
Proof. unfold log; simpl. by rewrite <- app_assoc. Qed.

Lemma createAuditLog_run env action entityType entityId w :
  createAuditLog env action entityType entityId w
  = (Normal tt, log w (audit_events env action entityType entityId)).
Proof.
  unfold createAuditLog, try_catch, AuditLog_create, audit_events.
  destruct (auditLogFails env); [reflexivity|].
  destruct (enum audit_action_enum action && enum audit_entityType_enum entityType);
    reflexivity.
Qed.

Lemma createNotification_run env type recipient w :
  createNotification env type recipient w
  = (Normal tt, log w (notification_events env type recipient)).
Proof.
  unfold createNotification, try_catch, Notification_create, notification_events.
  destruct (notificationFails env); reflexivity.
Qed.

Lemma createSaleNotification_run env recipient w :
  createSaleNotification env recipient w
  = (Normal tt, log w (notification_events env "sale" recipient)).
Proof.
  unfold createSaleNotification, try_catch.
  by rewrite createNotification_run.
Qed.

Lemma createPurchaseNotification_run env recipient w :
  createPurchaseNotification env recipient w
  = (Normal tt, log w (notification_events env "purchase" recipient)).
Proof.
  unfold createPurchaseNotification, try_catch.
  by rewrite createNotification_run.
Qed.

Lemma for_each_run {A} (f : A -> Handler unit) (events : A -> list Event) l :
  (forall x w, f x w = (Normal tt, log w (events x))) ->
  forall w, for_each l f w = (Normal tt, log w (concat (events <$> l))).
Proof.
  intros Hf. induction l as [|x l IH]; intros w; simpl.
  - by rewrite log_nil.
  - unfold bind. rewrite Hf, IH, log_log. reflexivity.
Qed.

Lemma concat_singletons {A B} (g : A -> B) (l : list A) :
  concat ((fun x => [g x]) <$> l) = g <$> l.
Proof. induction l as [|x l IH]; [done|]. rewrite !fmap_cons. simpl. by rewrite IH. Qed.

Lemma createLowStockNotification_run env allAdmins w :
  createLowStockNotification env allAdmins w
  = (Normal tt, log w (lowStock_events env allAdmins)).
Proof.
  unfold createLowStockNotification, try_catch, lowStock_events.
  destruct allAdmins as [|a l].
  - simpl. by rewrite log_nil.
  - destruct (notificationFails env) eqn:Hn.
    + simpl. unfold bind, Notification_create. rewrite Hn. reflexivity.
    + rewrite (for_each_run _ (fun x => [EvNotification "low_stock" x])).
      * by rewrite concat_singletons.
      * intros x w'. unfold Notification_create. by rewrite Hn.
Qed.

(** ** Running a handler symbolically *)

Arguments for_each : simpl never.
Arguments audit_events : simpl never.
Arguments notification_events : simpl never.
Arguments lowStock_events : simpl never.
Arguments truthy : simpl never.
Arguments truthy_number : simpl never.
Arguments plus : simpl never.
Arguments trim : simpl never.

(** What [if (x)] and [+] do with a number. *)
Lemma truthy_Num n :
  truthy (Some (Num n)) = if n =? 0 then None else Some (Num n).
Proof. reflexivity. Qed.

Lemma truthy_NumStr n : truthy (Some (NumStr n)) = Some (NumStr n).
Proof. reflexivity. Qed.

Lemma truthy_None : truthy None = None.
Proof. reflexivity. Qed.

Lemma plus_Num a n : plus a (Num n) = Some (a + n).
Proof. reflexivity. Qed.

(** Text joined to a number, and the trimming of a supplier. *)
Example text_coercions :
  String_of 7 = "7" /\ String_of 0 = "0" /\ String_of (-3) = "-3"
  /\ plus 7 (Num 5) = Some 12
  /\ plus 7 (NumStr 5) = Some 75
  /\ plus 0 (NumStr 5) = Some 5
  /\ plus (-3) (NumStr 8) = Some (-38)
  /\ plus 7 (NumStr (-3)) = None
  /\ trim "  Acme Ltd " = "Acme Ltd" /\ trim " " = "".
Proof. vm_compute. repeat split; reflexivity. Qed.

Ltac unfold_monad :=
  unfold response, after, run, handler,
    createSale, updateSale, deleteSale,
    createPurchase, updatePurchase, deletePurchase,
    try_catch_finally, try_catch, on_error, abort_with, when,
    Product_findById, Sale_findById, Purchase_findById,
    Product_save_cast, add_to_stock, Purchase_doc,
    Product_save, Sale_save, Purchase_save, Sale_create, Purchase_create,
    Sale_findByIdAndDelete, Purchase_findByIdAndDelete,
    User_find_admins, startTransaction, abortTransaction, commitTransaction,
    endSession, assign_if,
    bind, ret, respond, throw, emit, read, set_txdb, txdb in *.

Ltac run_helpers :=
  repeat first
    [ rewrite truthy_Num
    | rewrite truthy_NumStr
    | rewrite truthy_None
    | rewrite plus_Num
    | rewrite createAuditLog_run
    | rewrite createLowStockNotification_run
    | rewrite (for_each_run _ _ _ (createSaleNotification_run _))
    | rewrite (for_each_run _ _ _ (createPurchaseNotification_run _)) ].

(** Case analysis on the innermost condition the handler branches on. *)
Ltac split_condition :=
  match goal with
  | |- context [match ?x with _ => _ end] =>
    lazymatch x with
    | context [match _ with _ => _ end] => fail
    | _ => destruct x eqn:?
    end
  end.

Ltac exec :=
  unfold_monad; simpl;
  repeat (run_helpers; unfold log; simpl; try split_condition; simpl).

(** ** Sums over a collection *)

Lemma sum_of_perm {A} (f : A -> Z) (l1 l2 : list A) :
  l1 ≡ₚ l2 -> sum_of f l1 = sum_of f l2.
Proof. unfold sum_of. induction 1; simpl; lia. Qed.

Lemma total_insert_fresh {A} (f : A -> Z) (m : gmap positive A) i x :
  m !! i = None -> total f (<[i := x]> m) = f x + total f m.
Proof.
  intros Hi. unfold total.
  rewrite (sum_of_perm f _ (snd <$> (i, x) :: map_to_list m)).
  - reflexivity.
  - by rewrite map_to_list_insert.
Qed.

Lemma total_delete {A} (f : A -> Z) (m : gmap positive A) i x :
  m !! i = Some x -> total f m = f x + total f (delete i m).
Proof.
  intros Hi. rewrite <- (total_insert_fresh f (delete i m) i x).
  - by rewrite insert_delete_id.
  - apply lookup_delete_eq.
Qed.

Lemma total_insert_existing {A} (f : A -> Z) (m : gmap positive A) i x y :
  m !! i = Some x -> total f (<[i := y]> m) = total f m - f x + f y.
Proof.
  intros Hi. rewrite (total_delete f m i x Hi).
  rewrite <- (insert_delete_eq m i y).
  rewrite total_insert_fresh by apply lookup_delete_eq. lia.
Qed.

Lemma lookup_fresh {A} (m : gmap positive A) : m !! fresh (dom m) = None.
Proof. apply not_elem_of_dom, is_fresh. Qed.

(** ** Errors leave the ledger as it was *)

(** A request that is not answered with a success leaves the committed
    database as it was. It is answered with an error, except when
    [commitTransaction] fails: the [catch] block then calls
    [abortTransaction] on a transaction that is no longer open, which
    throws, and the handler ends without a response. *)
Lemma failure_keeps_committed env op w :
  is_success (response (handler env op) w) = false ->
  (is_error (response (handler env op) w) = true
   \/ (commitFails env = true /\ response (handler env op) w = None))
  /\ committed (after (handler env op) w) = committed w.
Proof.
  destruct op; exec; try done; auto.
Qed.

(** A sale of more than the stock is refused, and the refusal carries the
    available and the requested quantity. *)
Lemma createSale_insufficient_stock env body w productId product quantity :
  sale_body_productId body = Some productId ->
  truthy_number (sale_body_quantity body) = Some quantity ->
  is_Some (truthy_number (sale_body_sellingPrice body)) ->
  is_Some (truthy_string (sale_body_paymentMethod body)) ->
  products (committed w) !! productId = Some product ->
  stockQuantity product < quantity ->
  response (createSale env body) w
  = Some (Err 400 (InsufficientStock (stockQuantity product) quantity)).
Proof.
  intros Hid Hq [price Hprice] [method Hmethod] Hfound Hless.
  unfold response, run, createSale, try_catch_finally, try_catch.
  unfold bind at 1. simpl.
  rewrite Hid, Hq, Hprice, Hmethod.
  unfold bind, Product_findById, read, txdb. simpl. rewrite Hfound.
  replace (stockQuantity product <? quantity) with true by lia.
  reflexivity.
Qed.

(** C4: whenever one of the six operations does not succeed, the
    committed database (every product's stockQuantity, every sale and
    purchase row) is what it was before the call. The handler answers with
    an error, except when [commitTransaction] fails: its [catch] block then
    calls [abortTransaction] on a transaction that is no longer open, which
    throws, and the handler itself sends no response. A sale of more than
    the stock is refused with an insufficient-stock error that carries the
    available and the requested quantity. *)
Theorem errors_leave_ledger_unchanged :
  (forall env op w,
     is_success (response (handler env op) w) = false ->
     committed (after (handler env op) w) = committed w
     /\ (forall pid, stock (after (handler env op) w) pid = stock w pid)
     /\ (is_error (response (handler env op) w) = true
         \/ (commitFails env = true
             /\ response (handler env op) w = None)))
  /\ (forall env body w productId product quantity,
        sale_body_productId body = Some productId ->
        truthy_number (sale_body_quantity body) = Some quantity ->
        is_Some (truthy_number (sale_body_sellingPrice body)) ->
        is_Some (truthy_string (sale_body_paymentMethod body)) ->
        products (committed w) !! productId = Some product ->
        stockQuantity product < quantity ->
        response (createSale env body) w
        = Some (Err 400 (InsufficientStock (stockQuantity product) quantity))).
Proof.
  split.
  - intros env op w Hfail.
    destruct (failure_keeps_committed env op w Hfail) as [Herr Hsame].
    split; [done|]. split; [|done].
    intros pid. unfold stock. by rewrite Hsame.
  - exact createSale_insufficient_stock.
Qed.

(** Scenario C: after scenarios A and B the stock is 12; a sale of 20 is
    refused with available 12 and requested 20, and the stock stays 12. *)
Lemma scenario_C_insufficient_stock :
  response (createSale env0 saleC) worldB
  = Some (Err 400 (InsufficientStock 12 20))
  /\ stock worldB P = Some 12
  /\ stock (after (createSale env0 saleC) worldB) P = Some 12.
Proof.
  assert (Hresp : response (createSale env0 saleC) worldB
                  = Some (Err 400 (InsufficientStock 12 20))).
  { apply (proj2 errors_leave_ledger_unchanged env0 saleC worldB P
             (mkProduct "Widget" "W-1" "tools" 150 90 12) 20);
      [reflexivity | reflexivity | eexists; reflexivity | eexists; reflexivity
      | vm_compute; reflexivity | simpl; lia]. }
  split; [exact Hresp|]. split; [vm_compute; reflexivity|].
  destruct (proj1 errors_leave_ledger_unchanged env0 (CreateSale saleC) worldB)
    as (_ & Hstock & _).
  - simpl handler. rewrite Hresp. reflexivity.
  - pose proof (Hstock P) as HP. simpl handler in HP. rewrite HP.
    vm_compute. reflexivity.
Defined.

(** A commit that fails: the sale of scenario A is not recorded, the
    handler sends no response and logs nothing, as the [catch] block stops
    at its [abortTransaction]. *)
Example failed_commit_sends_no_response :
  let env := mkEnv 0 0 admin (Some [admin]) false false true in
  response (createSale env saleA) world0 = None
  /\ committed (after (createSale env saleA) world0) = committed world0
  /\ EvConsoleError "Create sale error:"
     ∉ trace (after (createSale env saleA) world0).
Proof.
  vm_compute. split; [reflexivity|]. split; [reflexivity|].
  intros H. repeat (apply elem_of_cons in H as [H|H]; [discriminate H|]).
  by apply elem_of_nil in H.
Qed.

(** ** Recording a sale *)

Lemma enum_elem allowed s : s ∈ allowed -> enum allowed s = true.
Proof. intros H. unfold enum. by case_decide. Qed.

Lemma paymentMethod_truthy m :
  m ∈ paymentMethod_enum -> truthy_string (Some m) = Some m.
Proof.
  intros H. unfold truthy_string. case_decide; [|done]. subst m.
  unfold paymentMethod_enum in H.
  repeat (apply elem_of_cons in H as [H|H]; [discriminate|]).
  by apply elem_of_nil in H.
Qed.

Lemma validate_product_fields p :
  validate_product p = true ->
  required_string (name p) = true /\ required_string (sku p) = true
  /\ required_string (category p) = true
  /\ 0 <= unitPriceTZS p /\ 0 <= costPriceTZS p /\ 0 <= stockQuantity p.
Proof.
  unfold validate_product. rewrite !andb_true_iff, !Z.leb_le. tauto.
Qed.

Lemma validate_product_stock p q :
  validate_product p = true -> 0 <= q ->
  validate_product (set_stockQuantity p q) = true.
Proof.
  intros Hp Hq. apply validate_product_fields in Hp.
  unfold validate_product; simpl. rewrite !andb_true_iff, !Z.leb_le. tauto.
Qed.

(** What [if (x)] and [parseFloat(x)] read of a field. *)
Lemma truthy_number_Some x :
  x <> Num 0 -> truthy_number (Some x) = Some (to_number x).
Proof.
  unfold truthy_number, truthy. destruct x as [n|n]; [|done].
  intros Hx. destruct (Z.eqb_spec n 0) as [->|]; done.
Qed.

Lemma truthy_number_Num_0 : truthy_number (Some (Num 0)) = None.
Proof. reflexivity. Qed.

(** C2, counterexample: the product exists with stock 10, the quantity is
    3 and the unit price is the number 0, so the stated preconditions
    hold; the call is refused as if a field were missing and records
    nothing. *)
Lemma createSale_rejects_zero_price :
  let body := mkSaleBody (Some P) (Some (Num 3)) (Some (Num 0)) (Some "cash")
                         (Some "paid") in
  products (committed world0) !! P = Some productP
  /\ 1 <= 3 /\ 0 <= 0 /\ 3 <= stockQuantity productP
  /\ response (createSale env0 body) world0 = Some (Err 400 AllFieldsRequired)
  /\ committed (after (createSale env0 body) world0) = committed world0.
Proof. vm_compute. repeat split; congruence. Qed.

(** What createSale does with a request that meets its conditions. *)
Lemma createSale_accepts env w productId product quantity unitPrice
    method status :
  products (committed w) !! productId = Some product ->
  validate_product product = true ->
  1 <= to_number quantity -> 0 <= to_number unitPrice -> unitPrice <> Num 0 ->
  to_number quantity <= stockQuantity product ->
  method ∈ paymentMethod_enum -> status ∈ paymentStatus_enum ->
  is_Some (admins env) -> commitFails env = false ->
  let body := mkSaleBody (Some productId) (Some quantity) (Some unitPrice)
                         (Some method) (Some status) in
  let id := fresh (dom (sales (committed w))) in
  let sale := mkSale productId (mkSnapshot (name product) (sku product))
                     (to_number quantity) (to_number unitPrice)
                     (to_number quantity * to_number unitPrice) method status
                     (userId env) (now env) in
  response (createSale env body) w = Some (Ok 201 (SalePayload id sale))
  /\ committed (after (createSale env body) w)
     = mkDb (<[productId := set_stockQuantity product
                               (stockQuantity product - to_number quantity)]>
               (products (committed w)))
            (<[id := sale]> (sales (committed w)))
            (purchases (committed w)).
Proof.
  intros Hfound Hvalid Hq Hprice Hzero Hstock Hmethod Hstatus [adm Hadm]
         Hcommit body id sale.
  assert (Hsale : validate_sale sale = true).
  { apply validate_product_fields in Hvalid as (Hn & Hs & _).
    unfold validate_sale, sale; simpl.
    rewrite Hn, Hs, (enum_elem _ _ Hmethod), (enum_elem _ _ Hstatus).
    rewrite !andb_true_iff, !Z.leb_le. repeat split; nia. }
  assert (Hsave : validate_product
                    (set_stockQuantity product
                       (stockQuantity product - to_number quantity))
                  = true)
    by (apply validate_product_stock; [done | lia]).
  pose proof (paymentMethod_truthy _ Hmethod) as Htruthy.
  unfold truthy_string in Htruthy.
  assert (Hquantity : truthy_number (Some quantity) = Some (to_number quantity)).
  { apply truthy_number_Some. intros ->. simpl in Hq. lia. }
  pose proof (truthy_number_Some unitPrice Hzero) as HunitPrice.
  subst body id sale. revert Hsale Hsave Htruthy Hquantity HunitPrice.
  exec; intros; simplify_eq; try lia; try congruence.
  all: split; reflexivity.
Qed.

(** A sale whose price is the number 0 is refused as if a field were
    missing. *)
Lemma createSale_refuses_number_0 env body w :
  sale_body_sellingPrice body = Some (Num 0) ->
  response (createSale env body) w = Some (Err 400 AllFieldsRequired)
  /\ committed (after (createSale env body) w) = committed w.
Proof.
  intros Hprice. unfold_monad. simpl. rewrite Hprice, truthy_number_Num_0.
  destruct (sale_body_productId body), (truthy_number (sale_body_quantity body));
    simpl; split; reflexivity.
Qed.

(** C2, amended: a numeric field of the body is a number or the string
    that writes one. When the product exists (a valid document), the
    quantity is at least 1, the unit price is at least 0 and is not the
    number 0, the stock covers the quantity, the payment method and status
    are values of their enumerations, and neither the admin lookup nor the
    commit fails, createSale succeeds: it inserts one sale row under a new
    id, with the product's current name and sku as its snapshot and
    quantity times unit price as its total, and takes exactly the quantity
    off the product's stock; a price given as the string of 0 is among
    these and is recorded as 0. A unit price given as the number 0 is
    refused, whatever the rest of the request, and nothing is recorded. *)
Theorem createSale_succeeds :
  (forall env w productId product quantity unitPrice method status,
     products (committed w) !! productId = Some product ->
     validate_product product = true ->
     1 <= to_number quantity ->
     0 <= to_number unitPrice -> unitPrice <> Num 0 ->
     to_number quantity <= stockQuantity product ->
     method ∈ paymentMethod_enum -> status ∈ paymentStatus_enum ->
     is_Some (admins env) -> commitFails env = false ->
     let body := mkSaleBody (Some productId) (Some quantity) (Some unitPrice)
                            (Some method) (Some status) in
     let id := fresh (dom (sales (committed w))) in
     let sale := mkSale productId (mkSnapshot (name product) (sku product))
                        (to_number quantity) (to_number unitPrice)
                        (to_number quantity * to_number unitPrice)
                        method status (userId env) (now env) in
     let w' := after (createSale env body) w in
     response (createSale env body) w = Some (Ok 201 (SalePayload id sale))
     /\ sales (committed w) !! id = None
     /\ sales (committed w') = <[id := sale]> (sales (committed w))
     /\ products (committed w')
        = <[productId := set_stockQuantity product
                           (stockQuantity product - to_number quantity)]>
            (products (committed w))
     /\ purchases (committed w') = purchases (committed w)
     /\ totalPriceTZS sale = to_number quantity * to_number unitPrice
     /\ stock w' productId
        = Some (stockQuantity product - to_number quantity))
  /\ (forall env body w,
        sale_body_sellingPrice body = Some (Num 0) ->
        response (createSale env body) w = Some (Err 400 AllFieldsRequired)
        /\ committed (after (createSale env body) w) = committed w).
Proof.
  split; [|exact createSale_refuses_number_0].
  intros env w productId product quantity unitPrice method status
         Hfound Hvalid Hq Hprice Hzero Hstock Hmethod Hstatus Hadmins Hcommit
         body id sale w'.
  destruct (createSale_accepts env w productId product quantity unitPrice
              method status Hfound Hvalid Hq Hprice Hzero Hstock Hmethod
              Hstatus Hadmins Hcommit) as [Hresp Hdb].
  fold body id sale in Hresp, Hdb. fold w' in Hdb.
  split; [exact Hresp|].
  split; [apply lookup_fresh|].
  unfold stock. rewrite Hdb. simpl.
  repeat split. by rewrite lookup_insert_eq.
Qed.

(** Scenario A: product P with stock 10; a sale of 3 at 150 is recorded with
    total 450 and the stock becomes 7. *)
Lemma scenario_A_sale_recorded :
  response (createSale env0 saleA) world0
  = Some (Ok 201 (SalePayload 1%positive
                    (mkSale P (mkSnapshot "Widget" "W-1") 3 150 450
                            "cash" "paid" admin 0)))
  /\ stock worldA P = Some 7.
Proof.
  destruct (proj1 createSale_succeeds env0 world0 P productP (Num 3) (Num 150)
              "cash" "paid")
    as (Hresp & _ & _ & _ & _ & _ & Hstock);
    [ reflexivity | reflexivity | simpl; lia | simpl; lia | discriminate
    | simpl; lia
    | unfold paymentMethod_enum; apply elem_of_cons; by left
    | unfold paymentStatus_enum; apply elem_of_cons; by left
    | by eexists | reflexivity | ].
  split; [exact Hresp | exact Hstock].
Defined.

(** A price sent as the string of 0: the sale of scenario A is recorded
    at price 0, with total 0. *)
Example createSale_accepts_text_0 :
  let body := mkSaleBody (Some P) (Some (Num 3)) (Some (NumStr 0))
                         (Some "cash") (Some "paid") in
  response (createSale env0 body) world0
  = Some (Ok 201 (SalePayload 1%positive
                    (mkSale P (mkSnapshot "Widget" "W-1") 3 0 0
                            "cash" "paid" admin 0)))
  /\ stock (after (createSale env0 body) world0) P = Some 7.
Proof. vm_compute. split; reflexivity. Qed.

(** Scenario B: after scenario A, a purchase of 5 at 90 is recorded with
    total 450, the stock becomes 12 and the cost price 90. *)
Example scenario_B_purchase_recorded :
  response (createPurchase env0 purchaseB) worldA
  = Some (Ok 201 (PurchasePayload 1%positive
                    (mkPurchase P 5 90 450 "Acme" admin 0)))
  /\ products (committed worldB) !! P
     = Some (mkProduct "Widget" "W-1" "tools" 150 90 12).
Proof. vm_compute. split; reflexivity. Qed.

(** A request without a payment status gets the default ["Paid"], which
    is not a value of the schema's enumeration: the sale is not recorded. *)
Example createSale_default_status_rejected :
  let body := mkSaleBody (Some P) (Some (Num 3)) (Some (Num 150)) (Some "cash") None in
  response (createSale env0 body) world0
  = Some (Err 500 (FailedTo "record sale"))
  /\ committed (after (createSale env0 body) world0) = committed world0.
Proof. vm_compute. split; reflexivity. Qed.

(** ** A sale and its deletion *)

(** What a successful createSale has done. *)
Lemma createSale_success_inv env body w id sale :
  response (createSale env body) w = Some (Ok 201 (SalePayload id sale)) ->
  exists product,
    products (committed w) !! sale_productId sale = Some product
    /\ id = fresh (dom (sales (committed w)))
    /\ validate_sale sale = true
    /\ validate_product
         (set_stockQuantity product (stockQuantity product - quantitySold sale))
       = true
    /\ committed (after (createSale env body) w)
       = mkDb (<[sale_productId sale :=
                   set_stockQuantity product
                     (stockQuantity product - quantitySold sale)]>
                 (products (committed w)))
              (<[id := sale]> (sales (committed w)))
              (purchases (committed w)).
Proof.
  exec; intros; simplify_eq; eexists; simpl; eauto.
Qed.

Lemma set_stockQuantity_restore product q :
  set_stockQuantity (set_stockQuantity product (stockQuantity product - q))
                    (stockQuantity product - q + q)
  = product.
Proof.
  destruct product; unfold set_stockQuantity; simpl. f_equal. lia.
Qed.

Lemma validate_sale_quantity sale : validate_sale sale = true -> 1 <= quantitySold sale.
Proof. unfold validate_sale. rewrite !andb_true_iff, !Z.leb_le. tauto. Qed.

(** What deleteSale does to a sale whose product is still there. *)
Lemma deleteSale_run env id w sale product :
  sales (committed w) !! id = Some sale ->
  products (committed w) !! sale_productId sale = Some product ->
  validate_product
    (set_stockQuantity product (stockQuantity product + quantitySold sale))
  = true ->
  is_success (response (deleteSale env id) w) = negb (commitFails env)
  /\ (commitFails env = false ->
      committed (after (deleteSale env id) w)
      = mkDb (<[sale_productId sale :=
                  set_stockQuantity product
                    (stockQuantity product + quantitySold sale)]>
                (products (committed w)))
             (delete id (sales (committed w)))
             (purchases (committed w))).
Proof.
  exec; intros; simplify_eq; try congruence; split; congruence.
Qed.

(** C10: a successful createSale followed at once by the deletion of the
    sale it recorded: the deletion succeeds unless its commit fails, and
    when it succeeds the committed database, hence every product's
    stockQuantity, is exactly what it was before the sale. *)
Theorem createSale_then_deleteSale_restores_stock env env' body w id sale :
  response (createSale env body) w = Some (Ok 201 (SalePayload id sale)) ->
  let w1 := after (createSale env body) w in
  let w2 := after (deleteSale env' id) w1 in
  (commitFails env' = false ->
   is_success (response (deleteSale env' id) w1) = true)
  /\ (is_success (response (deleteSale env' id) w1) = true ->
      committed w2 = committed w
      /\ forall pid, stock w2 pid = stock w pid)
  /\ stock w1 (sale_productId sale)
     = (fun s => s - quantitySold sale) <$> stock w (sale_productId sale).
Proof.
  intros Hcreate w1 w2.
  destruct (createSale_success_inv _ _ _ _ _ Hcreate)
    as (product & Hfound & Hid & Hsale & Hsaved & Hw1).
  fold w1 in Hw1.
  pose proof (lookup_fresh (sales (committed w))) as Hfresh.
  rewrite <- Hid in Hfresh.
  apply validate_sale_quantity in Hsale.
  set (sold_out := set_stockQuantity product
                     (stockQuantity product - quantitySold sale)) in *.
  assert (Hrestore :
    set_stockQuantity sold_out (stockQuantity sold_out + quantitySold sale)
    = product) by apply set_stockQuantity_restore.
  destruct (deleteSale_run env' id w1 sale sold_out) as [Hok Hdb].
  { rewrite Hw1. simpl. apply lookup_insert_eq. }
  { rewrite Hw1. simpl. apply lookup_insert_eq. }
  { rewrite Hrestore.
    apply validate_product_fields in Hsaved. simpl in Hsaved.
    replace product with (set_stockQuantity product (stockQuantity product))
      by (by destruct product).
    apply validate_product_stock; [|lia].
    unfold validate_product. simpl.
    rewrite !andb_true_iff, !Z.leb_le. intuition lia. }
  assert (Hback : commitFails env' = false -> committed w2 = committed w).
  { intros Hcommit. unfold w2. rewrite (Hdb Hcommit), Hrestore, Hw1. simpl.
    rewrite insert_insert_eq, (insert_id _ _ _ Hfound),
      (delete_insert_id _ _ _ Hfresh).
    by destruct (committed w). }
  split; [|split].
  - intros Hcommit. by rewrite Hok, Hcommit.
  - rewrite Hok. intros Hcommit. apply negb_true_iff in Hcommit.
    split; [by apply Hback|].
    intros pid. unfold stock. by rewrite (Hback Hcommit).
  - unfold stock. rewrite Hw1. simpl. rewrite lookup_insert_eq, Hfound.
    reflexivity.
Qed.

(** Scenario D: the sale of scenario A took the stock from 10 to 7; its
    deletion succeeds and brings the stock back to 10. *)
Lemma scenario_D_sale_deleted :
  stock world0 P = Some 10
  /\ stock worldA P = Some 7
  /\ is_success (response (deleteSale env0 1%positive) worldA) = true
  /\ stock (after (deleteSale env0 1%positive) worldA) P = Some 10.
Proof.
  destruct (createSale_then_deleteSale_restores_stock env0 env0 saleA world0
              1%positive
              (mkSale P (mkSnapshot "Widget" "W-1") 3 150 450
                      "cash" "paid" admin 0))
    as (Hsucceeds & Hrestores & Hsold); [vm_compute; reflexivity|].
  split; [reflexivity|]. split; [exact Hsold|].
  split; [exact (Hsucceeds eq_refl)|].
  exact (proj2 (Hrestores (Hsucceeds eq_refl)) P).
Defined.

(** ** The stock against the replayed rows *)

Arguments ledger_offset : simpl never.

Section LedgerOffset.
Context (d : Db) (pid : positive).

Let sold_of (s : Sale) : Z :=
  if decide (sale_productId s = pid) then quantitySold s else 0.
Let purchased_of (p : Purchase) : Z :=
  if decide (purchase_productId p = pid) then quantityPurchased p else 0.

(** The products and the rows change together: the stock of the
    product of the row moves by [delta], the rows of that product
    replay to [delta] more, every other product is untouched. *)
Lemma ledger_offset_step target p p' sales' purchases' :
  products d !! target = Some p ->
  total purchased_of purchases' - total sold_of sales'
  = total purchased_of (purchases d) - total sold_of (sales d)
    + (if decide (target = pid)
       then stockQuantity p' - stockQuantity p else 0) ->
  ledger_offset (mkDb (<[target := p']> (products d)) sales' purchases') pid
  = ledger_offset d pid.
Proof.
  intros Hp Hrows.
  unfold ledger_offset, replayed_stock, sold, purchased. simpl.
  fold sold_of purchased_of. rewrite Hrows.
  destruct (decide (target = pid)) as [->|Hne].
  - rewrite lookup_insert_eq, Hp. simpl. f_equal. lia.
  - rewrite lookup_insert_ne by done.
    destruct (products d !! pid); simpl; f_equal; lia.
Qed.

(** A row of a product that is gone changes no offset. *)
Lemma ledger_offset_dangling target sales' purchases' :
  products d !! target = None ->
  (target <> pid ->
   total purchased_of purchases' - total sold_of sales'
   = total purchased_of (purchases d) - total sold_of (sales d)) ->
  ledger_offset (mkDb (products d) sales' purchases') pid
  = ledger_offset d pid.
Proof.
  intros Hp Hrows.
  unfold ledger_offset, replayed_stock, sold, purchased. simpl.
  fold sold_of purchased_of.
  destruct (decide (target = pid)) as [->|Hne].
  - by rewrite Hp.
  - rewrite (Hrows Hne). reflexivity.
Qed.

Lemma sale_inserted id s :
  sales d !! id = None ->
  total sold_of (<[id := s]> (sales d))
  = total sold_of (sales d)
    + (if decide (sale_productId s = pid) then quantitySold s else 0).
Proof. intros H. rewrite total_insert_fresh by done. unfold sold_of. lia. Qed.

Lemma sale_updated id s s' :
  sales d !! id = Some s ->
  sale_productId s' = sale_productId s ->
  total sold_of (<[id := s']> (sales d))
  = total sold_of (sales d)
    + (if decide (sale_productId s = pid)
       then quantitySold s' - quantitySold s else 0).
Proof.
  intros H Hsame. rewrite (total_insert_existing _ _ _ _ _ H).
  unfold sold_of. rewrite Hsame. case_decide; lia.
Qed.

Lemma sale_deleted id s :
  sales d !! id = Some s ->
  total sold_of (delete id (sales d))
  = total sold_of (sales d)
    - (if decide (sale_productId s = pid) then quantitySold s else 0).
Proof. intros H. rewrite (total_delete _ _ _ _ H). unfold sold_of. lia. Qed.

Lemma purchase_inserted id p :
  purchases d !! id = None ->
  total purchased_of (<[id := p]> (purchases d))
  = total purchased_of (purchases d)
    + (if decide (purchase_productId p = pid) then quantityPurchased p else 0).
Proof.
  intros H. rewrite total_insert_fresh by done. unfold purchased_of. lia.
Qed.

Lemma purchase_updated id p p' :
  purchases d !! id = Some p ->
  purchase_productId p' = purchase_productId p ->
  total purchased_of (<[id := p']> (purchases d))
  = total purchased_of (purchases d)
    + (if decide (purchase_productId p = pid)
       then quantityPurchased p' - quantityPurchased p else 0).
Proof.
  intros H Hsame. rewrite (total_insert_existing _ _ _ _ _ H).
  unfold purchased_of. rewrite Hsame. case_decide; lia.
Qed.

Lemma purchase_deleted id p :
  purchases d !! id = Some p ->
  total purchased_of (delete id (purchases d))
  = total purchased_of (purchases d)
    - (if decide (purchase_productId p = pid) then quantityPurchased p else 0).
Proof.
  intros H. rewrite (total_delete _ _ _ _ H). unfold purchased_of. lia.
Qed.
End LedgerOffset.

(** The offset of a success leaf of a handler. *)
Ltac offset_leaf :=
  intros;
  first
    [ eapply ledger_offset_step; [eassumption | ]
    | eapply ledger_offset_dangling; [eassumption | intros ? ] ];
  first
    [ rewrite sale_inserted by apply lookup_fresh
    | erewrite sale_updated by (eassumption || reflexivity)
    | erewrite sale_deleted by eassumption
    | rewrite purchase_inserted by apply lookup_fresh
    | erewrite purchase_updated by (eassumption || reflexivity)
    | erewrite purchase_deleted by eassumption ];
  simpl; repeat case_decide; try congruence; lia.

Lemma operation_keeps_ledger_offset env op w pid :
  keeps_offset op = true ->
  is_success (response (handler env op) w) = true ->
  ledger_offset (committed (after (handler env op) w)) pid
  = ledger_offset (committed w) pid.
Proof.
  destruct op as [body|id body|id|body|id body|id];
    unfold keeps_offset, sent_as_number; unfold_monad.
  4,5: destruct (purchase_body_quantity body) as [[n|n]|]; [|done|].
  all: exec; try done.
  all: offset_leaf.
Qed.

(** C1, counterexample: a product created with stockQuantity 10, then a
    sale of 3: both calls succeed, the stored stock is 7, and the
    committed rows replayed from 0 give -3. *)
Lemma stock_differs_from_replayed_rows :
  let body := mkProductBody (Some "Widget") (Some "w-1") (Some "tools")
                            (Some 100) (Some 150) (Some 10) in
  let w1 := after (createProduct env0 body) (world_of emptyDb) in
  let sale := mkSaleBody (Some 1%positive) (Some (Num 3)) (Some (Num 150))
                         (Some "cash") (Some "paid") in
  let w2 := after (createSale env0 sale) w1 in
  is_success (response (createProduct env0 body) (world_of emptyDb)) = true
  /\ is_success (response (createSale env0 sale) w1) = true
  /\ stock w2 1%positive = Some 7
  /\ replayed_stock (committed w2) 1%positive = -3.
Proof. vm_compute. repeat split; reflexivity. Qed.

(** A purchase whose quantity is sent as text: after scenario A the stock
    is 7; a purchase of the text 5 succeeds, its row holds 5, and the
    stock becomes 75, the text of 7 followed by the text 5. *)
Example text_quantity_is_concatenated :
  let body := mkPurchaseBody (Some P) (Some (NumStr 5)) (Some (Num 90))
                             (Some "Acme") in
  let w' := after (createPurchase env0 body) worldA in
  stock worldA P = Some 7
  /\ is_success (response (createPurchase env0 body) worldA) = true
  /\ quantityPurchased <$> purchases (committed w') !! 1%positive = Some 5
  /\ stock w' P = Some 75.
Proof. vm_compute. repeat split; reflexivity. Qed.

(** C1, amended: every successful createSale, deleteSale and
    deletePurchase, every successful updateSale whose body carries a
    quantity, and every successful createPurchase and updatePurchase
    whose quantity is not sent as text, leaves unchanged, for every
    product, the difference between its stored stockQuantity and the
    purchased minus the sold quantities of the committed rows; so a
    product whose stock equalled the replayed rows before the operation
    still equals them after it. *)
Theorem operation_preserves_ledger_equation env op w pid :
  keeps_offset op = true ->
  is_success (response (handler env op) w) = true ->
  let w' := after (handler env op) w in
  ledger_offset (committed w') pid = ledger_offset (committed w) pid
  /\ (forall p,
        products (committed w) !! pid = Some p ->
        stockQuantity p = replayed_stock (committed w) pid ->
        exists p',
          products (committed w') !! pid = Some p'
          /\ stockQuantity p' = replayed_stock (committed w') pid).
Proof.
  intros Hop Hok w'.
  pose proof (operation_keeps_ledger_offset env op w pid Hop Hok) as Hsame.
  fold w' in Hsame. split; [exact Hsame|].
  intros p Hp Heq. unfold ledger_offset in Hsame. rewrite Hp in Hsame.
  simpl in Hsame.
  destruct (products (committed w') !! pid) as [p'|]; [|discriminate].
  exists p'. split; [reflexivity|]. simpl in Hsame. injection Hsame. lia.
Qed.

(** A product with stock 0 and no rows; a purchase of 5 succeeds, and the
    stock, 5, is what the one committed row replays to. *)
Lemma purchase_keeps_ledger_equation :
  let w := world_of (mkDb {[ P := set_stockQuantity productP 0 ]} ∅ ∅) in
  let w' := after (createPurchase env0 purchaseB) w in
  ledger_offset (committed w') P = Some 0
  /\ stock w' P = Some 5
  /\ replayed_stock (committed w') P = 5.
Proof.
  intros w w'.
  destruct (operation_preserves_ledger_equation env0 (CreatePurchase purchaseB)
              w P eq_refl) as [Hoffset _]; [vm_compute; reflexivity|].
  split; [exact Hoffset|]. split; vm_compute; reflexivity.
Defined.

(** ** Audit entries and notifications *)

Lemma lowStock_events_side env adm :
  forallb is_side_write (lowStock_events env adm) = true.
Proof.
  unfold lowStock_events. destruct adm as [|a adm]; [done|].
  destruct (notificationFails env); [done|].
  generalize (a :: adm). intros l. induction l as [|x l IH]; [done|].
  rewrite fmap_cons. simpl. exact IH.
Qed.

Lemma audit_events_side env action entityType id :
  forallb is_side_write (audit_events env action entityType id) = true.
Proof.
  unfold audit_events. destruct (auditLogFails env); [done|].
  by destruct (enum audit_action_enum action
               && enum audit_entityType_enum entityType).
Qed.

Lemma notification_events_side env type adm :
  forallb is_side_write (concat (notification_events env type <$> adm)) = true.
Proof.
  induction adm as [|a adm IH]; [done|].
  rewrite fmap_cons. simpl. rewrite forallb_app, IH.
  unfold notification_events. by destruct (notificationFails env).
Qed.

Lemma createSale_trace env body w :
  is_success (response (createSale env body) w) = true ->
  exists id productId adm low,
    admins env = Some adm
    /\ forallb is_side_write low = true
    /\ trace (after (createSale env body) w)
       = (trace w
          ++ [EvStartTransaction; EvInsertSale id; EvSaveProduct productId]
          ++ low
          ++ audit_events env "create_sale" "sale" id
          ++ concat (notification_events env "sale" <$> adm)
          ++ [EvCommit; EvEndSession])%list.
Proof.
  exec; try done; intros _.
  all: rewrite <- ?app_assoc; simpl.
  all: first
    [ by (eexists _, _, _, (lowStock_events _ _); split; [reflexivity|];
          split; [apply lowStock_events_side |];
          simpl; rewrite <- ?app_assoc; reflexivity)
    | by (eexists _, _, _, []; split; [reflexivity|];
          split; [reflexivity |];
          simpl; rewrite <- ?app_assoc; reflexivity) ].
Qed.

Lemma createPurchase_trace env body w :
  is_success (response (createPurchase env body) w) = true ->
  exists id productId adm,
    admins env = Some adm
    /\ trace (after (createPurchase env body) w)
       = (trace w
          ++ [EvStartTransaction; EvInsertPurchase id; EvSaveProduct productId]
          ++ audit_events env "create_purchase" "purchase" id
          ++ concat (notification_events env "purchase" <$> adm)
          ++ [EvCommit; EvEndSession])%list.
Proof.
  exec; try done; intros _.
  all: rewrite <- ?app_assoc; simpl.
  all: by (eexists _, _, _; split; [reflexivity |];
           simpl; rewrite <- ?app_assoc; reflexivity).
Qed.

Lemma createSale_ignores_side_failures env audit notification body w :
  response (createSale (with_failures env audit notification) body) w
  = response (createSale env body) w
  /\ committed (after (createSale (with_failures env audit notification) body) w)
     = committed (after (createSale env body) w).
Proof.
  exec; done.
Qed.

Lemma createPurchase_ignores_side_failures env audit notification body w :
  response (createPurchase (with_failures env audit notification) body) w
  = response (createPurchase env body) w
  /\ committed (after (createPurchase (with_failures env audit notification) body) w)
     = committed (after (createPurchase env body) w).
Proof.
  exec; done.
Qed.

(** C6, counterexample: in scenario A the sale succeeds, and its audit
    entry and its notification are written before the commit. *)
Lemma audit_written_before_commit :
  is_success (response (createSale env0 saleA) world0) = true
  /\ trace worldA
     = [EvStartTransaction; EvInsertSale 1%positive; EvSaveProduct P;
        EvAuditLog "create_sale" "sale" 1%positive;
        EvNotification "sale" admin; EvCommit; EvEndSession]
  /\ side_writes_after_commit (trace worldA) = false.
Proof. vm_compute. repeat split; reflexivity. Qed.

(** C6, amended: a successful createSale or createPurchase writes its
    audit entry and its notifications after the row and the stock update
    of the atomic scope and before the commit; a write that fails leaves
    a console line in its place; and whether these writes fail changes
    neither the response nor the committed database. *)
Theorem side_writes_precede_commit :
  (forall env body w,
     is_success (response (createSale env body) w) = true ->
     exists id productId adm low,
       admins env = Some adm
       /\ forallb is_side_write low = true
       /\ trace (after (createSale env body) w)
          = (trace w
             ++ [EvStartTransaction; EvInsertSale id; EvSaveProduct productId]
             ++ low
             ++ audit_events env "create_sale" "sale" id
             ++ concat (notification_events env "sale" <$> adm)
             ++ [EvCommit; EvEndSession])%list)
  /\ (forall env body w,
        is_success (response (createPurchase env body) w) = true ->
        exists id productId adm,
          admins env = Some adm
          /\ trace (after (createPurchase env body) w)
             = (trace w
                ++ [EvStartTransaction; EvInsertPurchase id;
                    EvSaveProduct productId]
                ++ audit_events env "create_purchase" "purchase" id
                ++ concat (notification_events env "purchase" <$> adm)
                ++ [EvCommit; EvEndSession])%list)
  /\ (forall env id,
        audit_events env "create_sale" "sale" id
        = if auditLogFails env
          then [EvConsoleError "Failed to create audit log:"]
          else [EvAuditLog "create_sale" "sale" id])
  /\ (forall env id,
        audit_events env "create_purchase" "purchase" id
        = if auditLogFails env
          then [EvConsoleError "Failed to create audit log:"]
          else [EvAuditLog "create_purchase" "purchase" id])
  /\ (forall env type recipient,
        notification_events env type recipient
        = if notificationFails env
          then [EvConsoleError "Create notification error:"]
          else [EvNotification type recipient])
  /\ (forall env audit notification body w,
        response (createSale (with_failures env audit notification) body) w
        = response (createSale env body) w
        /\ committed (after (createSale (with_failures env audit notification)
                                        body) w)
           = committed (after (createSale env body) w))
  /\ (forall env audit notification body w,
        response (createPurchase (with_failures env audit notification) body) w
        = response (createPurchase env body) w
        /\ committed (after (createPurchase
                               (with_failures env audit notification) body) w)
           = committed (after (createPurchase env body) w)).
Proof.
  split; [exact createSale_trace|].
  split; [exact createPurchase_trace|].
  split; [reflexivity|].
  split; [reflexivity|].
  split; [reflexivity|].
  split; [exact createSale_ignores_side_failures|].
  exact createPurchase_ignores_side_failures.
Qed.

(** Scenario A, its trace: the audit entry and the admin's notification
    stand between the saved product and the commit. *)
Lemma scenario_A_trace :
  exists id productId adm low,
    admins env0 = Some adm
    /\ forallb is_side_write low = true
    /\ trace worldA
       = ([] ++ [EvStartTransaction; EvInsertSale id; EvSaveProduct productId]
          ++ low
          ++ audit_events env0 "create_sale" "sale" id
          ++ concat (notification_events env0 "sale" <$> adm)
          ++ [EvCommit; EvEndSession])%list.
Proof.
  exact (proj1 side_writes_precede_commit env0 saleA world0 eq_refl).
Defined.

(** ** Deleting a purchase *)

Lemma validate_product_negative_stock p q :
  q < 0 -> validate_product (set_stockQuantity p q) = false.
Proof.
  intros Hq. unfold validate_product; simpl.
  replace (0 <=? q) with false by lia. apply andb_false_r.
Qed.

(** C9, counterexample: a purchase of 5 into an empty stock, then a sale
    of 3; deleting the purchase would leave -3: the deletion fails, the
    stock stays 2 and the purchase row stays. *)
Lemma deletePurchase_refused_when_units_sold :
  stock worldSold P = Some 2
  /\ quantityPurchased <$> purchases (committed worldSold) !! 1%positive = Some 5
  /\ response (deletePurchase env0 1%positive) worldSold
     = Some (Err 500 (FailedTo "delete purchase"))
  /\ committed (after (deletePurchase env0 1%positive) worldSold)
     = committed worldSold.
Proof. vm_compute. repeat split; reflexivity. Qed.

(** C9, amended: deletePurchase subtracts quantityPurchased from the
    product's stock with no check of its own, and saves the product
    through its schema: when the result is negative the save is refused,
    the transaction is aborted, the call answers with the generic error
    and the committed database is unchanged; a deletion that succeeds
    leaves the non-negative stock minus quantityPurchased and removes the
    row; and it does succeed when the product is valid, the result is not
    negative and the commit does not fail. *)
Theorem deletePurchase_never_commits_negative_stock env id w purchase product :
  purchases (committed w) !! id = Some purchase ->
  products (committed w) !! purchase_productId purchase = Some product ->
  let w' := after (deletePurchase env id) w in
  let remaining := stockQuantity product - quantityPurchased purchase in
  (remaining < 0 ->
   response (deletePurchase env id) w
   = Some (Err 500 (FailedTo "delete purchase"))
   /\ committed w' = committed w)
  /\ (is_success (response (deletePurchase env id) w) = true ->
      0 <= remaining
      /\ stock w' (purchase_productId purchase) = Some remaining
      /\ purchases (committed w') = delete id (purchases (committed w)))
  /\ (validate_product product = true -> 0 <= remaining ->
      commitFails env = false ->
      is_success (response (deletePurchase env id) w) = true).
Proof.
  intros Hpurchase Hproduct w' remaining.
  pose proof (validate_product_negative_stock product remaining) as Hneg.
  pose proof (fun H => validate_product_stock product remaining H) as Hpos.
  subst w' remaining. unfold stock. revert Hneg Hpos.
  exec; intros Hneg Hpos; simplify_eq.
  all: repeat split; intros; try done; try lia; try congruence.
  all: try (by rewrite lookup_insert_eq).
  all: try (specialize (Hneg ltac:(lia)); congruence).
  all: try (specialize (Hpos ltac:(assumption) ltac:(assumption)); congruence).
  all: destruct (Z_lt_le_dec
                   (stockQuantity product - quantityPurchased purchase) 0)
         as [Hlt|Hle]; [specialize (Hneg Hlt); congruence | exact Hle].
Qed.

(** The state of the counterexample: the deletion is refused and nothing
    changes. *)
Lemma deletePurchase_of_sold_units :
  response (deletePurchase env0 1%positive) worldSold
  = Some (Err 500 (FailedTo "delete purchase"))
  /\ committed (after (deletePurchase env0 1%positive) worldSold)
     = committed worldSold.
Proof.
  apply (proj1 (deletePurchase_never_commits_negative_stock env0 1%positive
                  worldSold (mkPurchase P 5 90 450 "Acme" admin 0)
                  (mkProduct "Widget" "W-1" "tools" 150 90 2)
                  ltac:(vm_compute; reflexivity)
                  ltac:(vm_compute; reflexivity))).
  simpl. lia.
Defined.

(** ** Updating a sale or a purchase *)

(** An update of a sale that carries no quantity gives the sold units
    back to the stock and keeps the row's quantity. *)
Lemma updateSale_without_quantity env id body w sale product :
  truthy_number (sale_body_quantity body) = None ->
  sales (committed w) !! id = Some sale ->
  products (committed w) !! sale_productId sale = Some product ->
  is_success (response (updateSale env id body) w) = true ->
  let w' := after (updateSale env id body) w in
  stock w' (sale_productId sale)
  = Some (stockQuantity product + quantitySold sale)
  /\ quantitySold <$> sales (committed w') !! id = Some (quantitySold sale).
Proof.
  intros Hq Hsale Hproduct. unfold stock.
  exec; intros; simplify_eq; try done.
  all: by rewrite !lookup_insert_eq.
Qed.

(** An update of a sale from [quantitySold sale] to [q] moves the stock
    by the old quantity minus the new one. *)
Lemma updateSale_with_quantity env id body w sale product q :
  truthy_number (sale_body_quantity body) = Some q ->
  sales (committed w) !! id = Some sale ->
  products (committed w) !! sale_productId sale = Some product ->
  is_success (response (updateSale env id body) w) = true ->
  let w' := after (updateSale env id body) w in
  stock w' (sale_productId sale)
  = Some (stockQuantity product + quantitySold sale - q)
  /\ quantitySold <$> sales (committed w') !! id = Some q.
Proof.
  intros Hq Hsale Hproduct. unfold stock.
  exec; intros; simplify_eq; try done.
  all: by rewrite !lookup_insert_eq.
Qed.

(** An update of a purchase first takes the old quantity off the stock.
    Without a quantity, or with the number 0, it gives the old quantity
    back: the stock is what it was. With a number [q] it adds [q]: the
    stock moves by the new quantity minus the old one. With a quantity
    sent as text, [+=] joins the text of the reduced stock and the text
    sent, and the stock is the number that the joined text writes. The row
    holds the number read of the quantity in either case. *)
Lemma updatePurchase_stock env id body w purchase product :
  purchases (committed w) !! id = Some purchase ->
  products (committed w) !! purchase_productId purchase = Some product ->
  is_success (response (updatePurchase env id body) w) = true ->
  let w' := after (updatePurchase env id body) w in
  let reduced := stockQuantity product - quantityPurchased purchase in
  match purchase_body_quantity body with
  | None => stock w' (purchase_productId purchase) = Some (stockQuantity product)
  | Some (Num q) =>
    stock w' (purchase_productId purchase)
    = Some (if q =? 0 then stockQuantity product else reduced + q)
  | Some (NumStr q) =>
    stock w' (purchase_productId purchase)
    = Number_of (String_of reduced ++ String_of q)
  end
  /\ quantityPurchased <$> purchases (committed w') !! id
     = Some (default (quantityPurchased purchase)
                     (truthy_number (purchase_body_quantity body))).
Proof.
  intros Hpurchase Hproduct. unfold stock, truthy_number. unfold_monad.
  destruct (purchase_body_quantity body) as [[q|q]|].
  all: exec; intros; simplify_eq; try done.
  all: rewrite ?lookup_insert_eq; simpl; split; try done.
  all: try (f_equal; lia).
  all: match goal with H : _ <$> _ = Some _ |- _ => revert H end;
    unfold plus; destruct (Number_of _); simpl; intros; simplify_eq;
    reflexivity.
Qed.

(** An update of a sale to more than the stock with the old quantity
    given back is refused, and the refusal carries that available stock. *)
Lemma updateSale_insufficient_stock env id body w sale product q :
  truthy_number (sale_body_quantity body) = Some q ->
  sales (committed w) !! id = Some sale ->
  products (committed w) !! sale_productId sale = Some product ->
  stockQuantity product + quantitySold sale < q ->
  response (updateSale env id body) w
  = Some (Err 400 (InsufficientStock
                     (stockQuantity product + quantitySold sale) q))
  /\ committed (after (updateSale env id body) w) = committed w.
Proof.
  intros Hq Hsale Hproduct Hless.
  unfold_monad. simpl. rewrite Hq, Hsale. simpl. rewrite Hproduct. simpl.
  replace (stockQuantity product + quantitySold sale <? q) with true by lia.
  split; reflexivity.
Qed.

(** The sale of scenario A raised from 3 to 5 units: the stock goes from
    7 to 5. *)
Lemma sale_A_raised_to_five :
  let body := mkSaleBody None (Some (Num 5)) None None None in
  let w' := after (updateSale env0 1%positive body) worldA in
  stock w' P = Some 5
  /\ quantitySold <$> sales (committed w') !! 1%positive = Some 5.
Proof.
  exact (updateSale_with_quantity env0 1%positive
           (mkSaleBody None (Some (Num 5)) None None None) worldA
           (mkSale P (mkSnapshot "Widget" "W-1") 3 150 450 "cash" "paid" admin 0)
           (mkProduct "Widget" "W-1" "tools" 150 100 7) 5
           eq_refl eq_refl eq_refl eq_refl).
Defined.

(** The purchase of scenario B raised from 5 to 8 units: the stock goes
    from 12 to 15. *)
Lemma purchase_B_raised_to_eight :
  let body := mkPurchaseBody None (Some (Num 8)) None None in
  let w' := after (updatePurchase env0 1%positive body) worldB in
  stock w' P = Some 15
  /\ quantityPurchased <$> purchases (committed w') !! 1%positive = Some 8.
Proof.
  exact (updatePurchase_stock env0 1%positive
           (mkPurchaseBody None (Some (Num 8)) None None) worldB
           (mkPurchase P 5 90 450 "Acme" admin 0)
           (mkProduct "Widget" "W-1" "tools" 150 90 12)
           eq_refl eq_refl eq_refl).
Defined.

(** The same update with the quantity sent as the text 8: the stock, 12,
    is reduced to 7 and becomes 78, while the row holds 8. *)
Example purchase_B_raised_to_text_eight :
  let body := mkPurchaseBody None (Some (NumStr 8)) None None in
  let w' := after (updatePurchase env0 1%positive body) worldB in
  is_success (response (updatePurchase env0 1%positive body) worldB) = true
  /\ stock w' P = Some 78
  /\ quantityPurchased <$> purchases (committed w') !! 1%positive = Some 8.
Proof. vm_compute. repeat split; reflexivity. Qed.

(** C3: the sale of scenario A, quantity 3, left the stock at 7. An
    update that changes only its payment status succeeds, keeps the
    quantity 3 and raises the stock to 10; the same kind of update of the
    purchase of scenario B, changing only its supplier, leaves the stock
    at 12. *)
Theorem updateSale_without_quantity_raises_stock :
  let w' := after (updateSale env0 1%positive onlyStatus) worldA in
  let w'' := after (updatePurchase env0 1%positive onlySupplier) worldB in
  stock worldA P = Some 7
  /\ is_success (response (updateSale env0 1%positive onlyStatus) worldA) = true
  /\ quantitySold <$> sales (committed w') !! 1%positive = Some 3
  /\ stock w' P = Some 10
  /\ stock worldB P = Some 12
  /\ is_success (response (updatePurchase env0 1%positive onlySupplier) worldB)
     = true
  /\ stock w'' P = Some 12.
Proof. vm_compute. repeat split; reflexivity. Qed.

(** ** Reports *)

(** The revenue totals of the sales report are those of the paid sales of
    the range, and the average order value is their quotient, or 0
    without orders. *)
Lemma getSalesReport_totals_paid env q d :
  let paid := aggregate_match (sales d) (matchStage env q) in
  let revenue := sum_of totalPriceTZS paid in
  let orders := Z.of_nat (length paid) in
  getSalesReport_totals env q d
  = [("totalRevenue", inject_Z revenue);
     ("totalOrders", inject_Z orders);
     ("totalQuantity", inject_Z (sum_of quantitySold paid));
     ("averageOrderValue",
      if 0 <? orders then (inject_Z revenue / inject_Z orders)%Q else 0%Q)].
Proof.
  unfold getSalesReport_totals, totalsResult, group_null.
  destruct (aggregate_match (sales d) (matchStage env q)); reflexivity.
Qed.

(** C7: whatever the range and the database, the totals object that
    getSalesReport returns has neither a pendingRevenue nor a
    pendingOrders field, although the handler computed both from the
    pending sales of the range; with one paid sale of 450 and one pending
    sale of 200 the returned totals are the revenue 450, 1 order, the
    quantity 3 and the average 450, and the pending 200 is dropped. *)
Theorem getSalesReport_drops_pending_totals :
  (forall env q d,
     field "pendingRevenue" (getSalesReport_totals env q d) = None
     /\ field "pendingOrders" (getSalesReport_totals env q d) = None
     /\ field "pendingRevenue" (salesReport_local_totals env q d)
        = Some (inject_Z (sum_of totalPriceTZS
                            (aggregate_match (sales d) (pendingMatchStage env q))))
     /\ field "pendingOrders" (salesReport_local_totals env q d)
        = Some (inject_Z (Z.of_nat (length
                            (aggregate_match (sales d) (pendingMatchStage env q))))))
  /\ getSalesReport_totals env0 anyRange reportDb
     = [("totalRevenue", inject_Z 450); ("totalOrders", inject_Z 1);
        ("totalQuantity", inject_Z 3);
        ("averageOrderValue", (inject_Z 450 / inject_Z 1)%Q)]
  /\ field "pendingRevenue" (salesReport_local_totals env0 anyRange reportDb)
     = Some (inject_Z 200).
Proof.
  split; [|split; vm_compute; reflexivity].
  intros env q d. split; [reflexivity|]. split; [reflexivity|].
  unfold salesReport_local_totals, pendingTotalsResult, group_null.
  destruct (aggregate_match (sales d) (pendingMatchStage env q));
    split; reflexivity.
Qed.

(** Today's figures of the dashboard are sums over every sale of the day,
    whatever its payment status. *)
Lemma getDashboardSummary_today env d :
  let today := setHours (timezone env) (now env) 0 0 0 0 in
  let todays :=
    aggregate_match (sales d)
      (fun s => (today <=? sale_date s) && (sale_date s <? today + msPerDay)) in
  todayRevenue (getDashboardSummary env d) = sum_of totalPriceTZS todays
  /\ todayOrders (getDashboardSummary env d) = Z.of_nat (length todays).
Proof.
  unfold getDashboardSummary, group_null. simpl.
  destruct (aggregate_match (sales d) _); split; reflexivity.
Qed.

(** C8: with a single sale today, of 200 and still pending, the dashboard
    reports a revenue of 200 and 1 order for today, and counts the same
    sale among the pending payments; the sales report over every date
    counts it neither as revenue nor as an order. *)
Theorem getDashboardSummary_counts_pending_sales :
  paymentStatus pendingSale = "pending"
  /\ todayRevenue (getDashboardSummary env0 pendingDb) = 200
  /\ todayOrders (getDashboardSummary env0 pendingDb) = 1
  /\ pendingPayments (getDashboardSummary env0 pendingDb) = 1
  /\ field "totalRevenue" (getSalesReport_totals env0 anyRange pendingDb)
     = Some (inject_Z 0)
  /\ field "totalOrders" (getSalesReport_totals env0 anyRange pendingDb)
     = Some (inject_Z 0).
Proof. vm_compute. repeat split; reflexivity. Qed.

(** ** Sales served one after the other *)

Lemma set_stockQuantity_stock p q : stockQuantity (set_stockQuantity p q) = q.
Proof. reflexivity. Qed.

(** [n] sales of one unit against a stock of [S], served serially:
    min(n, S) of them succeed, each of the others is refused for
    insufficient stock (none available, one requested), and the stock
    ends at S - min(n, S). *)
Theorem serial_sales_of_one_unit env unitPrice method status n :
  0 < unitPrice ->
  method ∈ paymentMethod_enum -> status ∈ paymentStatus_enum ->
  is_Some (admins env) -> commitFails env = false ->
  forall w productId product,
    products (committed w) !! productId = Some product ->
    validate_product product = true ->
    let body := mkSaleBody (Some productId) (Some (Num 1)) (Some (Num unitPrice))
                           (Some method) (Some status) in
    let '(rs, w') := serve_sales env body n w in
    let sold := Z.min (Z.of_nat n) (stockQuantity product) in
    Z.of_nat (successes rs) = sold
    /\ Forall (fun r => is_success r = true
                        \/ r = Some (Err 400 (InsufficientStock 0 1))) rs
    /\ stock w' productId = Some (stockQuantity product - sold).
Proof.
  intros Hprice Hmethod Hstatus Hadmins Hcommit.
  induction n as [|n IH]; intros w productId product Hfound Hvalid body.
  - simpl. unfold stock. rewrite Hfound. simpl.
    pose proof (validate_product_fields _ Hvalid) as (_ & _ & _ & _ & _ & Hnonneg).
    unfold successes. simpl.
    repeat split; [lia | constructor | f_equal; lia].
  - simpl.
    destruct (run (createSale env body) w) as [r w1] eqn:Hrun.
    assert (Hr : response (createSale env body) w = r)
      by (unfold response; by rewrite Hrun).
    assert (Hw1 : after (createSale env body) w = w1)
      by (unfold after; by rewrite Hrun).
    pose proof (validate_product_fields _ Hvalid) as (_ & _ & _ & _ & _ & Hnonneg).
    destruct (Z_lt_le_dec (stockQuantity product) 1) as [Hempty|Hstock].
    + (* nothing left: this sale and every later one is refused *)
      assert (Hzero : stockQuantity product = 0) by lia.
      assert (Hrefused : response (createSale env body) w
                         = Some (Err 400 (InsufficientStock
                                            (stockQuantity product) 1))).
      { apply (createSale_insufficient_stock env body w productId
                 product 1); [reflexivity | reflexivity | | | exact Hfound | lia].
        - simpl sale_body_sellingPrice. rewrite truthy_number_Some; [by eexists|].
          intros [=]. lia.
        - simpl sale_body_paymentMethod.
          rewrite (paymentMethod_truthy _ Hmethod). by eexists. }
      rewrite Hr, Hzero in Hrefused.
      destruct (failure_keeps_committed env (CreateSale body) w)
        as (_ & Hsame); [simpl handler; by rewrite Hr, Hrefused|].
      simpl handler in Hsame. rewrite Hw1 in Hsame.
      specialize (IH w1 productId product).
      rewrite Hsame in IH. specialize (IH Hfound Hvalid).
      cbv zeta in IH. fold body in IH.
      destruct (serve_sales env body n w1) as [rs w2].
      destruct IH as (Hcount & Hall & Hstock').
      rewrite Hrefused. unfold successes in *. simpl.
      repeat split; [lia | constructor; [by right | exact Hall] |].
      rewrite Hstock'. f_equal. lia.
    + (* one unit is sold, the rest is served from a stock one lower *)
      destruct (createSale_accepts env w productId product (Num 1)
                  (Num unitPrice) method status Hfound Hvalid ltac:(simpl; lia)
                  ltac:(simpl; lia) ltac:(intros [=]; lia) Hstock Hmethod
                  Hstatus Hadmins Hcommit)
        as (Hresp & Hdb).
      simpl to_number in Hresp, Hdb.
      fold body in Hresp, Hdb. rewrite Hr in Hresp. rewrite Hw1 in Hdb.
      specialize (IH w1 productId
                     (set_stockQuantity product (stockQuantity product - 1))).
      rewrite Hdb in IH. simpl in IH. rewrite lookup_insert_eq in IH.
      specialize (IH eq_refl
                     (validate_product_stock product (stockQuantity product - 1)
                        Hvalid ltac:(lia))).
      cbv zeta in IH. fold body in IH.
      destruct (serve_sales env body n w1) as [rs w2].
      rewrite ?set_stockQuantity_stock in IH.
      destruct IH as (Hcount & Hall & Hstock').
      rewrite Hresp. unfold successes in *. simpl.
      repeat split; [lia | constructor; [by left | exact Hall] |].
      rewrite Hstock'. f_equal. lia.
Qed.

(** Five sales of one unit against a stock of 3: three succeed and the
    stock ends at 0. *)
Lemma five_sales_against_three_units :
  let w := world_of (mkDb {[ P := set_stockQuantity productP 3 ]} ∅ ∅) in
  let body := mkSaleBody (Some P) (Some (Num 1)) (Some (Num 150)) (Some "cash")
                         (Some "paid") in
  let '(rs, w') := serve_sales env0 body 5 w in
  Z.of_nat (successes rs) = 3
  /\ Forall (fun r => is_success r = true
                      \/ r = Some (Err 400 (InsufficientStock 0 1))) rs
  /\ stock w' P = Some 0.
Proof.
  exact (serial_sales_of_one_unit env0 150 "cash" "paid" 5 ltac:(lia)
           ltac:(unfold paymentMethod_enum; apply elem_of_cons; by left)
           ltac:(unfold paymentStatus_enum; apply elem_of_cons; by left)
           ltac:(by eexists) eq_refl
           (world_of (mkDb {[ P := set_stockQuantity productP 3 ]} ∅ ∅))
           P (set_stockQuantity productP 3) eq_refl eq_refl).
Defined.

(** * Handlers beyond the ledger operations *)

Ltac unfold_direct :=
  unfold updatePaymentStatus, updateProduct, deleteProduct,
    Sale_save_direct, Product_save_direct, Product_deleteOne,
    read_committed, set_committed in *.

Ltac exec_direct :=
  unfold_direct; unfold_monad; simpl;
  repeat (run_helpers; unfold log; simpl; try split_condition; simpl).

(** ** What the audit trail never records *)

Lemma audit_events_unlisted env action entityType id :
  enum audit_action_enum action = false ->
  audit_events env action entityType id
  = [EvConsoleError "Failed to create audit log:"].
Proof.
  intros H. unfold audit_events. rewrite H.
  by destruct (auditLogFails env).
Qed.

Ltac no_audit_leaf :=
  rewrite ?audit_events_unlisted by reflexivity;
  rewrite <- ?app_assoc;
  eexists; split; [reflexivity | reflexivity].

Lemma ledger_update_unaudited env op w :
  unlisted_action op = true ->
  exists new,
    trace (after (handler env op) w) = (trace w ++ new)%list
    /\ forallb (fun e => negb (is_audit_entry e)) new = true.
Proof.
  destruct op; simpl unlisted_action; try discriminate; intros _.
  all: exec; no_audit_leaf.
Qed.

Lemma updatePaymentStatus_unaudited env id status w :
  exists new,
    trace (snd (updatePaymentStatus env id status w)) = (trace w ++ new)%list
    /\ forallb (fun e => negb (is_audit_entry e)) new = true.
Proof.
  exec_direct.
  all: try no_audit_leaf.
  all: exists []; by rewrite app_nil_r.
Qed.

(** An update or a deletion of a sale or of a purchase, and a change of
    payment status, append no entry to the audit trail: their actions
    (update_sale, delete_sale, update_purchase, delete_purchase,
    update_sale_payment) are not values of the schema's enumeration, so
    the write is refused and only a console line is left. A recorded sale
    whose audit write does not fail does leave its entry. *)
Theorem updates_and_deletions_leave_no_audit_entry :
  (forall env op w,
     unlisted_action op = true ->
     exists new,
       trace (after (handler env op) w) = (trace w ++ new)%list
       /\ forallb (fun e => negb (is_audit_entry e)) new = true)
  /\ (forall env id status w,
        exists new,
          trace (snd (updatePaymentStatus env id status w))
          = (trace w ++ new)%list
          /\ forallb (fun e => negb (is_audit_entry e)) new = true)
  /\ (forall env body w,
        auditLogFails env = false ->
        is_success (response (createSale env body) w) = true ->
        exists id,
          In (EvAuditLog "create_sale" "sale" id)
             (trace (after (createSale env body) w))).
Proof.
  split; [exact ledger_update_unaudited|].
  split; [exact updatePaymentStatus_unaudited|].
  intros env body w Haudit Hok.
  destruct (createSale_trace env body w Hok)
    as (id & productId & adm & low & _ & _ & ->).
  exists id. unfold audit_events. rewrite Haudit. simpl.
  rewrite !in_app_iff. simpl. rewrite !in_app_iff. simpl. tauto.
Qed.

(** The deletion of the sale of scenario A succeeds and leaves five
    events, none of them an audit entry. *)
Lemma sale_A_deleted_without_audit_entry :
  is_success (response (deleteSale env0 1%positive) worldA) = true
  /\ exists new,
       trace (after (deleteSale env0 1%positive) worldA)
       = (trace worldA ++ new)%list
       /\ forallb (fun e => negb (is_audit_entry e)) new = true.
Proof.
  split; [reflexivity|].
  exact (proj1 updates_and_deletions_leave_no_audit_entry env0
           (DeleteSale 1%positive) worldA eq_refl).
Defined.

(** ** Changing the payment status of a sale *)

Lemma updatePaymentStatus_run env id status w :
  is_done (fst (updatePaymentStatus env id status w)) = true ->
  exists st sale,
    status = Some st
    /\ st ∈ paymentStatus_enum
    /\ sales (committed w) !! id = Some sale
    /\ validate_sale (set_paymentStatus sale st) = true
    /\ fst (updatePaymentStatus env id status w) = Normal (Done 200 (id, st))
    /\ committed (snd (updatePaymentStatus env id status w))
       = mkDb (products (committed w))
              (<[id := set_paymentStatus sale st]> (sales (committed w)))
              (purchases (committed w)).
Proof.
  exec_direct; try done; intros _.
  all: eexists _, _; repeat split; try eassumption; try reflexivity.
  all: unfold enum in *; by case_decide.
Qed.

Lemma updatePaymentStatus_refused env id status w :
  is_done (fst (updatePaymentStatus env id status w)) = false ->
  committed (snd (updatePaymentStatus env id status w)) = committed w.
Proof. exec_direct; done. Qed.

Lemma sum_of_filter {A} (f : A -> Z) (P : A -> bool) (l : list A) :
  sum_of f (List.filter P l) = sum_of (fun a => if P a then f a else 0) l.
Proof.
  unfold sum_of. induction l as [|a l IH]; [done|]. simpl.
  destruct (P a); simpl; lia.
Qed.

Lemma sum_of_aggregate_match {A} (f : A -> Z) (P : A -> bool)
    (m : gmap positive A) :
  sum_of f (aggregate_match m P) = total (fun a => if P a then f a else 0) m.
Proof. unfold aggregate_match, total. apply sum_of_filter. Qed.

Lemma updatePaymentStatus_offset env id status w pid :
  ledger_offset (committed (snd (updatePaymentStatus env id status w))) pid
  = ledger_offset (committed w) pid.
Proof.
  destruct (is_done (fst (updatePaymentStatus env id status w))) eqn:Hdone.
  - destruct (updatePaymentStatus_run env id status w Hdone)
      as (st & sale & _ & _ & Hsale & _ & _ & ->).
    unfold ledger_offset, replayed_stock, sold, purchased. simpl.
    rewrite (total_insert_existing _ _ _ _ _ Hsale). simpl.
    destruct (products (committed w) !! pid); simpl; [f_equal; lia | done].
  - by rewrite updatePaymentStatus_refused.
Qed.

(** A change of payment status that is answered with 200 rewrites the
    status of that sale and nothing else: the products and their stock,
    the purchases, every other sale and the ledger offset of every
    product are as before, and the answer carries the new status. It is
    answered with 200 exactly when the status is paid or pending, the
    sale exists and the sale with its new status passes the schema; every
    other call leaves the database as it was. *)
Theorem updatePaymentStatus_changes_status_only env id status w :
  let run := updatePaymentStatus env id status w in
  (is_done (fst run) = true ->
   exists st sale,
     status = Some st
     /\ st ∈ paymentStatus_enum
     /\ sales (committed w) !! id = Some sale
     /\ fst run = Normal (Done 200 (id, st))
     /\ sales (committed (snd run))
        = <[id := set_paymentStatus sale st]> (sales (committed w))
     /\ products (committed (snd run)) = products (committed w)
     /\ purchases (committed (snd run)) = purchases (committed w)
     /\ forall pid,
          ledger_offset (committed (snd run)) pid
          = ledger_offset (committed w) pid)
  /\ (is_done (fst run) = false -> committed (snd run) = committed w)
  /\ (is_done (fst run) = true <->
      exists st sale,
        status = Some st /\ st ∈ paymentStatus_enum
        /\ sales (committed w) !! id = Some sale
        /\ validate_sale (set_paymentStatus sale st) = true).
Proof.
  intros run. subst run. split; [|split].
  - intros Hdone.
    destruct (updatePaymentStatus_run env id status w Hdone)
      as (st & sale & Hstatus & Hst & Hsale & _ & Hreply & Hd').
    exists st, sale. rewrite Hd'. simpl. repeat split; try done.
    intros pid. rewrite <- Hd'. apply updatePaymentStatus_offset.
  - apply updatePaymentStatus_refused.
  - split.
    + exec_direct; try done; intros _.
      all: eexists _, _; repeat split; try eassumption; try reflexivity.
      all: unfold enum in *; by case_decide.
    + intros (st & sale & -> & Hst & Hsale & Hvalid). revert Hsale Hvalid.
      exec_direct; try done.
      all: unfold enum in *; try by case_decide.
      all: congruence.
Qed.

(** Sale 1 of scenario A, recorded as paid, is marked pending: the
    products are untouched and the row carries the new status. *)
Lemma sale_A_marked_pending :
  let run := updatePaymentStatus env0 1%positive (Some "pending") worldA in
  products (committed (snd run)) = products (committed worldA)
  /\ paymentStatus <$> sales (committed (snd run)) !! 1%positive
     = Some "pending".
Proof.
  destruct (proj1 (updatePaymentStatus_changes_status_only env0 1%positive
                     (Some "pending") worldA) eq_refl)
    as (st & sale & Hst & _ & Hsale & _ & Hsales & Hproducts & _).
  split; [exact Hproducts|].
  injection Hst as <-.
  cbv zeta. rewrite Hsales, lookup_insert_eq. reflexivity.
Defined.

(** Marking a pending sale as paid moves its total, when its date is in
    the range of the report, from the pending total of the sales report
    to its revenue, which is the totalRevenue that getSalesReport
    returns. *)
Theorem payment_moves_total_from_pending_to_revenue env q id sale w :
  sales (committed w) !! id = Some sale ->
  paymentStatus sale = "pending" ->
  is_done (fst (updatePaymentStatus env id (Some "paid") w)) = true ->
  let d := committed w in
  let d' := committed (snd (updatePaymentStatus env id (Some "paid") w)) in
  let moved :=
    if in_date_filter (sales_dateFilter env q) (sale_date sale)
    then totalPriceTZS sale else 0 in
  paid_total env q d' = paid_total env q d + moved
  /\ pending_total env q d' = pending_total env q d - moved
  /\ field "totalRevenue" (getSalesReport_totals env q d')
     = Some (inject_Z (paid_total env q d + moved)).
Proof.
  intros Hsale Hpending Hdone d d' moved.
  destruct (updatePaymentStatus_run env id _ w Hdone)
    as (st & sale' & Hst & _ & Hsale' & _ & _ & Hd').
  injection Hst as <-.
  rewrite Hsale in Hsale'. injection Hsale' as <-.
  assert (Hpaid : paid_total env q d' = paid_total env q d + moved).
  { subst d' d moved. rewrite Hd'. unfold paid_total. simpl.
    rewrite !sum_of_aggregate_match.
    rewrite (total_insert_existing _ _ _ _ _ Hsale).
    unfold matchStage. simpl. rewrite Hpending.
    destruct (in_date_filter _ _); simpl; lia. }
  split; [exact Hpaid|]. split.
  - subst d' d moved. rewrite Hd'. unfold pending_total. simpl.
    rewrite !sum_of_aggregate_match.
    rewrite (total_insert_existing _ _ _ _ _ Hsale).
    unfold pendingMatchStage. simpl. rewrite Hpending.
    destruct (in_date_filter _ _); simpl; lia.
  - rewrite getSalesReport_totals_paid. cbv zeta.
    fold (paid_total env q d'). rewrite Hpaid. reflexivity.
Qed.

(** The pending sale of 200 of the report scenario is paid: the revenue
    of the report goes from 450 to 650 and its pending total from 200
    to 0. *)
Lemma pending_sale_of_report_paid :
  let w := mkWorld reportDb None [] in
  let d' := committed (snd (updatePaymentStatus env0 2%positive (Some "paid") w)) in
  paid_total env0 anyRange d' = 650 /\ pending_total env0 anyRange d' = 0.
Proof.
  destruct (payment_moves_total_from_pending_to_revenue env0 anyRange
              2%positive pendingSale (mkWorld reportDb None [])
              eq_refl eq_refl eq_refl) as (H1 & H2 & _).
  cbv zeta in *. split; [rewrite H1 | rewrite H2]; reflexivity.
Defined.

(** ** What the ledger operations leave of the catalogue *)

Ltac product_leaf k :=
  unfold product_kept; simpl;
  first
    [ by left
    | match goal with
      | |- context [<[?t := _]> _ !! k] =>
        destruct (decide (k = t)) as [->|?];
        [ rewrite lookup_insert_eq; right; eexists _, _;
          split; [eassumption|]; split; [reflexivity|];
          split; [by repeat split | eassumption]
        | rewrite lookup_insert_ne by done; by left ]
      end ].

Ltac row_leaf k :=
  simpl;
  first
    [ by left
    | match goal with
      | |- <[?t := _]> _ !! k = Some _ -> _ =>
        destruct (decide (k = t)) as [->|?];
        [ rewrite lookup_insert_eq; intros [= <-]; right;
          split; [eassumption | simpl; reflexivity]
        | rewrite lookup_insert_ne by done; by left ]
      | |- delete ?t _ !! k = Some _ -> _ =>
        rewrite lookup_delete_Some; intros [_ ?]; by left
      end ].

Lemma handler_rows env op w :
  let d := committed w in
  let d' := committed (after (handler env op) w) in
  (forall k, product_kept d d' k)
  /\ (forall k s, sales d' !! k = Some s -> sales d !! k = Some s \/ sale_ok s)
  /\ (forall k p,
        purchases d' !! k = Some p -> purchases d !! k = Some p \/ purchase_ok p).
Proof.
  destruct op; exec.
  all: repeat match goal with
       | H : _ <$> _ = Some _ |- _ => apply fmap_Some in H as (? & H & ->)
       end.
  all: split; [intros k; product_leaf k|].
  all: split; intros k r; row_leaf k.
Qed.

(** No ledger operation, whether it succeeds or fails, creates or
    deletes a product or changes the name, the sku, the category or the
    selling price of one: all it may rewrite of a product is its stock
    and its cost price. *)
Theorem ledger_operations_keep_catalogue env op w k :
  let d := committed w in
  let d' := committed (after (handler env op) w) in
  (products d !! k = None -> products d' !! k = None)
  /\ (forall p,
        products d !! k = Some p ->
        exists p',
          products d' !! k = Some p'
          /\ name p' = name p /\ sku p' = sku p
          /\ category p' = category p
          /\ unitPriceTZS p' = unitPriceTZS p).
Proof.
  cbv zeta.
  destruct (handler_rows env op w) as (Hproducts & _).
  destruct (Hproducts k) as [Hsame | (p & p' & Hp & Hp' & Hcat & _)].
  - rewrite Hsame. split; [done|]. intros p Hp. by exists p.
  - split; [congruence|]. intros q Hq. exists p'.
    rewrite Hp in Hq. injection Hq as <-.
    destruct Hcat as (? & ? & ? & ?). done.
Qed.

(** The sale of scenario A took three units of product P and left its
    name, sku, category and price. *)
Lemma sale_A_keeps_catalogue_of_P :
  exists p',
    products (committed worldA) !! P = Some p'
    /\ name p' = name productP /\ sku p' = sku productP
    /\ category p' = category productP
    /\ unitPriceTZS p' = unitPriceTZS productP.
Proof.
  exact (proj2 (ledger_operations_keep_catalogue env0 (CreateSale saleA)
                  world0 P) productP eq_refl).
Defined.

(** ** Creating a product *)

Lemma head_filter_None {A} (P : A -> Prop) `{forall x, Decision (P x)}
    (l : list A) :
  head (filter P l) = None <-> forall x, x ∈ l -> ~ P x.
Proof.
  rewrite head_None. split.
  - intros Hnil x Hx HP.
    assert (x ∈ filter P l) as Hin by (apply list_elem_of_filter; done).
    rewrite Hnil in Hin. by apply not_elem_of_nil in Hin.
  - intros Hall. destruct (filter P l) as [|x l'] eqn:Heq; [done|].
    assert (x ∈ filter P l) as Hin by (rewrite Heq; left).
    apply list_elem_of_filter in Hin as [HP Hx]. by destruct (Hall x Hx).
Qed.

Ltac exec_product :=
  unfold createProduct, Product_findOne_sku, Product_create in *; exec_direct.

Lemma createProduct_run env body w :
  is_success (response (createProduct env body) w) = true ->
  exists n s c cost price,
    truthy_string (product_body_name body) = Some n
    /\ truthy_string (product_body_sku body) = Some s
    /\ truthy_string (product_body_category body) = Some c
    /\ product_body_costPrice body = Some cost
    /\ product_body_sellingPrice body = Some price
    /\ (forall k p,
          products (committed w) !! k = Some p -> sku p <> toUpperCase s)
    /\ let product :=
         mkProduct n (toUpperCase s) c price cost
           (default 0 (product_body_stockQuantity body)) in
       let id := fresh (dom (products (committed w))) in
       validate_product product = true
       /\ response (createProduct env body) w
          = Some (Ok 201 (ProductPayload id product))
       /\ committed (after (createProduct env body) w)
          = mkDb (<[id := product]> (products (committed w)))
                 (sales (committed w)) (purchases (committed w)).
Proof.
  exec_product; try done; intros _.
  eexists _, _, _, _, _. repeat split; try reflexivity; try eassumption.
  intros k p Hp Hsku.
  match goal with
  | H : _ <$> head (filter _ _) = None |- _ =>
    apply fmap_None in H;
    apply (proj1 (head_filter_None _ _) H (k, p));
      [by apply elem_of_map_to_list | exact Hsku]
  end.
Qed.

Lemma createProduct_refused env body w :
  is_success (response (createProduct env body) w) = false ->
  committed (after (createProduct env body) w) = committed w.
Proof. exec_product; done. Qed.

(** ** Updating and deleting a product *)

Lemma sku_taken_false d id s :
  sku_taken d id s = false ->
  forall k q, k <> id -> products d !! k = Some q -> sku q <> s.
Proof.
  unfold sku_taken. intros Hfree k q Hk Hq Hsku.
  apply bool_decide_eq_false in Hfree. apply Hfree.
  apply Exists_exists. exists (k, q). split; [|done].
  by apply elem_of_map_to_list.
Qed.

Lemma sku_modified_false d id p :
  sku_modified d id p = false ->
  exists old, products d !! id = Some old /\ sku old = sku p.
Proof.
  unfold sku_modified. destruct (products d !! id) as [old|]; [|done].
  intros Hsame. apply bool_decide_eq_false in Hsame.
  exists old. split; [done|]. by destruct (decide (sku old = sku p)).
Qed.

Lemma updateProduct_run env id body w :
  is_done (fst (updateProduct env id body w)) = true ->
  exists product,
    products (committed w) !! id = Some product
    /\ validate_product (update_fields product body) = true
    /\ (sku_modified (committed w) id (update_fields product body)
        && sku_taken (committed w) id (sku (update_fields product body))
        = false)
    /\ fst (updateProduct env id body w)
       = Normal (Done 200 (update_fields product body))
    /\ committed (snd (updateProduct env id body w))
       = mkDb (<[id := update_fields product body]> (products (committed w)))
              (sales (committed w)) (purchases (committed w)).
Proof.
  exec_direct; try done; intros _.
  all: eexists; repeat split; try eassumption; reflexivity.
Qed.

Lemma updateProduct_refused env id body w :
  is_done (fst (updateProduct env id body w)) = false ->
  committed (snd (updateProduct env id body w)) = committed w.
Proof. exec_direct; done. Qed.

Lemma deleteProduct_run env id w :
  is_done (fst (deleteProduct env id w))
  = bool_decide (is_Some (products (committed w) !! id))
  /\ committed (snd (deleteProduct env id w))
     = mkDb (delete id (products (committed w)))
            (sales (committed w)) (purchases (committed w)).
Proof.
  exec_direct.
  - done.
  - split; [done|]. rewrite delete_id by done. by destruct (committed w).
Qed.

Lemma update_fields_stock product body s :
  product_body_stockQuantity body = Some s ->
  stockQuantity (update_fields product body) = s.
Proof. unfold update_fields. intros ->. reflexivity. Qed.

Lemma update_fields_sku product body s :
  product_body_sku body = Some s ->
  sku (update_fields product body) = toUpperCase s.
Proof.
  unfold update_fields. intros ->.
  destruct (product_body_name body), (product_body_category body),
    (product_body_sellingPrice body), (product_body_costPrice body),
    (product_body_stockQuantity body); reflexivity.
Qed.

(** An update of a product whose body carries a stockQuantity s writes s
    as the stock, whatever the stock was, and touches no sale or purchase
    row: the rows replay to what they did, and the offset between the
    stock and the replayed rows becomes s minus the replayed value. A
    negative s makes the update fail, and a failed update changes
    nothing. *)
Theorem updateProduct_sets_stock env id body w s :
  product_body_stockQuantity body = Some s ->
  let run := updateProduct env id body w in
  (is_done (fst run) = true ->
   0 <= s
   /\ stock (snd run) id = Some s
   /\ sales (committed (snd run)) = sales (committed w)
   /\ purchases (committed (snd run)) = purchases (committed w)
   /\ ledger_offset (committed (snd run)) id
      = Some (s - replayed_stock (committed w) id))
  /\ (is_done (fst run) = false -> committed (snd run) = committed w)
  /\ (s < 0 -> is_done (fst run) = false).
Proof.
  intros Hs run. subst run.
  assert (Hdone : is_done (fst (updateProduct env id body w)) = true ->
                  0 <= s) .
  { intros Hdone.
    destruct (updateProduct_run env id body w Hdone)
      as (product & _ & Hvalid & _).
    apply validate_product_fields in Hvalid.
    rewrite (update_fields_stock _ _ _ Hs) in Hvalid. tauto. }
  split; [|split].
  - intros Hok. split; [by apply Hdone|].
    destruct (updateProduct_run env id body w Hok)
      as (product & Hp & _ & _ & _ & Hd').
    unfold stock, ledger_offset, replayed_stock, sold, purchased.
    rewrite Hd'. simpl. rewrite lookup_insert_eq. simpl.
    by rewrite (update_fields_stock _ _ _ Hs).
  - apply updateProduct_refused.
  - intros Hneg.
    destruct (is_done (fst (updateProduct env id body w))) eqn:Hok; [|done].
    specialize (Hdone eq_refl). lia.
Qed.

(** After the sale of scenario A product P has stock 7 and an offset of
    10 to its rows; an update to stockQuantity 50 leaves stock 50 and an
    offset of 53. *)
Lemma stock_of_P_set_to_fifty :
  let body := mkProductBody None None None None None (Some 50) in
  let w' := snd (updateProduct env0 P body worldA) in
  ledger_offset (committed worldA) P = Some 10
  /\ stock w' P = Some 50
  /\ ledger_offset (committed w') P = Some 53.
Proof.
  intros body w'.
  destruct (proj1 (updateProduct_sets_stock env0 P body worldA 50 eq_refl)
              eq_refl) as (_ & Hstock & _ & _ & Hoffset).
  split; [vm_compute; reflexivity|]. split; [exact Hstock|].
  subst w'. rewrite Hoffset. vm_compute. reflexivity.
Defined.

(** A sku that another product has, up to the case of its letters, is
    refused: createProduct answers 400 and leaves the world as it was,
    and, the skus being unique, an updateProduct of another product with
    that sku in its body fails and changes nothing. *)
Theorem taken_sku_is_refused env body w s k q :
  truthy_string (product_body_sku body) = Some s ->
  products (committed w) !! k = Some q ->
  sku q = toUpperCase s ->
  (forall n c cost price,
     truthy_string (product_body_name body) = Some n ->
     truthy_string (product_body_category body) = Some c ->
     product_body_costPrice body = Some cost ->
     product_body_sellingPrice body = Some price ->
     response (createProduct env body) w = Some (Err 400 SkuExists)
     /\ after (createProduct env body) w = w)
  /\ (forall id,
        unique_skus (committed w) ->
        id <> k ->
        is_done (fst (updateProduct env id body w)) = false
        /\ committed (snd (updateProduct env id body w)) = committed w).
Proof.
  intros Hs Hq Hsku. split.
  - intros n c cost price Hn Hc Hcost Hprice.
    unfold createProduct, Product_findOne_sku.
    rewrite Hn, Hs, Hc, Hcost, Hprice.
    destruct (head (filter (fun kp => sku (snd kp) = toUpperCase s)
                      (map_to_list (products (committed w))))) eqn:Hhead.
    + unfold_monad. simpl. rewrite Hhead. simpl. done.
    + destruct (proj1 (head_filter_None _ _) Hhead (k, q));
        [by apply elem_of_map_to_list | exact Hsku].
  - intros id Hunique Hid.
    assert (Hbody : product_body_sku body = Some s).
    { unfold truthy_string in Hs.
      destruct (product_body_sku body) as [s'|]; [|done].
      by destruct (decide (s' = "")); simplify_eq. }
    assert (is_done (fst (updateProduct env id body w)) = false) as Hrefused.
    { destruct (is_done (fst (updateProduct env id body w))) eqn:Hok; [|done].
      destruct (updateProduct_run env id body w Hok)
        as (product & Hp & _ & Hfree & _).
      rewrite (update_fields_sku _ _ _ Hbody) in Hfree.
      apply andb_false_iff in Hfree as [Hsame | Hfree].
      - apply sku_modified_false in Hsame as (old & Hold & Hsame).
        rewrite (update_fields_sku _ _ _ Hbody) in Hsame.
        destruct Hid. apply (Hunique id k old q Hold Hq). congruence.
      - by destruct (sku_taken_false _ _ _ Hfree k q). }
    split; [exact Hrefused|]. by apply updateProduct_refused.
Qed.

(** Product P has the sku W-1: a product with the sku w-1 is refused. *)
Lemma sku_of_P_refused_in_lower_case :
  let body := mkProductBody (Some "Gadget") (Some "w-1") (Some "tools")
                            (Some 100) (Some 150) None in
  response (createProduct env0 body) world0 = Some (Err 400 SkuExists)
  /\ after (createProduct env0 body) world0 = world0.
Proof.
  intros body.
  exact (proj1 (taken_sku_is_refused env0 body world0 "w-1" P productP
                  eq_refl eq_refl eq_refl)
           "Gadget" "tools" 100 150 eq_refl eq_refl eq_refl eq_refl).
Defined.

(** ** Rows of a deleted product *)

Lemma updateSale_of_orphan env sid body sale w :
  sales (committed w) !! sid = Some sale ->
  products (committed w) !! sale_productId sale = None ->
  response (updateSale env sid body) w = Some (Err 404 ProductNotFound)
  /\ committed (after (updateSale env sid body) w) = committed w.
Proof.
  intros Hsale Hproduct. exec; try congruence.
  all: simplify_eq; try congruence; done.
Qed.

Lemma createSale_of_missing_product env body id w :
  sale_body_productId body = Some id ->
  products (committed w) !! id = None ->
  is_success (response (createSale env body) w) = false
  /\ committed (after (createSale env body) w) = committed w.
Proof.
  intros Hid Hproduct. exec; try done.
  all: simplify_eq; try congruence; done.
Qed.

Lemma deleteSale_of_orphan env sid sale w :
  sales (committed w) !! sid = Some sale ->
  products (committed w) !! sale_productId sale = None ->
  commitFails env = false ->
  is_success (response (deleteSale env sid) w) = true
  /\ committed (after (deleteSale env sid) w)
     = mkDb (products (committed w)) (delete sid (sales (committed w)))
            (purchases (committed w)).
Proof.
  intros Hsale Hproduct Hcommit. exec; try congruence.
  all: simplify_eq; try congruence; done.
Qed.

(** deleteProduct is answered with 200 exactly when the product exists,
    whatever rows refer to it, and removes the product alone: its sale
    and purchase rows stay. On such a row of a deleted product an
    updateSale is refused with 404, a deleteSale whose commit does not
    fail removes the row and restores no stock, and no new sale of the
    product is accepted. *)
Theorem deleteProduct_orphans_rows env id w :
  let w' := snd (deleteProduct env id w) in
  is_done (fst (deleteProduct env id w))
  = bool_decide (is_Some (products (committed w) !! id))
  /\ products (committed w') = delete id (products (committed w))
  /\ sales (committed w') = sales (committed w)
  /\ purchases (committed w') = purchases (committed w)
  /\ (forall env' sid sale,
        sales (committed w) !! sid = Some sale ->
        sale_productId sale = id ->
        (forall body,
           response (updateSale env' sid body) w'
           = Some (Err 404 ProductNotFound))
        /\ (commitFails env' = false ->
            is_success (response (deleteSale env' sid) w') = true
            /\ products (committed (after (deleteSale env' sid) w'))
               = products (committed w')
            /\ sales (committed (after (deleteSale env' sid) w'))
               = delete sid (sales (committed w))))
  /\ (forall env' body,
        sale_body_productId body = Some id ->
        is_success (response (createSale env' body) w') = false).
Proof.
  intros w'. destruct (deleteProduct_run env id w) as [Hdone Hd'].
  fold w' in Hd'.
  assert (Hgone : products (committed w') !! id = None)
    by (rewrite Hd'; apply lookup_delete_eq).
  split; [exact Hdone|]. rewrite Hd'. simpl. repeat split; try done.
  - intros body. subst id.
    apply (updateSale_of_orphan env' sid body sale w'); [|done].
    by rewrite Hd'.
  - subst id.
    by apply (deleteSale_of_orphan env' sid sale w'); [rewrite Hd'| |].
  - subst id.
    destruct (deleteSale_of_orphan env' sid sale w') as [_ ->];
      [by rewrite Hd' | done | done | by rewrite Hd'].
  - subst id.
    destruct (deleteSale_of_orphan env' sid sale w') as [_ ->];
      [by rewrite Hd' | done | done | by rewrite Hd'].
  - intros env' body Hbody.
    by apply (createSale_of_missing_product env' body id w').
Qed.

(** Product P is deleted after the sale of scenario A: the sale row
    stays, an update of it is refused, its deletion removes it and
    leaves no product. *)
Lemma product_P_deleted_after_sale_A :
  let w' := snd (deleteProduct env0 P worldA) in
  is_done (fst (deleteProduct env0 P worldA)) = true
  /\ is_Some (sales (committed w') !! 1%positive)
  /\ response (updateSale env0 1%positive onlyStatus) w'
     = Some (Err 404 ProductNotFound)
  /\ committed (after (deleteSale env0 1%positive) w') = emptyDb.
Proof.
  intros w'.
  destruct (deleteProduct_orphans_rows env0 P worldA)
    as (Hdone & _ & Hsales & _ & Hrows & _).
  fold w' in Hsales, Hrows.
  split; [exact Hdone|]. split; [rewrite Hsales; by eexists|].
  destruct (Hrows env0 1%positive
              (mkSale P (mkSnapshot "Widget" "W-1") 3 150 450 "cash" "paid"
                      admin (now env0)) eq_refl eq_refl) as [Hupdate _].
  split; [apply Hupdate|]. vm_compute. reflexivity.
Defined.

(** ** Invariants of the databases that requests build *)

Lemma handler_consistent env op w :
  consistent (committed w) ->
  consistent (committed (after (handler env op) w)).
Proof.
  intros (Hunique & Hproducts & Hsales & Hpurchases).
  destruct (handler_rows env op w) as (Hp & Hs & Hq).
  cbv zeta in *. split; [|split; [|split]].
  - intros i j p q Hi Hj Hsku.
    assert (forall k r, products (committed (after (handler env op) w)) !! k
                        = Some r ->
                        exists r0, products (committed w) !! k = Some r0
                                   /\ sku r0 = sku r) as Hold.
    { intros k r Hk. destruct (Hp k) as [Hsame | (r0 & r' & Hr0 & Hr' & Hcat & _)].
      - exists r. by rewrite <- Hsame.
      - exists r0. split; [done|]. rewrite Hk in Hr'. injection Hr' as <-.
        by destruct Hcat as (_ & -> & _). }
    destruct (Hold i p Hi) as (p0 & Hp0 & Hskup).
    destruct (Hold j q Hj) as (q0 & Hq0 & Hskuq).
    apply (Hunique i j p0 q0 Hp0 Hq0). congruence.
  - intros k p Hk. destruct (Hp k) as [Hsame | (r0 & r' & Hr0 & Hr' & _ & Hvalid)].
    + apply (Hproducts k). by rewrite <- Hsame.
    + congruence.
  - intros k s Hk. destruct (Hs k s Hk) as [Hold | Hok]; [|done].
    by apply (Hsales k).
  - intros k p Hk. destruct (Hq k p Hk) as [Hold | Hok]; [|done].
    by apply (Hpurchases k).
Qed.

Lemma createProduct_consistent env body w :
  consistent (committed w) ->
  consistent (committed (after (createProduct env body) w)).
Proof.
  intros Hc.
  destruct (is_success (response (createProduct env body) w)) eqn:Hok;
    [|by rewrite createProduct_refused].
  destruct (createProduct_run env body w Hok)
    as (n & s & c & cost & price & _ & _ & _ & _ & _ & Hfree & Hrun).
  cbv zeta in Hrun. destruct Hrun as (Hvalid & _ & ->).
  destruct Hc as (Hunique & Hproducts & Hsales & Hpurchases).
  split; [|split; [|split]]; simpl; [| |done|done].
  - intros i j p q Hi Hj Hsku. simpl in Hi, Hj.
    apply lookup_insert_Some in Hi as [[<- <-] | [Hi Hp]];
    apply lookup_insert_Some in Hj as [[<- <-] | [Hj Hq]]; try done.
    + simpl in Hsku. by destruct (Hfree j q Hq).
    + simpl in Hsku. by destruct (Hfree i p Hp).
    + by apply (Hunique i j p q).
  - intros k p Hk. simpl in Hk.
    apply lookup_insert_Some in Hk as [[_ <-] | [_ Hk]]; [done|].
    by apply (Hproducts k).
Qed.

Lemma updateProduct_consistent env id body w :
  consistent (committed w) ->
  consistent (committed (snd (updateProduct env id body w))).
Proof.
  intros Hc.
  destruct (is_done (fst (updateProduct env id body w))) eqn:Hok;
    [|by rewrite updateProduct_refused].
  destruct (updateProduct_run env id body w Hok)
    as (product & Hproduct & Hvalid & Hfree & _ & ->).
  destruct Hc as (Hunique & Hproducts & Hsales & Hpurchases).
  assert (forall k q, k <> id -> products (committed w) !! k = Some q ->
                      sku q <> sku (update_fields product body)) as Hother.
  { apply andb_false_iff in Hfree as [Hsame | Hfree].
    - apply sku_modified_false in Hsame as (old & Hold & Hsame).
      intros k q Hk Hq Hsku. apply Hk.
      apply (Hunique k id q old Hq Hold). congruence.
    - by apply sku_taken_false. }
  split; [|split; [|split]]; simpl; [| |done|done].
  - intros i j p q Hi Hj Hsku. simpl in Hi, Hj.
    apply lookup_insert_Some in Hi as [[<- <-] | [Hi Hp]];
    apply lookup_insert_Some in Hj as [[<- <-] | [Hj Hq]]; try done.
    + by destruct (Hother j q).
    + by destruct (Hother i p).
    + by apply (Hunique i j p q).
  - intros k p Hk. simpl in Hk.
    apply lookup_insert_Some in Hk as [[_ <-] | [_ Hk]]; [done|].
    by apply (Hproducts k).
Qed.

Lemma deleteProduct_consistent env id w :
  consistent (committed w) ->
  consistent (committed (snd (deleteProduct env id w))).
Proof.
  intros (Hunique & Hproducts & Hsales & Hpurchases).
  destruct (deleteProduct_run env id w) as [_ ->].
  split; [|split; [|split]]; simpl; [| |done|done].
  - intros i j p q Hi Hj. simpl in Hi, Hj.
    apply lookup_delete_Some in Hi as [_ Hi].
    apply lookup_delete_Some in Hj as [_ Hj].
    by apply Hunique.
  - intros k p Hk. simpl in Hk. apply lookup_delete_Some in Hk as [_ Hk].
    by apply (Hproducts k).
Qed.

Lemma updatePaymentStatus_consistent env id status w :
  consistent (committed w) ->
  consistent (committed (snd (updatePaymentStatus env id status w))).
Proof.
  intros Hc.
  destruct (is_done (fst (updatePaymentStatus env id status w))) eqn:Hok;
    [|by rewrite updatePaymentStatus_refused].
  destruct (updatePaymentStatus_run env id status w Hok)
    as (st & sale & _ & _ & Hsale & Hvalid & _ & ->).
  destruct Hc as (Hunique & Hproducts & Hsales & Hpurchases).
  split; [|split; [|split]]; simpl; [done|done| |done].
  intros k s Hk. simpl in Hk.
  apply lookup_insert_Some in Hk as [[_ <-] | [_ Hk]]; [|by apply (Hsales k)].
  split; [done|]. simpl. by destruct (Hsales id sale Hsale).
Qed.

Lemma serve_consistent env r w :
  consistent (committed w) -> consistent (committed (serve env r w)).
Proof.
  destruct r; simpl.
  - apply handler_consistent.
  - apply createProduct_consistent.
  - apply updateProduct_consistent.
  - apply deleteProduct_consistent.
  - apply updatePaymentStatus_consistent.
Qed.

Lemma serve_all_consistent requests w :
  consistent (committed w) ->
  consistent (committed (serve_all requests w)).
Proof.
  revert w. induction requests as [|[env r] requests IH]; intros w Hc; [done|].
  simpl. apply IH. by apply serve_consistent.
Qed.

Lemma validate_sale_fields s :
  validate_sale s = true ->
  1 <= quantitySold s /\ 0 <= unitPriceAtSaleTZS s /\ 0 <= totalPriceTZS s
  /\ paymentMethod s ∈ paymentMethod_enum
  /\ paymentStatus s ∈ paymentStatus_enum.
Proof.
  unfold validate_sale, enum. rewrite !andb_true_iff, !Z.leb_le.
  repeat case_decide; intuition congruence.
Qed.

Lemma validate_purchase_fields p :
  validate_purchase p = true ->
  1 <= quantityPurchased p /\ 0 <= unitCostTZS p /\ 0 <= totalCostTZS p.
Proof.
  unfold validate_purchase. rewrite !andb_true_iff, !Z.leb_le. tauto.
Qed.

(** Whatever requests are served, one after the other, on an empty
    database (ledger operations, creations, updates and deletions of
    products, changes of payment status; each succeeding or failing, with
    failing audit, notification or commit writes or not), the database
    they leave has no two products with the same sku, no product with a
    negative stock, price or cost, and only sale and purchase rows with a
    quantity of at least 1, a total equal to the quantity times the unit
    price or cost, and one of the payment methods and statuses of the
    schema. *)
Theorem served_databases_are_consistent requests :
  let d := committed (serve_all requests (world_of emptyDb)) in
  unique_skus d
  /\ (forall id p,
        products d !! id = Some p ->
        0 <= stockQuantity p /\ 0 <= unitPriceTZS p /\ 0 <= costPriceTZS p)
  /\ (forall id s,
        sales d !! id = Some s ->
        1 <= quantitySold s
        /\ totalPriceTZS s = quantitySold s * unitPriceAtSaleTZS s
        /\ paymentMethod s ∈ paymentMethod_enum
        /\ paymentStatus s ∈ paymentStatus_enum)
  /\ (forall id p,
        purchases d !! id = Some p ->
        1 <= quantityPurchased p
        /\ totalCostTZS p = quantityPurchased p * unitCostTZS p).
Proof.
  intros d.
  assert (consistent d) as (Hunique & Hproducts & Hsales & Hpurchases).
  { apply serve_all_consistent. repeat split; done. }
  split; [exact Hunique|]. split; [|split].
  - intros id p Hp. apply Hproducts, validate_product_fields in Hp. tauto.
  - intros id s Hs. destruct (Hsales id s Hs) as [Hvalid Htotal].
    apply validate_sale_fields in Hvalid. tauto.
  - intros id p Hp. destruct (Hpurchases id p Hp) as [Hvalid Htotal].
    apply validate_purchase_fields in Hvalid. tauto.
Qed.

(** ** The ledger offset along a list of requests *)





(** ** The stock report *)

Section StockReportFacts.
Import StockReport.

Lemma foldl_sum {A} (f : A -> Z) (l : list A) (z : Z) :
  foldl (fun sum a => sum + f a) z l = z + sum_of f l.
Proof.
  revert z. induction l as [|a l IH]; intros z; simpl; [lia|].
  rewrite IH. unfold sum_of. simpl. lia.
Qed.

Lemma sum_of_app {A} (f : A -> Z) (l1 l2 : list A) :
  sum_of f (l1 ++ l2) = sum_of f l1 + sum_of f l2.
Proof. unfold sum_of. induction l1; simpl; lia. Qed.

Lemma sum_of_fmap {A B} (f : B -> Z) (g : A -> B) (l : list A) :
  sum_of f (g <$> l) = sum_of (fun a => f (g a)) l.
Proof.
  unfold sum_of. induction l as [|a l IH]; simpl; [done | by f_equal].
Qed.

Lemma sum_of_plus {A} (f g : A -> Z) (l : list A) :
  sum_of (fun a => f a + g a) l = sum_of f l + sum_of g l.
Proof. unfold sum_of. induction l; simpl; lia. Qed.

Lemma sum_of_ext_in {A} (f g : A -> Z) (l : list A) :
  (forall a, a ∈ l -> f a = g a) -> sum_of f l = sum_of g l.
Proof.
  unfold sum_of. induction l as [|a l IH]; intros Heq; [done|]. simpl.
  rewrite (Heq a) by left. rewrite IH; [done|].
  intros b Hb. apply Heq. by right.
Qed.

Lemma filter_all {A} (P : A -> bool) (l : list A) :
  (forall a, a ∈ l -> P a = true) -> List.filter P l = l.
Proof.
  induction l as [|a l IH]; intros Hall; [done|]. simpl.
  rewrite (Hall a) by left. f_equal. apply IH.
  intros b Hb. apply Hall. by right.
Qed.

Lemma length_filter_sum {A} (P : A -> bool) (l : list A) :
  Z.of_nat (length (List.filter P l)) = sum_of (fun a => if P a then 1 else 0) l.
Proof.
  unfold sum_of. induction l as [|a l IH]; [done|]. simpl.
  destruct (P a); simpl; lia.
Qed.

Lemma insert_row_perm x l : insert_row x l ≡ₚ x :: l.
Proof.
  induction l as [|y l IH]; [done|]. simpl.
  destruct (low_stockQuantity x <=? low_stockQuantity y); [done|].
  rewrite IH. apply Permutation_swap.
Qed.

Lemma sort_rows_perm l : sort_rows l ≡ₚ l.
Proof.
  induction l as [|x l IH]; [done|]. simpl.
  rewrite insert_row_perm. by constructor.
Qed.

Lemma insert_row_sorted x l :
  Sorted ascending l -> Sorted ascending (insert_row x l).
Proof.
  induction 1 as [|y l Hl IH Hhd]; simpl; [by repeat constructor|].
  destruct (low_stockQuantity x <=? low_stockQuantity y) eqn:Hle.
  - apply Z.leb_le in Hle. by repeat constructor.
  - apply Z.leb_gt in Hle. constructor; [exact IH|].
    destruct Hhd as [|z l' Hyz]; simpl.
    + constructor. unfold ascending. lia.
    + destruct (low_stockQuantity x <=? low_stockQuantity z);
        constructor; unfold ascending in *; lia.
Qed.

Lemma sort_rows_sorted l : Sorted ascending (sort_rows l).
Proof.
  induction l as [|x l IH]; simpl; [constructor|by apply insert_row_sorted].
Qed.

Lemma sum_rows_bump f (g : Product -> Z) acc p :
  (forall c, f (mkCategoryRow c (0 + 1) (0 + stockQuantity p)
                              (0 + stockQuantity p * costPriceTZS p)) = g p) ->
  (forall r, f (mkCategoryRow (row_category r) (row_count r + 1)
                              (row_stockQuantity r + stockQuantity p)
                              (row_value r + stockQuantity p * costPriceTZS p))
             = f r + g p) ->
  sum_rows f (bump acc p) = sum_rows f acc + g p.
Proof.
  intros Hnew Hold. unfold sum_rows, sum_of.
  induction acc as [|[c r] acc IH]; simpl.
  - rewrite Hnew. lia.
  - destruct (decide (c = category p)); simpl; [rewrite Hold; lia|].
    rewrite IH. lia.
Qed.

Lemma sum_rows_breakdown f (g : Product -> Z) (l : list (positive * Product)) acc :
  (forall p c, f (mkCategoryRow c (0 + 1) (0 + stockQuantity p)
                                (0 + stockQuantity p * costPriceTZS p)) = g p) ->
  (forall p r, f (mkCategoryRow (row_category r) (row_count r + 1)
                                (row_stockQuantity r + stockQuantity p)
                                (row_value r + stockQuantity p * costPriceTZS p))
               = f r + g p) ->
  sum_rows f (foldl (fun acc kp => breakdown_step acc (snd kp)) acc l)
  = sum_rows f acc
    + sum_of (fun kp => if has_own_row (snd kp) then g (snd kp) else 0) l.
Proof.
  intros Hnew Hold. revert acc.
  induction l as [|[k p] l IH]; intros acc; simpl.
  - unfold sum_of. simpl. lia.
  - rewrite IH. unfold breakdown_step, has_own_row, sum_of. simpl.
    destruct (decide (category p ∈ Object_prototype)) as [Hin|Hout].
    + rewrite bool_decide_eq_false_2 by tauto. lia.
    + rewrite bool_decide_eq_true_2 by done.
      rewrite (sum_rows_bump f g) by done. lia.
Qed.

End StockReportFacts.

Section CategoryBreakdown.
Import StockReport.

Lemma own_property_bump acc p c :
  own_property (bump acc p) c
  = if decide (c = category p)
    then absorb (own_property acc c) [p]
    else own_property acc c.
Proof.
  unfold own_property, absorb, value_at_cost.
  induction acc as [|[c0 r] acc IH]; simpl.
  - destruct (decide (c = category p)) as [->|Hne].
    + by rewrite bool_decide_eq_true_2.
    + by rewrite bool_decide_eq_false_2.
  - destruct (decide (c0 = category p)) as [->|Hne0]; simpl.
    + destruct (decide (c = category p)) as [->|Hne].
      * by rewrite !bool_decide_eq_true_2.
      * by rewrite !bool_decide_eq_false_2.
    + destruct (bool_decide (c0 = c)) eqn:Hc0; simpl.
      * apply bool_decide_eq_true in Hc0 as ->.
        by destruct (decide (c = category p)).
      * exact IH.
Qed.

Lemma own_property_breakdown (l : list (positive * Product)) acc c :
  own_property (foldl (fun acc kp => breakdown_step acc (snd kp)) acc l) c
  = if decide (c ∈ Object_prototype) then own_property acc c
    else absorb (own_property acc c) (of_category c l).
Proof.
  revert acc. induction l as [|[k p] l IH]; intros acc; simpl.
  - by destruct (decide (c ∈ Object_prototype)).
  - rewrite IH. unfold breakdown_step, of_category. simpl.
    destruct (decide (c ∈ Object_prototype)) as [Hin|Hout].
    + destruct (decide (category p ∈ Object_prototype)); [done|].
      rewrite own_property_bump.
      destruct (decide (c = category p)) as [->|]; done.
    + destruct (decide (category p ∈ Object_prototype)) as [Hp|Hp].
      * rewrite bool_decide_eq_false_2; [done|]. by intros <-.
      * rewrite own_property_bump.
        destruct (decide (c = category p)) as [->|Hne].
        -- by rewrite bool_decide_eq_true_2.
        -- rewrite bool_decide_eq_false_2; done.
Qed.

Lemma absorb_Some r ps :
  absorb (Some r) ps
  = Some (mkCategoryRow (row_category r)
            (row_count r + Z.of_nat (length ps))
            (row_stockQuantity r + sum_of stockQuantity ps)
            (row_value r + sum_of value_at_cost ps)).
Proof.
  revert r. induction ps as [|p ps IH]; intros r.
  - unfold sum_of. simpl. destruct r. simpl. do 2 f_equal; lia.
  - unfold absorb in *. simpl. rewrite IH. unfold sum_of. simpl.
    do 2 f_equal; lia.
Qed.

Lemma absorb_None p ps :
  absorb None (p :: ps)
  = Some (mkCategoryRow (category p)
            (Z.of_nat (length (p :: ps)))
            (sum_of stockQuantity (p :: ps))
            (sum_of value_at_cost (p :: ps))).
Proof.
  change (absorb None (p :: ps))
    with (absorb (Some (mkCategoryRow (category p) 1 (stockQuantity p)
                                      (value_at_cost p))) ps).
  rewrite absorb_Some. unfold sum_of. simpl. do 2 f_equal; lia.
Qed.

End CategoryBreakdown.

Lemma bump_keys acc p :
  (StockReport.bump acc p).*1
  = if decide (category p ∈ acc.*1) then acc.*1
    else (acc.*1 ++ [category p])%list.
Proof.
  induction acc as [|[c r] acc IH].
  - destruct (decide (category p ∈ ([] : StockReport.Acc).*1)) as [Hin|_];
      [by apply not_elem_of_nil in Hin|done].
  - cbn [StockReport.bump].
    destruct (decide (c = category p)) as [Heq|Hne];
      destruct (decide (category p ∈ ((c, r) :: acc).*1)) as [Hin|Hout].
    + done.
    + destruct Hout. rewrite Heq. left.
    + rewrite fmap_cons, IH. rewrite fmap_cons in Hin.
      apply elem_of_cons in Hin as [?|Hin]; [simpl in *; congruence|].
      by rewrite decide_True.
    + rewrite fmap_cons, IH. rewrite fmap_cons in Hout.
      rewrite decide_False; [done|]. intros Hin. apply Hout. by right.
Qed.

Lemma breakdown_keys (l : list (positive * Product)) acc :
  NoDup acc.*1 ->
  NoDup (foldl (fun acc kp => StockReport.breakdown_step acc (snd kp)) acc l).*1.
Proof.
  revert acc. induction l as [|[k p] l IH]; intros acc Hacc; [done|].
  simpl. apply IH. unfold StockReport.breakdown_step.
  destruct (decide (category p ∈ StockReport.Object_prototype)); [done|].
  rewrite bump_keys. destruct (decide (category p ∈ acc.*1)); [done|].
  apply NoDup_app. split; [done|]. split; [|apply NoDup_singleton].
  intros c Hc ->%list_elem_of_singleton. done.
Qed.

(** The totals of the stock report count as low stock every product with
    a stock of at most 5, the products out of stock included, as the
    dashboard does, while the list of low-stock products leaves the
    products out of stock to their own list: for stocks that are not
    negative the count is the length of the two lists together. The
    total stock value is the sum of the stockValue of the rows of
    allProducts, and the rows flagged isLowStock are as many as
    lowStockCount. *)
Theorem stock_report_counts env d :
  (forall id p, products d !! id = Some p -> 0 <= stockQuantity p) ->
  let r := StockReport.getStockReport d in
  StockReport.lowStockCount r
  = Z.of_nat (length (StockReport.lowStockProducts r))
    + Z.of_nat (length (StockReport.outOfStockProducts r))
  /\ StockReport.outOfStockCount r
     = Z.of_nat (length (StockReport.outOfStockProducts r))
  /\ StockReport.lowStockCount r = lowStockCount (getDashboardSummary env d)
  /\ StockReport.totalStockValue r
     = sum_of StockReport.stockValue (StockReport.allProducts r)
  /\ StockReport.lowStockCount r
     = Z.of_nat (length (List.filter StockReport.isLowStock
                                     (StockReport.allProducts r))).
Proof.
  intros Hstock r. subst r.
  unfold StockReport.getStockReport, StockReport.report_of. simpl.
  assert (forall kp, kp ∈ map_to_list (products d) -> 0 <= stockQuantity kp.2)
    as Hall.
  { intros [k p] Hkp. apply elem_of_map_to_list in Hkp. by apply (Hstock k). }
  split; [|split; [|split; [|split]]].
  - rewrite (Permutation_length (sort_rows_perm _)), !length_fmap.
    rewrite !length_filter_sum, <- sum_of_plus.
    apply sum_of_ext_in. intros kp Hkp. specialize (Hall kp Hkp).
    unfold StockReport.is_low.
    destruct (stockQuantity kp.2 <=? 5) eqn:Hlow,
      (0 <? stockQuantity kp.2) eqn:Hpos,
      (stockQuantity kp.2 =? 0) eqn:Hzero; simpl; lia.
  - by rewrite length_fmap.
  - unfold aggregate_match.
    rewrite !length_filter_sum, sum_of_fmap. done.
  - rewrite foldl_sum, sum_of_fmap. simpl. lia.
  - rewrite !length_filter_sum, sum_of_fmap. done.
Qed.

(** The category breakdown of the stock report has one row per category
    that is not a name inherited from Object.prototype (constructor,
    toString, valueOf, ...) and has a product; the row carries the
    category, the number of its products, the sum of their stocks and the
    sum of their values at cost. The products of a category with an
    inherited name get no row. So the counts of the rows add up to
    totalProducts, and their values to totalStockValue, when no category
    is such a name. *)
Theorem category_breakdown_rows d :
  let found := map_to_list (products d) in
  let r := StockReport.getStockReport d in
  let rows := StockReport.categoryBreakdown r in
  NoDup rows.*1
  /\ (forall c,
        own_property rows c
        = if decide (c ∈ StockReport.Object_prototype) then None
          else match of_category c found with
               | [] => None
               | ps =>
                 Some (StockReport.mkCategoryRow c
                         (Z.of_nat (length ps))
                         (sum_of stockQuantity ps)
                         (sum_of value_at_cost ps))
               end)
  /\ sum_rows StockReport.row_count rows
     = Z.of_nat (length (List.filter has_own_row (snd <$> found)))
  /\ sum_rows StockReport.row_value rows
     = sum_of value_at_cost (List.filter has_own_row (snd <$> found))
  /\ ((forall id p,
         products d !! id = Some p ->
         category p ∉ StockReport.Object_prototype) ->
      sum_rows StockReport.row_count rows = StockReport.totalProducts r
      /\ sum_rows StockReport.row_value rows = StockReport.totalStockValue r).
Proof.
  intros found r rows. subst r rows.
  unfold StockReport.getStockReport, StockReport.report_of. simpl.
  fold found.
  assert (Hcount :
    sum_rows StockReport.row_count
      (foldl (fun acc kp => StockReport.breakdown_step acc kp.2) [] found)
    = Z.of_nat (length (List.filter has_own_row (snd <$> found)))).
  { rewrite (sum_rows_breakdown _ (fun _ => 1)) by (intros; simpl; lia).
    rewrite length_filter_sum, sum_of_fmap. reflexivity. }
  assert (Hvalue :
    sum_rows StockReport.row_value
      (foldl (fun acc kp => StockReport.breakdown_step acc kp.2) [] found)
    = sum_of value_at_cost (List.filter has_own_row (snd <$> found))).
  { rewrite (sum_rows_breakdown _ value_at_cost)
      by (intros; unfold value_at_cost; simpl; lia).
    rewrite sum_of_filter, sum_of_fmap. reflexivity. }
  split; [apply breakdown_keys; constructor|].
  split; [|split; [exact Hcount|split; [exact Hvalue|]]].
  - intros c. rewrite own_property_breakdown.
    destruct (decide (c ∈ StockReport.Object_prototype)); [done|].
    change (own_property [] c) with (@None StockReport.CategoryRow).
    destruct (of_category c found) as [|p ps] eqn:Hps; [done|].
    rewrite absorb_None. do 2 f_equal.
    assert (p ∈ of_category c found) as Hp by (rewrite Hps; left).
    unfold of_category in Hp.
    apply list_elem_of_In, filter_In in Hp as [_ Hp].
    by apply bool_decide_eq_true in Hp.
  - intros Hnames.
    assert (forall p, p ∈ snd <$> found -> has_own_row p = true) as Hown.
    { intros p ((k & p') & -> & Hkp)%list_elem_of_fmap.
      apply elem_of_map_to_list in Hkp. simpl.
      apply bool_decide_eq_true. by apply (Hnames k). }
    rewrite Hcount, Hvalue, (filter_all _ _ Hown). split.
    + by rewrite length_fmap.
    + rewrite foldl_sum, sum_of_fmap. unfold value_at_cost. lia.
Qed.

(** In the scenario of the stock report two products have a stock of at
    most 5, one of them is out of stock and the other is the one listed
    as low. *)
Lemma stock_report_of_scenario :
  let r := StockReport.getStockReport stockDb in
  StockReport.lowStockCount r = 2
  /\ length (StockReport.lowStockProducts r) = 1%nat
  /\ length (StockReport.outOfStockProducts r) = 1%nat.
Proof.
  assert (forall id p, products stockDb !! id = Some p -> 0 <= stockQuantity p)
    as Hstock.
  { intros id p Hp. simpl in Hp.
    repeat (apply lookup_insert_Some in Hp as [[_ <-] | [_ Hp]]; [simpl; lia|]).
    apply lookup_singleton_Some in Hp as [_ <-]. simpl. lia. }
  destruct (stock_report_counts env0 stockDb Hstock) as (Hcount & _).
  cbv zeta in *. rewrite Hcount. vm_compute. repeat split; reflexivity.
Defined.

(** The product of category toString has no row in the breakdown: the
    rows count 2 of the 3 products. *)
Lemma category_toString_has_no_row :
  let r := StockReport.getStockReport stockDb in
  own_property (StockReport.categoryBreakdown r) "toString" = None
  /\ sum_rows StockReport.row_count (StockReport.categoryBreakdown r) = 2
  /\ StockReport.totalProducts r = 3.
Proof.
  destruct (category_breakdown_rows stockDb) as (_ & Hrows & Hcount & _).
  cbv zeta in *. rewrite (Hrows "toString"), Hcount.
  vm_compute. repeat split; reflexivity.
Defined.

(** The list of low-stock products of the stock report is in ascending
    order of stock, each of its rows is a product with a stock from 1 to
    5, with its stock and its value at cost, and every such product has
    its row. *)
Theorem low_stock_products_listed d :
  let r := StockReport.getStockReport d in
  Sorted ascending (StockReport.lowStockProducts r)
  /\ (forall row,
        row ∈ StockReport.lowStockProducts r ->
        exists p,
          products d !! StockReport.low_id row = Some p
          /\ 0 < stockQuantity p <= 5
          /\ StockReport.low_stockQuantity row = stockQuantity p
          /\ StockReport.low_value row = stockQuantity p * costPriceTZS p
          /\ StockReport.low_name row = name p
          /\ StockReport.low_sku row = sku p)
  /\ (forall id p,
        products d !! id = Some p ->
        0 < stockQuantity p <= 5 ->
        exists row,
          row ∈ StockReport.lowStockProducts r
          /\ StockReport.low_id row = id).
Proof.
  intros r. subst r.
  unfold StockReport.getStockReport, StockReport.report_of. simpl.
  split; [apply sort_rows_sorted|]. split.
  - intros row Hrow. rewrite sort_rows_perm in Hrow.
    apply list_elem_of_fmap in Hrow as ([k p] & -> & Hkp).
    apply list_elem_of_In, filter_In in Hkp as [Hkp Hlow].
    apply list_elem_of_In, elem_of_map_to_list in Hkp.
    exists p. simpl. repeat split; try done.
    all: unfold StockReport.is_low in Hlow; simpl in Hlow; lia.
  - intros id p Hp Hlow. eexists. split.
    + rewrite sort_rows_perm. apply list_elem_of_fmap. exists (id, p).
      split; [reflexivity|].
      apply list_elem_of_In, filter_In. split.
      * by apply list_elem_of_In, elem_of_map_to_list.
      * unfold StockReport.is_low. simpl. lia.
    + reflexivity.
Qed.

(** ** The dashboard's chart and top product *)

Lemma bucket_add_revenue day revenue buckets k :
  bucket_revenue (bucket_add day revenue buckets) k
  = bucket_revenue buckets k + (if day =? k then revenue else 0).
Proof.
  unfold bucket_revenue, sum_of.
  induction buckets as [|[d r] rest IH]; simpl; [lia|].
  destruct (day <? d) eqn:Hlt; simpl; [lia|].
  destruct (day =? d) eqn:Heq; simpl.
  - apply Z.eqb_eq in Heq as ->. destruct (d =? k); lia.
  - rewrite IH. lia.
Qed.

Lemma bucket_add_sum day revenue buckets :
  sum_of snd (bucket_add day revenue buckets) = sum_of snd buckets + revenue.
Proof.
  unfold sum_of. induction buckets as [|[d r] rest IH]; simpl; [lia|].
  destruct (day <? d); simpl; [lia|].
  destruct (day =? d); simpl; lia.
Qed.

Lemma bucket_add_days day revenue buckets b :
  b ∈ bucket_add day revenue buckets -> fst b = day \/ fst b ∈ buckets.*1.
Proof.
  induction buckets as [|[d r] rest IH]; simpl.
  - intros ->%list_elem_of_singleton. by left.
  - destruct (day <? d).
    + intros [->|Hb]%elem_of_cons; [by left|].
      right. by apply (list_elem_of_fmap_2 fst) in Hb.
    + destruct (day =? d) eqn:Heq.
      * intros [->|Hb]%elem_of_cons; [right; left|].
        right. right. by apply (list_elem_of_fmap_2 fst) in Hb.
      * intros [->|Hb]%elem_of_cons; [right; left|].
        destruct (IH Hb) as [?|?]; [by left|]. right. by right.
Qed.

Lemma bucket_add_sorted day revenue buckets :
  StronglySorted earlier buckets ->
  StronglySorted earlier (bucket_add day revenue buckets).
Proof.
  induction 1 as [|[d r] rest Hrest IH Hall]; simpl.
  - repeat constructor.
  - destruct (day <? d) eqn:Hlt.
    + apply Z.ltb_lt in Hlt. constructor; [by constructor|].
      constructor; [done|].
      eapply Forall_impl; [exact Hall|]. unfold earlier. simpl. lia.
    + apply Z.ltb_ge in Hlt. destruct (day =? d) eqn:Heq.
      * by constructor.
      * apply Z.eqb_neq in Heq. constructor; [done|].
        apply Forall_forall. intros b Hb.
        destruct (bucket_add_days _ _ _ _ Hb) as [Hday | Hold].
        -- unfold earlier. simpl. lia.
        -- apply list_elem_of_fmap in Hold as (b' & Hfst & Hb').
           rewrite Forall_forall in Hall. specialize (Hall b' Hb').
           unfold earlier in *. simpl in *. lia.
Qed.

Lemma sorted_bucket_revenue chart day revenue :
  StronglySorted earlier chart ->
  (day, revenue) ∈ chart -> bucket_revenue chart day = revenue.
Proof.
  unfold bucket_revenue, sum_of.
  induction 1 as [|[d r] rest Hrest IH Hall]; [by intros ?%not_elem_of_nil|].
  rewrite Forall_forall in Hall. simpl.
  intros [[= -> ->]|Hin]%elem_of_cons.
  - rewrite Z.eqb_refl.
    assert (foldr (fun a acc => (if fst a =? d then snd a else 0) + acc) 0 rest
            = 0) as ->; [|lia].
    clear IH Hrest. induction rest as [|b rest IH]; [done|]. simpl.
    rewrite IH by (intros x Hx; apply Hall; by right).
    specialize (Hall b ltac:(left)). unfold earlier in Hall. simpl in Hall.
    destruct (fst b =? d) eqn:Heq; [apply Z.eqb_eq in Heq; lia|lia].
  - rewrite (IH Hin). specialize (Hall _ Hin). unfold earlier in Hall.
    simpl in Hall. destruct (d =? day) eqn:Heq; [apply Z.eqb_eq in Heq|]; lia.
Qed.

Lemma bucket_add_has day revenue buckets :
  exists r, (day, r) ∈ bucket_add day revenue buckets.
Proof.
  induction buckets as [|[d r] rest [r' IH]]; simpl.
  - exists revenue. left.
  - destruct (day <? d); [exists revenue; left|].
    destruct (day =? d) eqn:Heq.
    + apply Z.eqb_eq in Heq as ->. eexists. left.
    + exists r'. by right.
Qed.

Lemma bucket_add_keeps day revenue buckets d r :
  (d, r) ∈ buckets -> exists r', (d, r') ∈ bucket_add day revenue buckets.
Proof.
  induction buckets as [|[d0 r0] rest IH]; [by intros ?%not_elem_of_nil|].
  simpl. intros Hin. destruct (day <? d0).
  - exists r. by right.
  - destruct (day =? d0) eqn:Heq.
    + apply elem_of_cons in Hin as [[= -> ->]|Hin].
      * eexists. left.
      * exists r. by right.
    + apply elem_of_cons in Hin as [[= -> ->]|Hin].
      * exists r0. left.
      * destruct (IH Hin) as [r' Hr']. exists r'. by right.
Qed.

Lemma daily_revenue_has (l : list Sale) s :
  s ∈ l -> exists revenue, (day_of (sale_date s), revenue) ∈ daily_revenue l.
Proof.
  induction l as [|s0 l IH]; [by intros ?%not_elem_of_nil|]. simpl.
  intros [->|Hin]%elem_of_cons.
  - apply bucket_add_has.
  - destruct (IH Hin) as [r Hr]. by apply (bucket_add_keeps _ _ _ _ r).
Qed.

Lemma daily_revenue_facts (l : list Sale) :
  StronglySorted earlier (daily_revenue l)
  /\ sum_of snd (daily_revenue l) = sum_of totalPriceTZS l
  /\ (forall day,
        bucket_revenue (daily_revenue l) day
        = sum_of totalPriceTZS
            (List.filter (fun s => day_of (sale_date s) =? day) l))
  /\ (forall b, b ∈ daily_revenue l ->
                exists s, s ∈ l /\ day_of (sale_date s) = fst b).
Proof.
  induction l as [|s l (Hsorted & Hsum & Hday & Hsome)]; simpl.
  - split; [constructor|]. split; [done|]. split; [done|].
    by intros b ?%not_elem_of_nil.
  - split; [by apply bucket_add_sorted|].
    split; [rewrite bucket_add_sum; unfold sum_of in *; simpl; lia|].
    split.
    + intros day. rewrite bucket_add_revenue, Hday.
      destruct (day_of (sale_date s) =? day); unfold sum_of; simpl; lia.
    + intros b Hb. destruct (bucket_add_days _ _ _ _ Hb) as [Hnew | Hold].
      * exists s. split; [left|done].
      * apply list_elem_of_fmap in Hold as (b' & -> & Hb').
        destruct (Hsome b' Hb') as (s' & Hs' & Hday').
        exists s'. split; [by right|done].
Qed.

(** The revenue chart of the dashboard has one point per day on which a
    sale of the last 30 days was made, in ascending order of the days;
    the revenue of a point is the sum of the totals of the sales of that
    day, paid or pending, and the points add up to the total of all
    those sales. *)
Theorem monthly_chart_sums_every_sale env d :
  let chart := monthlyRevenueChart (getDashboardSummary env d) in
  let counted := monthlySales env d in
  StronglySorted earlier chart
  /\ sum_of snd chart = sum_of totalPriceTZS counted
  /\ (forall day revenue,
        (day, revenue) ∈ chart ->
        revenue
        = sum_of totalPriceTZS
            (List.filter (fun s => day_of (sale_date s) =? day) counted)
        /\ exists s, s ∈ counted /\ day_of (sale_date s) = day)
  /\ (forall s,
        s ∈ counted ->
        exists revenue, (day_of (sale_date s), revenue) ∈ chart).
Proof.
  intros chart counted.
  destruct (daily_revenue_facts counted) as (Hsorted & Hsum & Hday & Hsome).
  change chart with (daily_revenue counted).
  split; [exact Hsorted|]. split; [exact Hsum|]. split.
  - intros day revenue Hin. split.
    + rewrite <- Hday. symmetry. by apply sorted_bucket_revenue.
    + destruct (Hsome _ Hin) as (s & Hs & Hd). by exists s.
  - intros s Hs. by apply daily_revenue_has.
Qed.

Lemma group_add_quantity s groups pid :
  grouped_quantity (group_add s groups) pid
  = grouped_quantity groups pid
    + (if decide (sale_productId s = pid) then quantitySold s else 0).
Proof.
  unfold grouped_quantity, sum_of.
  induction groups as [|g gs IH]; simpl.
  - lia.
  - destruct (decide (group_id g = sale_productId s)) as [Heq|Hne]; simpl.
    + rewrite Heq. destruct (decide (sale_productId s = pid)); lia.
    + rewrite IH. lia.
Qed.

Lemma group_add_ids s groups :
  group_id <$> group_add s groups
  = if decide (sale_productId s ∈ group_id <$> groups)
    then group_id <$> groups
    else ((group_id <$> groups) ++ [sale_productId s])%list.
Proof.
  induction groups as [|g gs IH].
  - destruct (decide (sale_productId s ∈ group_id <$> [])) as [Hin|_];
      [by apply not_elem_of_nil in Hin|done].
  - cbn [group_add].
    destruct (decide (group_id g = sale_productId s)) as [Heq|Hne];
      destruct (decide (sale_productId s ∈ group_id <$> g :: gs)) as [Hin|Hout].
    + done.
    + destruct Hout. rewrite <- Heq. left.
    + rewrite fmap_cons, IH. rewrite fmap_cons in Hin.
      apply elem_of_cons in Hin as [?|Hin]; [congruence|].
      by rewrite decide_True.
    + rewrite fmap_cons, IH. rewrite fmap_cons in Hout.
      rewrite decide_False; [done|]. intros Hin. apply Hout. by right.
Qed.

Lemma group_by_product_facts (l : list Sale) groups :
  NoDup (group_id <$> groups) ->
  let result := foldl (fun groups s => group_add s groups) groups l in
  NoDup (group_id <$> result)
  /\ (forall pid,
        grouped_quantity result pid
        = grouped_quantity groups pid + quantity_of pid l)
  /\ (forall pid,
        pid ∈ group_id <$> result
        <-> pid ∈ group_id <$> groups \/ pid ∈ sale_productId <$> l).
Proof.
  revert groups. induction l as [|s l IH]; intros groups Hgroups; simpl.
  - split; [done|]. split.
    + intros pid. unfold quantity_of, sum_of. simpl. lia.
    + intros pid. split; [by left|]. intros [?|?%not_elem_of_nil]; done.
  - assert (NoDup (group_id <$> group_add s groups)) as Hnext.
    { rewrite group_add_ids.
      destruct (decide (sale_productId s ∈ group_id <$> groups)); [done|].
      apply NoDup_app. split; [done|]. split; [|apply NoDup_singleton].
      intros c Hc ->%list_elem_of_singleton. done. }
    destruct (IH _ Hnext) as (Hnodup & Hquantity & Hids).
    split; [exact Hnodup|]. split.
    + intros pid. rewrite Hquantity, group_add_quantity.
      unfold quantity_of, sum_of. simpl. lia.
    + intros pid. rewrite Hids, group_add_ids.
      destruct (decide (sale_productId s ∈ group_id <$> groups)) as [Hin|Hout].
      * rewrite elem_of_cons. split; [tauto|].
        intros [?|[->|?]]; tauto.
      * rewrite elem_of_app, list_elem_of_singleton, elem_of_cons. tauto.
Qed.

Lemma grouped_quantity_of_group groups g :
  NoDup (group_id <$> groups) -> g ∈ groups ->
  grouped_quantity groups (group_id g) = group_quantity g.
Proof.
  unfold grouped_quantity, sum_of.
  induction groups as [|g0 gs IH]; [by intros _ ?%not_elem_of_nil|].
  rewrite fmap_cons. intros [Hnew Hrest]%NoDup_cons [->|Hin]%elem_of_cons.
  - simpl. rewrite decide_True by done.
    assert (foldr (fun a acc =>
                     (if decide (group_id a = group_id g0)
                      then group_quantity a else 0) + acc) 0 gs = 0) as ->;
      [|lia].
    clear IH Hrest. induction gs as [|g1 gs IH]; [done|]. simpl.
    rewrite fmap_cons in Hnew. apply not_elem_of_cons in Hnew as [Hne Hnew].
    rewrite IH by done. rewrite decide_False by done. lia.
  - simpl. rewrite (IH Hrest Hin).
    rewrite decide_False; [lia|]. intros Heq. apply Hnew.
    rewrite Heq. by apply list_elem_of_fmap_2.
Qed.

Lemma top_by_quantity_facts groups :
  match top_by_quantity groups with
  | None => groups = []
  | Some g =>
    g ∈ groups
    /\ forall g', g' ∈ groups -> group_quantity g' <= group_quantity g
  end.
Proof.
  unfold top_by_quantity.
  assert (forall best,
            match foldl (fun best g =>
                           match best with
                           | None => Some g
                           | Some b =>
                             if group_quantity b <? group_quantity g
                             then Some g else Some b
                           end) best groups with
            | None => best = None /\ groups = []
            | Some g =>
              (Some g = best \/ g ∈ groups)
              /\ (forall b, best = Some b -> group_quantity b <= group_quantity g)
              /\ forall g', g' ∈ groups -> group_quantity g' <= group_quantity g
            end) as Hgen.
  { induction groups as [|g0 gs IH]; intros best; simpl.
    - destruct best as [b|]; [|done].
      split; [by left|]. split; [by intros ? [= ->]|].
      by intros ? ?%not_elem_of_nil.
    - destruct best as [b|].
      + destruct (group_quantity b <? group_quantity g0) eqn:Hlt.
        * apply Z.ltb_lt in Hlt. specialize (IH (Some g0)).
          destruct (foldl _ (Some g0) gs) as [g|]; [|by destruct IH].
          destruct IH as (Hin & Hbest & Hall).
          specialize (Hbest g0 eq_refl).
          split; [right; destruct Hin as [[= ->]|?]; [left|by right]|].
          split; [intros ? [= <-]; lia|].
          intros g' [->|?]%elem_of_cons; [done|by apply Hall].
        * apply Z.ltb_ge in Hlt. specialize (IH (Some b)).
          destruct (foldl _ (Some b) gs) as [g|]; [|by destruct IH].
          destruct IH as (Hin & Hbest & Hall).
          specialize (Hbest b eq_refl).
          split; [destruct Hin as [?|?]; [by left|right; by right]|].
          split; [intros ? [= <-]; lia|].
          intros g' [->|?]%elem_of_cons; [lia|by apply Hall].
      + specialize (IH (Some g0)).
        destruct (foldl _ (Some g0) gs) as [g|]; [|by destruct IH].
        destruct IH as (Hin & Hbest & Hall).
        specialize (Hbest g0 eq_refl).
        split; [right; destruct Hin as [[= ->]|?]; [left|by right]|].
        split; [done|].
        intros g' [->|?]%elem_of_cons; [done|by apply Hall]. }
  specialize (Hgen None).
  destruct (foldl _ None groups) as [g|]; [|by destruct Hgen].
  destruct Hgen as ([?|Hin] & _ & Hall); [done|]. by split.
Qed.

(** The top product of the dashboard is absent exactly when no sale was
    made today; otherwise it is a product sold today, its quantity is the
    sum of the quantities of today's sales of that product, and no other
    product sold today has a larger sum. *)
Theorem top_product_of_today env d :
  let todays := todaySales env d in
  match topProductToday (getDashboardSummary env d) with
  | None => todays = []
  | Some g =>
    group_id g ∈ sale_productId <$> todays
    /\ group_quantity g = quantity_of (group_id g) todays
    /\ forall s,
         s ∈ todays ->
         quantity_of (sale_productId s) todays <= group_quantity g
  end.
Proof.
  intros todays.
  change (topProductToday (getDashboardSummary env d))
    with (top_by_quantity (group_by_product todays)).
  unfold group_by_product.
  destruct (group_by_product_facts todays [] (NoDup_nil_2))
    as (Hnodup & Hquantity & Hids).
  pose proof (top_by_quantity_facts
                (foldl (fun groups s => group_add s groups) [] todays)) as Htop.
  destruct (top_by_quantity _) as [g|].
  - destruct Htop as [Hin Hmax].
    assert (forall pid, grouped_quantity
                          (foldl (fun groups s => group_add s groups) [] todays)
                          pid = quantity_of pid todays) as Hq.
    { intros pid. rewrite Hquantity. unfold grouped_quantity, sum_of. simpl. lia. }
    split; [|split].
    + apply (list_elem_of_fmap_2 group_id) in Hin.
      apply Hids in Hin as [?%not_elem_of_nil|?]; done.
    + rewrite <- Hq. symmetry. by apply grouped_quantity_of_group.
    + intros s Hs.
      assert (sale_productId s ∈
                group_id <$> foldl (fun groups s => group_add s groups) [] todays)
        as Hgroup.
      { apply Hids. right. by apply list_elem_of_fmap_2. }
      apply list_elem_of_fmap in Hgroup as (g' & Hid & Hg').
      rewrite Hid, <- Hq, (grouped_quantity_of_group _ g' Hnodup Hg').
      by apply Hmax.
  - destruct todays as [|s l]; [done|].
    assert (sale_productId s ∈
              group_id <$> foldl (fun groups s => group_add s groups) [] (s :: l))
      as Hgroup.
    { apply Hids. right. left. }
    rewrite Htop in Hgroup. by apply not_elem_of_nil in Hgroup.
Qed.

(** ** Notifications *)

Section NotificationFacts.
Import Notifications.

Lemma countDocuments_total (store : gmap positive Notification)
    (P : Notification -> bool) :
  countDocuments store P = total (fun n => if P n then 1 else 0) store.
Proof.
  unfold countDocuments, aggregate_match, total. apply length_filter_sum.
Qed.

Lemma total_fmap {A} (f : A -> Z) (g : A -> A) (m : gmap positive A) :
  total f (g <$> m) = total (fun a => f (g a)) m.
Proof.
  unfold total.
  rewrite (sum_of_perm f _ (snd <$> (prod_map id g <$> map_to_list m))).
  - rewrite <- list_fmap_compose, !sum_of_fmap. reflexivity.
  - by rewrite map_to_list_fmap.
Qed.

Lemma serve_lookup userId r store id :
  serve userId r store !! id = store !! id
  \/ exists m,
       store !! id = Some m /\ notification_userId m = userId
       /\ (serve userId r store !! id = Some (set_isRead m)
           \/ serve userId r store !! id = None).
Proof.
  destruct r as [id'| |id']; simpl.
  - unfold markAsRead. destruct (store !! id') as [n'|] eqn:Hn'; [|by left].
    case_bool_decide as Hown; [|by left]. simpl.
    destruct (decide (id = id')) as [->|Hne].
    + right. exists n'. rewrite lookup_insert_eq. auto.
    + left. by rewrite lookup_insert_ne.
  - rewrite lookup_fmap. destruct (store !! id) as [m|] eqn:Hm; [|by left].
    simpl. unfold unread_of. case_bool_decide as Hown; simpl; [|by left].
    destruct (isRead m); simpl; [by left|]. right. exists m. auto.
  - unfold deleteNotification.
    destruct (store !! id') as [n'|] eqn:Hn'; [|by left].
    case_bool_decide as Hown; [|by left]. simpl.
    destruct (decide (id = id')) as [->|Hne].
    + right. exists n'. rewrite lookup_delete_eq. auto.
    + left. by rewrite lookup_delete_ne.
Qed.

Lemma serve_keeps_unread_of_others userId r store other :
  other <> userId ->
  getUnreadCount other (serve userId r store) = getUnreadCount other store.
Proof.
  intros Hother. unfold getUnreadCount. rewrite !countDocuments_total.
  assert (forall m, notification_userId m = userId ->
                    unread_of other m = false) as Hmine.
  { intros m Hm. unfold unread_of. rewrite bool_decide_eq_false_2; [done|].
    congruence. }
  destruct r as [id'| |id']; simpl.
  - unfold markAsRead. destruct (store !! id') as [n'|] eqn:Hn'; [|done].
    case_bool_decide as Hown; [|done]. simpl.
    rewrite (total_insert_existing _ _ _ _ _ Hn').
    rewrite !Hmine by done. lia.
  - rewrite total_fmap. unfold total. apply sum_of_ext_in. intros m _.
    destruct (unread_of userId m) eqn:Hunread; [|done].
    apply andb_true_iff in Hunread as [Hown%bool_decide_eq_true _].
    by rewrite !Hmine.
  - unfold deleteNotification.
    destruct (store !! id') as [n'|] eqn:Hn'; [|done].
    case_bool_decide as Hown; [|done]. simpl.
    rewrite (total_delete _ store id' n' Hn'). rewrite Hmine by done. lia.
Qed.

End NotificationFacts.

Section NotificationTheorems.
Import Notifications.

(** No request of a user on their notifications (marking one as read,
    marking all as read, deleting one) changes, creates or deletes a
    notification of another user, whatever ids it names: along any list
    of such requests the notifications of the other users and their
    unread counts stay as they were; and a request that names a
    notification of another user is answered with 404, as for a missing
    one. *)
Theorem notifications_of_others_untouched userId requests store :
  let store' := foldl (fun s r => serve userId r s) store requests in
  (forall id n,
     store !! id = Some n -> notification_userId n <> userId ->
     store' !! id = Some n)
  /\ (forall id n,
        store' !! id = Some n -> notification_userId n <> userId ->
        store !! id = Some n)
  /\ (forall other, other <> userId ->
        getUnreadCount other store' = getUnreadCount other store)
  /\ (forall id n,
        store !! id = Some n -> notification_userId n <> userId ->
        markAsRead userId id store
        = (Refused 404 (NotFound "Notification"), store)
        /\ deleteNotification userId id store
           = (Refused 404 (NotFound "Notification"), store)).
Proof.
  intros store'. subst store'.
  assert (forall other, other <> userId ->
            getUnreadCount other (foldl (fun s r => serve userId r s) store requests)
            = getUnreadCount other store) as Hcount.
  { intros other Hother. revert store.
    induction requests as [|r requests IH]; intros store; [done|]. simpl.
    rewrite IH. by apply serve_keeps_unread_of_others. }
  assert (forall id,
            foldl (fun s r => serve userId r s) store requests !! id
            = store !! id
            \/ exists m, store !! id = Some m /\ notification_userId m = userId
                 /\ forall n,
                      foldl (fun s r => serve userId r s) store requests !! id
                      = Some n -> notification_userId n = userId) as Hlookup.
  { intros id. clear Hcount. revert store.
    induction requests as [|r requests IH]; intros store; [by left|]. simpl.
    destruct (IH (serve userId r store)) as [Hsame | (m & Hm & Hown & Hall)].
    - rewrite Hsame.
      destruct (serve_lookup userId r store id)
        as [Hstep | (m & Hm & Hown & [Hstep | Hstep])].
      + by left.
      + right. exists m. split; [done|]. split; [done|].
        intros n. rewrite Hstep. by intros [= <-].
      + right. exists m. split; [done|]. split; [done|].
        intros n. by rewrite Hstep.
    - right.
      destruct (serve_lookup userId r store id)
        as [Hstep | (m' & Hm' & Hown' & _)].
      + exists m. by rewrite <- Hstep.
      + by exists m'. }
  split; [|split; [|split; [exact Hcount|]]].
  - intros id n Hn Hother.
    destruct (Hlookup id) as [-> | (m & Hm & Hown & _)]; [done|congruence].
  - intros id n Hn Hother.
    destruct (Hlookup id) as [<- | (m & Hm & Hown & Hall)]; [done|].
    by destruct Hother; apply Hall.
  - intros id n Hn Hother. unfold markAsRead, deleteNotification.
    rewrite Hn. by rewrite bool_decide_eq_false_2.
Qed.

(** User 1 has an unread notification, user 2 another; user 2 asks to
    mark the one of user 1 as read, then marks all as read and asks to
    delete it: the notification of user 1 is still there, unread. *)
Lemma notification_of_user_1_survives :
  let n1 := mkNotification 1 "sale" "New sale" "3 units" false 0 in
  let n2 := mkNotification 2 "sale" "New sale" "3 units" false 0 in
  let store : gmap positive Notification :=
    {[ 1%positive := n1; 2%positive := n2 ]} in
  let requests := [MarkAsRead 1; MarkAllAsRead; DeleteNotification 1] in
  foldl (fun s r => serve 2 r s) store requests !! 1%positive = Some n1.
Proof.
  intros n1 n2 store requests.
  apply (proj1 (notifications_of_others_untouched 2 requests store)).
  - reflexivity.
  - simpl. lia.
Defined.

(** After markAllAsRead the unread count of the user is 0 and each of
    their notifications is the one it was, marked as read. markAsRead on
    a notification of the user answers with it marked as read and lowers
    the unread count by 1 when it was unread, and by nothing when it was
    read already. *)
Theorem marking_as_read_counts userId store :
  getUnreadCount userId (snd (markAllAsRead userId store)) = 0
  /\ (forall id n,
        store !! id = Some n -> notification_userId n = userId ->
        snd (markAllAsRead userId store) !! id = Some (set_isRead n))
  /\ (forall id n,
        store !! id = Some n -> notification_userId n = userId ->
        fst (markAsRead userId id store) = Done 200 (set_isRead n)
        /\ getUnreadCount userId (snd (markAsRead userId id store))
           = getUnreadCount userId store - (if isRead n then 0 else 1)).
Proof.
  split; [|split].
  - unfold getUnreadCount. rewrite countDocuments_total. simpl.
    rewrite total_fmap. unfold total.
    rewrite (sum_of_ext_in _ (fun _ => 0)).
    + unfold sum_of. induction (snd <$> map_to_list store); simpl; lia.
    + intros n _. unfold unread_of.
      destruct (bool_decide (notification_userId n = userId)) eqn:Hown;
        destruct (isRead n) eqn:Hread; simpl; rewrite ?Hown, ?Hread; done.
  - intros id n Hn Hown. simpl. rewrite lookup_fmap, Hn. simpl.
    unfold unread_of. rewrite bool_decide_eq_true_2 by done.
    destruct n as [u t ti m [] c]; reflexivity.
  - intros id n Hn Hown. unfold markAsRead. rewrite Hn.
    rewrite bool_decide_eq_true_2 by done. simpl. split; [done|].
    unfold getUnreadCount. rewrite !countDocuments_total.
    rewrite (total_insert_existing _ _ _ _ _ Hn). unfold unread_of. simpl.
    rewrite bool_decide_eq_true_2 by done. destruct (isRead n); simpl; lia.
Qed.

(** User 1 has two unread notifications and marks the first as read: one
    is left unread. *)
Lemma one_of_two_marked_as_read :
  let n1 := mkNotification 1 "sale" "New sale" "3 units" false 0 in
  let n2 := mkNotification 1 "purchase" "New purchase" "5 units" false 1 in
  let store : gmap positive Notification :=
    {[ 1%positive := n1; 2%positive := n2 ]} in
  getUnreadCount 1 (snd (markAsRead 1 1 store)) = 1.
Proof.
  intros n1 n2 store.
  destruct (proj2 (proj2 (marking_as_read_counts 1 store)) 1%positive n1
              eq_refl eq_refl) as [_ ->].
  vm_compute. reflexivity.
Defined.

End NotificationTheorems.

(** ** Roles *)

Lemma sale_operations_keep_purchases env op w :
  match op with
  | CreateSale _ | UpdateSale _ _ | DeleteSale _ =>
    purchases (committed (after (handler env op) w)) = purchases (committed w)
    /\ forall k,
         costPriceTZS <$> products (committed (after (handler env op) w)) !! k
         = costPriceTZS <$> products (committed w) !! k
  | _ => sales (committed (after (handler env op) w)) = sales (committed w)
  end.
Proof.
  destruct op; exec; try done.
  all: split; [done|]; intros k.
  all: match goal with
       | |- context [<[?t := _]> _ !! ?i] =>
         destruct (decide (i = t)) as [->|?];
         [ rewrite lookup_insert_eq;
           match goal with H : _ !! t = Some _ |- _ => by rewrite H end
         | by rewrite lookup_insert_ne ]
       end.
Qed.

Lemma sale_operation_keeps_catalogue env op w :
  match op with
  | CreateSale _ | UpdateSale _ _ | DeleteSale _ =>
    catalogue (committed (after (handler env op) w)) = catalogue (committed w)
  | _ => True
  end.
Proof.
  pose proof (sale_operations_keep_purchases env op w) as Hcost.
  destruct (handler_rows env op w) as (Hkept & _). cbv zeta in Hkept.
  assert (purchases (committed (after (handler env op) w))
          = purchases (committed w)
          /\ (forall k,
                costPriceTZS <$> products (committed (after (handler env op) w)) !! k
                = costPriceTZS <$> products (committed w) !! k) ->
          catalogue (committed (after (handler env op) w))
          = catalogue (committed w)) as Hgoal.
  { intros [_ Hc]. apply map_eq. intros k. unfold catalogue.
    rewrite !lookup_fmap. specialize (Hc k).
    destruct (Hkept k) as [-> | (p & p' & Hp & Hp' & Hcat & _)]; [done|].
    rewrite Hp, Hp' in *. simpl in *. injection Hc as Hc.
    destruct Hcat as (Hn & Hs & Hcg & Hu).
    destruct p, p'. simpl in *. unfold set_stockQuantity. simpl. congruence. }
  destruct op; auto.
Qed.

Lemma route_separates role env r w :
  (role <> "admin" -> role <> "sales" ->
   sales (committed (route role env r w)) = sales (committed w))
  /\ (role <> "admin" -> role <> "stock" ->
      purchases (committed (route role env r w)) = purchases (committed w)
      /\ catalogue (committed (route role env r w)) = catalogue (committed w))
  /\ (role <> "admin" -> role <> "sales" -> role <> "stock" ->
      route role env r w = w).
Proof.
  unfold route, checkRole.
  assert (forall other, role <> "admin" -> role <> other ->
                        bool_decide (role ∈ ["admin"; other]) = false) as Hno.
  { intros other Ha Ho. apply bool_decide_eq_false.
    intros [?|[?|?%not_elem_of_nil]%elem_of_cons]%elem_of_cons; done. }
  split; [|split].
  - intros Hadmin Hsales.
    destruct r as [[]| | | |]; simpl required_roles;
      rewrite ?(Hno "sales") by done; try done;
      (case_bool_decide; [|done]); simpl.
    + apply (sale_operations_keep_purchases env (CreatePurchase body) w).
    + apply (sale_operations_keep_purchases env (UpdatePurchase id body) w).
    + apply (sale_operations_keep_purchases env (DeletePurchase id) w).
    + destruct (is_success (response (createProduct env body) w)) eqn:Hok;
        [|by rewrite createProduct_refused].
      destruct (createProduct_run env body w Hok)
        as (n & s & c & cost & price & _ & _ & _ & _ & _ & _ & Hrun).
      cbv zeta in Hrun. by destruct Hrun as (_ & _ & ->).
    + destruct (is_done (fst (updateProduct env id body w))) eqn:Hok;
        [|by rewrite updateProduct_refused].
      by destruct (updateProduct_run env id body w Hok)
        as (product & _ & _ & _ & _ & ->).
    + by destruct (deleteProduct_run env id w) as [_ ->].
  - intros Hadmin Hstock.
    destruct r as [[]| | | |]; simpl required_roles;
      rewrite ?(Hno "stock") by done; try done;
      (case_bool_decide; [|done]); simpl.
    + split.
      * apply (sale_operations_keep_purchases env (CreateSale body) w).
      * apply (sale_operation_keeps_catalogue env (CreateSale body) w).
    + split.
      * apply (sale_operations_keep_purchases env (UpdateSale id body) w).
      * apply (sale_operation_keeps_catalogue env (UpdateSale id body) w).
    + split.
      * apply (sale_operations_keep_purchases env (DeleteSale id) w).
      * apply (sale_operation_keeps_catalogue env (DeleteSale id) w).
    + destruct (is_done (fst (updatePaymentStatus env id status w))) eqn:Hok;
        [|by rewrite updatePaymentStatus_refused].
      by destruct (updatePaymentStatus_run env id status w Hok)
        as (st & sale & _ & _ & _ & _ & _ & ->).
  - intros Hadmin Hsales Hstock.
    destruct r as [[]| | | |]; simpl required_roles;
      rewrite ?(Hno "sales"), ?(Hno "stock") by done; done.
Qed.

(** With the roles the routes are mounted with, no list of requests of a
    user who is not an admin reaches across the duties: a user without
    the role sales leaves every sale row as it was; a user without the
    role stock leaves every purchase row as it was and creates, deletes
    or rewrites no product but for its stock; and a user with none of the
    three roles changes nothing at all. *)
Theorem roles_separate_sales_from_stock role requests w :
  role <> "admin" ->
  let w' := route_all role requests w in
  (role <> "sales" -> sales (committed w') = sales (committed w))
  /\ (role <> "stock" ->
      purchases (committed w') = purchases (committed w)
      /\ catalogue (committed w') = catalogue (committed w))
  /\ (role <> "sales" -> role <> "stock" -> w' = w).
Proof.
  intros Hadmin w'. subst w'. revert w.
  induction requests as [|[env r] requests IH]; intros w; [done|]. simpl.
  destruct (IH (route role env r w)) as (Hsales & Hstock & Hnone).
  destruct (route_separates role env r w) as (Hs1 & Hp1 & Hn1).
  split; [|split].
  - intros Hrole. rewrite (Hsales Hrole). by apply Hs1.
  - intros Hrole. destruct (Hstock Hrole) as [-> ->]. by apply Hp1.
  - intros Hs Hp. rewrite (Hnone Hs Hp). by apply Hn1.
Qed.

(** A user with the role stock asks for the sale of scenario A and
    records the purchase of scenario B: the sale is refused by the route,
    no sale row appears, and the purchase is recorded. *)
Lemma stock_role_records_no_sale :
  let requests :=
    [(env0, Ledger (CreateSale saleA)); (env0, Ledger (CreatePurchase purchaseB))]
  in
  sales (committed (route_all "stock" requests world0)) = ∅
  /\ stock (route_all "stock" requests world0) P = Some 15.
Proof.
  intros requests. split.
  - by apply (proj1 (roles_separate_sales_from_stock "stock" requests world0
                       ltac:(discriminate))).
  - vm_compute. reflexivity.
Defined.

(** ** The pages of [getSales] *)

Lemma chunks_concat {A} (n k : nat) (l : list A) :
  (length l <= k * n)%nat ->
  concat ((fun i => take n (drop (i * n) l)) <$> seq 0 k) = l.
Proof.
  revert l. induction k as [|k IH]; intros l Hlen.
  - destruct l; [done|]. simpl in Hlen. lia.
  - cbn [seq fmap list_fmap concat]. rewrite <- fmap_S_seq, <- list_fmap_compose.
    rewrite (list_fmap_ext _ (fun i => take n (drop (i * n) (drop n l))) (seq 0 k));
      [|intros _ i _; simpl; by rewrite drop_drop].
    rewrite IH by (rewrite length_drop; lia).
    simpl. apply take_drop.
Qed.

Section SalesListFacts.
Import SalesList.

Lemma insert_sale_perm x l : insert_sale x l ≡ₚ x :: l.
Proof.
  induction l as [|y l IH]; [done|]. simpl.
  destruct (sale_date (snd y) <=? sale_date (snd x)); [done|].
  rewrite IH. apply Permutation_swap.
Qed.

Lemma sort_by_date_perm l : sort_by_date l ≡ₚ l.
Proof.
  induction l as [|x l IH]; [done|]. simpl.
  rewrite insert_sale_perm. by constructor.
Qed.

Lemma insert_sale_sorted x l :
  Sorted latest_first l -> Sorted latest_first (insert_sale x l).
Proof.
  induction 1 as [|y l Hl IH Hhd]; simpl; [by repeat constructor|].
  destruct (sale_date (snd y) <=? sale_date (snd x)) eqn:Hle.
  - apply Z.leb_le in Hle. by repeat constructor.
  - apply Z.leb_gt in Hle. constructor; [exact IH|].
    destruct Hhd as [|z l' Hyz]; simpl.
    + constructor. unfold latest_first. lia.
    + destruct (sale_date (snd z) <=? sale_date (snd x));
        constructor; unfold latest_first in *; lia.
Qed.

Lemma sort_by_date_sorted l : Sorted latest_first (sort_by_date l).
Proof.
  induction l as [|x l IH]; simpl; [constructor|by apply insert_sale_sorted].
Qed.

Lemma page_rows env q d p :
  1 <= limit q -> 1 <= p ->
  getSales env (at_page q p) d
  = Done 200
      (take (Z.to_nat (limit q))
            (drop (Z.to_nat (p - 1) * Z.to_nat (limit q))
                  (row_of <$> sort_by_date (matched env q d))),
       mkPagination p (limit q) (Z.of_nat (length (matched env q d)))
         (Some ((Z.of_nat (length (matched env q d)) + limit q - 1) / limit q))).
Proof.
  intros Hlimit Hp. unfold getSales, at_page, cursor_limit, ceil_div. simpl.
  assert (((p - 1) * limit q <? 0) = false) as -> by (apply Z.ltb_ge; nia).
  assert ((limit q =? 0) = false) as -> by (apply Z.eqb_neq; lia).
  rewrite fmap_take, fmap_drop.
  rewrite Z.abs_eq by lia. rewrite Z2Nat.inj_mul by lia.
  set (n := Z.of_nat _).
  assert (- (- n / limit q) = (n + limit q - 1) / limit q) as ->; [|done].
  apply Z.div_unique with (r := (limit q - 1) - (- n) mod limit q).
  - left. pose proof (Z.mod_pos_bound (- n) (limit q)). lia.
  - pose proof (Z.div_mod (- n) (limit q)). lia.
Qed.

End SalesListFacts.

(** For a limit of at least 1, the pages of getSales from 1 to the
    number of pages it announces, one after the other, are the sales
    that the filter lets through, each once, the latest first; every
    page has at most limit rows, announces the same total and number of
    pages, and the pages after the last are empty. *)
Theorem getSales_pages_partition env q d :
  1 <= SalesList.limit q ->
  let sorted := SalesList.sort_by_date (SalesList.matched env q d) in
  let total := Z.of_nat (length (SalesList.matched env q d)) in
  let k := (total + SalesList.limit q - 1) / SalesList.limit q in
  concat ((fun p => SalesList.rows (SalesList.getSales env (SalesList.at_page q p) d))
          <$> SalesList.page_numbers k)
  = SalesList.row_of <$> sorted
  /\ sorted ≡ₚ SalesList.matched env q d
  /\ Sorted latest_first sorted
  /\ (forall p,
        1 <= p ->
        exists data pagination,
          SalesList.getSales env (SalesList.at_page q p) d
          = Done 200 (data, pagination)
          /\ Z.of_nat (length data) <= SalesList.limit q
          /\ SalesList.pagination_total pagination = total
          /\ SalesList.pages pagination = Some k
          /\ (k < p -> data = []))
  /\ (forall p,
        p < 1 ->
        SalesList.getSales env (SalesList.at_page q p) d
        = Refused 500 (Failed "fetch sales")).
Proof.
  intros Hlimit sorted total k.
  assert (total <= k * SalesList.limit q) as Hk.
  { subst k. pose proof (Z.div_mod (total + SalesList.limit q - 1)
                                   (SalesList.limit q)).
    pose proof (Z.mod_pos_bound (total + SalesList.limit q - 1)
                                (SalesList.limit q)). lia. }
  assert (0 <= k) as Hk0 by (subst k; apply Z.div_pos; lia).
  assert (length sorted = length (SalesList.matched env q d)) as Hlen
    by apply Permutation_length, sort_by_date_perm.
  split; [|split; [apply sort_by_date_perm|split; [apply sort_by_date_sorted|split]]].
  - unfold SalesList.page_numbers. rewrite <- list_fmap_compose.
    rewrite (list_fmap_ext _
               (fun i => take (Z.to_nat (SalesList.limit q))
                           (drop (i * Z.to_nat (SalesList.limit q))
                                 (SalesList.row_of <$> sorted)))
               (seq 0 (Z.to_nat k))).
    + apply chunks_concat. rewrite length_fmap, Hlen. nia.
    + intros _ i _. simpl. rewrite page_rows by lia. simpl.
      by replace (Z.to_nat (Z.of_nat i + 1 - 1)) with i by lia.
  - intros p Hp. rewrite page_rows by done. eexists _, _.
    split; [reflexivity|]. simpl. split; [|split; [done|split; [done|]]].
    + rewrite length_take. lia.
    + intros Hlast. rewrite drop_ge; [by rewrite take_nil|].
      rewrite length_fmap. fold sorted. rewrite Hlen. nia.
  - intros p Hp. unfold SalesList.getSales. simpl.
    assert (((p - 1) * SalesList.limit q <? 0) = true) as ->; [|done].
    apply Z.ltb_lt. nia.
Qed.

(** The two sales of the report scenario, one per page: page 1 is the
    later sale, page 2 the earlier one, and together they are the list. *)
Lemma two_pages_of_one_sale :
  let q := SalesList.mkQuery None None None 1 1 in
  SalesList.row_id
  <$> concat ((fun p => SalesList.rows
                          (SalesList.getSales env0 (SalesList.at_page q p) reportDb))
              <$> [1; 2])
  = [2%positive; 1%positive].
Proof.
  intros q.
  pose proof (proj1 (getSales_pages_partition env0 q reportDb
                       ltac:(simpl; lia))) as Hpages.
  cbv zeta in Hpages.
  change (SalesList.page_numbers _) with [1; 2] in Hpages.
  rewrite Hpages. vm_compute. reflexivity.
Defined.


(** ** Recording and undoing a purchase *)

Lemma truthy_Some x : x <> Num 0 -> truthy (Some x) = Some x.
Proof.
  unfold truthy. destruct x as [n|n]; [|done].
  intros Hx. destruct (Z.eqb_spec n 0) as [->|]; done.
Qed.

Lemma createPurchase_accepts env w productId product quantity cost supplier :
  products (committed w) !! productId = Some product ->
  validate_product product = true ->
  1 <= quantity -> 0 <= to_number cost -> cost <> Num 0 ->
  trim supplier <> "" ->
  is_Some (admins env) -> commitFails env = false ->
  let body := mkPurchaseBody (Some productId) (Some (Num quantity)) (Some cost)
                             (Some supplier) in
  let id := fresh (dom (purchases (committed w))) in
  let purchase := mkPurchase productId quantity (to_number cost)
                             (quantity * to_number cost) (trim supplier)
                             (userId env) (now env) in
  response (createPurchase env body) w
  = Some (Ok 201 (PurchasePayload id purchase))
  /\ committed (after (createPurchase env body) w)
     = mkDb (<[productId :=
                 set_costPriceTZS
                   (set_stockQuantity product (stockQuantity product + quantity))
                   (to_number cost)]>
               (products (committed w)))
            (sales (committed w))
            (<[id := purchase]> (purchases (committed w))).
Proof.
  intros Hfound Hvalid Hq Hcost Hzero Hsupplier [adm Hadm] Hcommit
         body id purchase.
  assert (Hpurchase : validate_purchase purchase = true).
  { unfold validate_purchase, purchase, required_string; simpl.
    rewrite decide_False by done.
    rewrite !andb_true_iff, !Z.leb_le. repeat split; nia. }
  assert (Hsave : validate_product
                    (set_costPriceTZS
                       (set_stockQuantity product (stockQuantity product + quantity))
                       (to_number cost)) = true).
  { apply validate_product_fields in Hvalid.
    unfold validate_product; simpl.
    rewrite !andb_true_iff, !Z.leb_le. intuition lia. }
  assert (Htruthy : truthy_string (Some supplier) = Some supplier).
  { unfold truthy_string. rewrite decide_False; [done|]. by intros ->. }
  unfold truthy_string in Htruthy.
  pose proof (truthy_Some cost Hzero) as Hcost'.
  subst body id purchase. revert Hpurchase Hsave Htruthy Hcost'.
  exec; intros; simplify_eq; try lia; try congruence.
  all: split; reflexivity.
Qed.

Lemma deletePurchase_run env id w purchase product :
  purchases (committed w) !! id = Some purchase ->
  products (committed w) !! purchase_productId purchase = Some product ->
  validate_product
    (set_stockQuantity product
       (stockQuantity product - quantityPurchased purchase)) = true ->
  is_success (response (deletePurchase env id) w) = negb (commitFails env)
  /\ (commitFails env = false ->
      committed (after (deletePurchase env id) w)
      = mkDb (<[purchase_productId purchase :=
                  set_stockQuantity product
                    (stockQuantity product - quantityPurchased purchase)]>
                (products (committed w)))
             (sales (committed w))
             (delete id (purchases (committed w)))).
Proof.
  exec; intros; simplify_eq; try congruence; split; congruence.
Qed.

(** When the product exists (a valid document), the quantity is a
    number and at least 1, the unit cost, a number or the string that
    writes one, is at least 0 and not the number 0, the supplier is more
    than white space, and neither the admin lookup nor the commit fails,
    createPurchase succeeds: it inserts one purchase row under a new id
    with the trimmed supplier and quantity times unit cost as its total,
    adds exactly the quantity to the product's stock, and sets the
    product's cost price to the unit cost of the purchase. *)
Theorem createPurchase_succeeds env w productId product quantity cost supplier :
  products (committed w) !! productId = Some product ->
  validate_product product = true ->
  1 <= quantity -> 0 <= to_number cost -> cost <> Num 0 ->
  trim supplier <> "" ->
  is_Some (admins env) -> commitFails env = false ->
  let body := mkPurchaseBody (Some productId) (Some (Num quantity)) (Some cost)
                             (Some supplier) in
  let id := fresh (dom (purchases (committed w))) in
  let purchase := mkPurchase productId quantity (to_number cost)
                             (quantity * to_number cost) (trim supplier)
                             (userId env) (now env) in
  let w' := after (createPurchase env body) w in
  response (createPurchase env body) w
  = Some (Ok 201 (PurchasePayload id purchase))
  /\ purchases (committed w) !! id = None
  /\ purchases (committed w') = <[id := purchase]> (purchases (committed w))
  /\ sales (committed w') = sales (committed w)
  /\ stock w' productId = Some (stockQuantity product + quantity)
  /\ costPriceTZS <$> products (committed w') !! productId
     = Some (to_number cost)
  /\ forall other,
       other <> productId ->
       products (committed w') !! other = products (committed w) !! other.
Proof.
  intros Hfound Hvalid Hq Hcost Hzero Hsupplier Hadmins Hcommit
         body id purchase w'.
  destruct (createPurchase_accepts env w productId product quantity cost
              supplier Hfound Hvalid Hq Hcost Hzero Hsupplier Hadmins Hcommit)
    as [Hresp Hdb].
  fold body id purchase in Hresp, Hdb. fold w' in Hdb.
  split; [exact Hresp|].
  split; [apply lookup_fresh|].
  unfold stock. rewrite Hdb. simpl. rewrite lookup_insert_eq.
  repeat split. intros other Hother. by rewrite lookup_insert_ne.
Qed.

(** Scenario B: after scenario A, product P has stock 7; the purchase of
    5 at 90 leaves stock 12 and the cost price 90. *)
Lemma scenario_B_stock_and_cost :
  stock worldB P = Some 12
  /\ costPriceTZS <$> products (committed worldB) !! P = Some 90.
Proof.
  destruct (createPurchase_succeeds env0 worldA P
              (set_stockQuantity productP 7) 5 (Num 90) "Acme")
    as (_ & _ & _ & _ & Hstock & Hcost & _);
    [ reflexivity | reflexivity | lia | simpl; lia | discriminate
    | vm_compute; discriminate | by eexists | reflexivity | ].
  split; [exact Hstock | exact Hcost].
Defined.

(** A supplier that is white space only passes the handler's test of a
    missing field and is trimmed to the empty text, which the schema
    refuses: the purchase is not recorded. *)
Example blank_supplier_is_refused :
  let body := mkPurchaseBody (Some P) (Some (Num 5)) (Some (Num 90))
                             (Some " ") in
  response (createPurchase env0 body) worldA
  = Some (Err 500 (FailedTo "record purchase"))
  /\ committed (after (createPurchase env0 body) worldA) = committed worldA.
Proof. vm_compute. split; reflexivity. Qed.

(** A purchase of a quantity sent as a number, at least 1, at a unit
    cost of at least 0 that is not the number 0, from a supplier that is
    more than white space, which is recorded and then deleted, leaves the
    rows and the stock as they were before it, but not the product: its
    cost price stays the unit cost of the deleted purchase. *)
Theorem deleted_purchase_leaves_its_cost env env' w productId product
    quantity cost supplier :
  products (committed w) !! productId = Some product ->
  validate_product product = true ->
  1 <= quantity -> 0 <= to_number cost -> cost <> Num 0 ->
  trim supplier <> "" ->
  is_Some (admins env) -> commitFails env = false ->
  commitFails env' = false ->
  let body := mkPurchaseBody (Some productId) (Some (Num quantity)) (Some cost)
                             (Some supplier) in
  let id := fresh (dom (purchases (committed w))) in
  let w1 := after (createPurchase env body) w in
  let w2 := after (deletePurchase env' id) w1 in
  is_success (response (deletePurchase env' id) w1) = true
  /\ purchases (committed w2) = purchases (committed w)
  /\ sales (committed w2) = sales (committed w)
  /\ products (committed w2)
     = <[productId := set_costPriceTZS product (to_number cost)]>
         (products (committed w))
  /\ stock w2 productId = Some (stockQuantity product).
Proof.
  intros Hfound Hvalid Hq Hcost Hzero Hsupplier Hadmins Hcommit Hcommit'
         body id w1 w2.
  destruct (createPurchase_accepts env w productId product quantity cost
              supplier Hfound Hvalid Hq Hcost Hzero Hsupplier Hadmins Hcommit)
    as [_ Hdb].
  fold body id in Hdb. fold w1 in Hdb.
  destruct (deletePurchase_run env' id w1
              (mkPurchase productId quantity (to_number cost)
                          (quantity * to_number cost) (trim supplier)
                          (userId env) (now env))
              (set_costPriceTZS
                 (set_stockQuantity product (stockQuantity product + quantity))
                 (to_number cost))) as [Hok Hdb2].
  - rewrite Hdb. simpl. apply lookup_insert_eq.
  - rewrite Hdb. simpl. apply lookup_insert_eq.
  - apply validate_product_fields in Hvalid.
    unfold validate_product; simpl.
    rewrite !andb_true_iff, !Z.leb_le. intuition lia.
  - rewrite Hcommit' in Hok. split; [exact Hok|].
    specialize (Hdb2 Hcommit'). fold w2 in Hdb2.
    unfold stock. rewrite Hdb2, Hdb. simpl.
    rewrite insert_insert_eq, lookup_insert_eq.
    rewrite delete_insert_id by apply lookup_fresh.
    replace (stockQuantity product + quantity - quantity)
      with (stockQuantity product) by lia.
    repeat split.
Qed.

(** Product P has cost price 100; the purchase of scenario B at 90,
    recorded after scenario A and deleted at once, leaves stock 7 and the
    cost price 90. *)
Lemma purchase_B_deleted_keeps_cost_90 :
  let w2 := after (deletePurchase env0 1%positive) worldB in
  stock w2 P = Some 7
  /\ products (committed w2) !! P
     = Some (mkProduct "Widget" "W-1" "tools" 150 90 7).
Proof.
  intros w2.
  destruct (deleted_purchase_leaves_its_cost env0 env0 worldA P
              (set_stockQuantity productP 7) 5 (Num 90) "Acme")
    as (_ & _ & _ & Hproducts & Hstock);
    [ reflexivity | reflexivity | lia | simpl; lia | discriminate
    | vm_compute; discriminate | by eexists | reflexivity | reflexivity | ].
  split; [exact Hstock|].
  pose proof (f_equal (fun m => m !! P) Hproducts) as Hp.
  rewrite lookup_insert_eq in Hp. exact Hp.
Defined.
(** ** What [jsonToCSV] writes can be read back *)

Section CsvFacts.
Import Csv.

Lemma read_comma mode rest :
  mode <> Quoted -> read mode (comma :: rest) = new_field (read FieldStart rest).
Proof. by destruct mode. Qed.

Lemma read_newline mode rest :
  mode <> Quoted ->
  read mode (newline :: rest) = new_record (read RecordStart rest).
Proof. by destruct mode. Qed.

Lemma read_data mode c rest :
  mode = FieldStart \/ mode = Unquoted ->
  c <> comma -> c <> newline -> c <> quote -> c <> carriage_return ->
  read mode (c :: rest) = add_char c (read Unquoted rest).
Proof.
  intros [-> | ->] ? ? ? ?; cbn [read];
    by rewrite ?(decide_False (P := c = quote)),
      ?(decide_False (P := c = comma)), ?(decide_False (P := c = newline)),
      ?(decide_False (P := c = carriage_return)).
Qed.

Lemma read_start text :
  text <> [] -> read RecordStart text = read FieldStart text.
Proof. by destruct text. Qed.

Lemma read_at_separator rest :
  at_separator rest ->
  read Unquoted rest = read FieldStart rest
  /\ read QuoteSeen rest = read FieldStart rest.
Proof.
  intros [-> | (r & [-> | ->])]; [done| |];
    by rewrite ?read_comma, ?read_newline.
Qed.

Lemma read_quoted cell rest :
  read Quoted (double_quotes cell ++ quote :: rest)
  = foldr add_char (read QuoteSeen rest) cell.
Proof.
  induction cell as [|c cell IH].
  - simpl. by rewrite ?decide_True.
  - simpl. destruct (decide (c = quote)) as [->|Hc].
    + cbn [app read]. rewrite ?decide_True by done. by rewrite IH.
    + cbn [app read]. rewrite ?decide_False by done. by rewrite IH.
Qed.

Lemma read_plain cell rest :
  plain cell -> at_separator rest ->
  read FieldStart (cell ++ rest) = foldr add_char (read FieldStart rest) cell
  /\ read Unquoted (cell ++ rest) = foldr add_char (read FieldStart rest) cell.
Proof.
  intros (Hcomma & Hnewline & Hquote & Hcr) Hrest.
  induction cell as [|c cell IH].
  - simpl. split; [done|]. by apply read_at_separator.
  - apply not_elem_of_cons in Hcomma as [Hc1 Hcomma].
    apply not_elem_of_cons in Hnewline as [Hc2 Hnewline].
    apply not_elem_of_cons in Hquote as [Hc3 Hquote].
    apply not_elem_of_cons in Hcr as [Hc4 Hcr].
    destruct (IH Hcomma Hnewline Hquote Hcr) as [_ IHu].
    cbn [app foldr]. rewrite !read_data by auto. by rewrite IHu.
Qed.

Lemma double_quotes_plain cell :
  quote ∉ cell -> double_quotes cell = cell.
Proof.
  induction cell as [|c cell IH]; [done|].
  intros [Hc Hcell]%not_elem_of_cons. simpl.
  rewrite ?decide_False by congruence. simpl. by rewrite IH.
Qed.

Lemma double_quotes_has_quote cell :
  quote ∈ cell -> quote ∈ double_quotes cell.
Proof.
  induction cell as [|c cell IH]; [by intros ?%not_elem_of_nil|].
  intros [<-|Hin]%elem_of_cons; simpl.
  - rewrite ?decide_True by done. left.
  - apply elem_of_app. right. by apply IH.
Qed.

Lemma read_field cell rest :
  carriage_return ∉ cell -> at_separator rest ->
  read FieldStart (escape cell ++ rest)
  = foldr add_char (read FieldStart rest) cell.
Proof.
  intros Hcr Hrest. unfold escape, includes.
  destruct (bool_decide (comma ∈ double_quotes cell)
            || bool_decide (newline ∈ double_quotes cell)
            || bool_decide (quote ∈ double_quotes cell)) eqn:Hwrap.
  - cbn [app read]. rewrite ?decide_True by done. rewrite <- app_assoc.
    cbn [app]. rewrite read_quoted.
    by destruct (read_at_separator rest Hrest) as [_ ->].
  - apply orb_false_iff in Hwrap as [Hwrap Hq].
    apply orb_false_iff in Hwrap as [Hc Hn].
    apply bool_decide_eq_false in Hc, Hn, Hq.
    assert (quote ∉ cell) as Hquote
      by (intros Hin; by apply Hq, double_quotes_has_quote).
    rewrite double_quotes_plain in * by done.
    by apply read_plain.
Qed.

Lemma read_nonempty mode text : mode <> RecordStart -> read mode text <> [].
Proof.
  revert mode. induction text as [|c text IH]; intros mode Hmode;
    [by destruct mode|].
  assert (forall R, add_char c R <> []) as Hadd
    by (intros [|[|f fs] R]; done).
  assert (forall R, add_char quote R <> []) as Haddq
    by (intros [|[|f fs] R]; done).
  assert (forall R, new_field R <> []) as Hfield
    by (intros [|fs R]; done).
  destruct mode; [done|..]; cbn [read]; repeat case_decide;
    first [apply Hadd | apply Haddq | apply Hfield | by apply IH | done].
Qed.

Lemma add_chars_new_field cell R :
  R <> [] ->
  foldr add_char (new_field R) cell
  = match R with
    | fields :: rest => (cell :: fields) :: rest
    | [] => []
    end.
Proof.
  intros HR. destruct R as [|fields rest]; [done|]. clear HR.
  simpl. induction cell as [|c cell IH]; [done|]. simpl. by rewrite IH.
Qed.

Lemma add_chars_new_record cell R :
  foldr add_char (new_record R) cell = [cell] :: R.
Proof.
  unfold new_record. induction cell as [|c cell IH]; [done|].
  simpl. by rewrite IH.
Qed.

Lemma add_chars_end cell : foldr add_char [[[]]] cell = [[cell]].
Proof. induction cell as [|c cell IH]; [done|]. simpl. by rewrite IH. Qed.

Lemma join_cons sep part rest :
  rest <> [] -> join sep (part :: rest) = (part ++ sep :: join sep rest)%list.
Proof. by destruct rest. Qed.

Lemma escape_empty cell : escape cell = [] -> cell = [].
Proof.
  unfold escape. case_match; [done|].
  destruct cell as [|c cell]; [done|]. simpl. by case_decide.
Qed.

(** The text of a row is empty only for the row of one empty cell. *)
Lemma line_empty cells :
  cells <> [] -> join comma (escape <$> cells) = [] -> cells = [[]].
Proof.
  destruct cells as [|cell [|cell' cells]]; [done| |].
  - simpl. by intros _ ->%escape_empty.
  - intros _. rewrite fmap_cons, join_cons by done.
    by intros [_ ?]%app_eq_nil.
Qed.

(** The last line of a text, and a line followed by others. *)
Lemma read_last_line cells :
  cells <> [] -> without_carriage_return cells ->
  read FieldStart (join comma (escape <$> cells)) = [cells].
Proof.
  induction cells as [|cell cells IH]; [done|].
  intros _ [Hcell Hcells]%Forall_cons.
  destruct cells as [|cell' cells].
  - simpl. rewrite <- (app_nil_r (escape cell)), read_field;
      [apply add_chars_end | done | by left].
  - rewrite fmap_cons, join_cons by done.
    rewrite read_field; [|done|right; eexists; by left].
    rewrite read_comma by done.
    rewrite add_chars_new_field by by apply read_nonempty.
    by rewrite IH.
Qed.

Lemma read_line cells r :
  cells <> [] -> without_carriage_return cells ->
  read FieldStart (join comma (escape <$> cells) ++ newline :: r)
  = cells :: read RecordStart r.
Proof.
  induction cells as [|cell cells IH]; [done|].
  intros _ [Hcell Hcells]%Forall_cons.
  destruct cells as [|cell' cells].
  - simpl. rewrite read_field; [|done|right; eexists; by right].
    rewrite read_newline by done. apply add_chars_new_record.
  - rewrite fmap_cons, join_cons by done. rewrite <- app_assoc.
    rewrite read_field; [|done|right; eexists; by left].
    cbn [app]. rewrite read_comma by done.
    rewrite add_chars_new_field by by apply read_nonempty.
    by rewrite IH.
Qed.

Lemma read_lines rows :
  rows <> [] -> Forall (fun cells => cells <> []) rows ->
  Forall without_carriage_return rows ->
  last rows <> Some [[]] ->
  read RecordStart
       (join newline ((fun item => join comma (escape <$> item)) <$> rows))
  = rows.
Proof.
  intros Hrows Hall. induction Hall as [|cells rows Hcells Hall IH]; [done|].
  intros [Hcr Hcrs]%Forall_cons Hlast.
  destruct rows as [|cells' rows].
  - simpl. rewrite read_start; [by apply read_last_line|].
    intros Hempty. apply line_empty in Hempty; [|done]. by subst cells.
  - rewrite fmap_cons, join_cons by done.
    rewrite read_start by (by intros [_ ?]%app_eq_nil).
    rewrite read_line by done. by rewrite IH.
Qed.

Lemma escape_plain cell : plain cell -> escape cell = cell.
Proof.
  intros (Hcomma & Hnewline & Hquote & _). unfold escape, includes.
  rewrite double_quotes_plain by done.
  by rewrite !bool_decide_eq_false_2.
Qed.

Lemma last_cons_nonempty {A} (x : A) (l : list A) :
  l <> [] -> last (x :: l) = last l.
Proof. by destruct l. Qed.

End CsvFacts.

(** The text that jsonToCSV writes for a table with at least one row and
    one column, under headers without comma, quote or line break, is read
    back by a reader of comma-separated values as the headers followed by
    the rows, cell by cell, when no cell holds a carriage return and the
    last row is not one empty cell; so two such tables under the same
    headers are written alike only if they are equal. An empty table is
    written as the empty text, without its headers. *)
Theorem jsonToCSV_reads_back data headers :
  headers <> [] ->
  Forall Csv.plain headers ->
  Forall (fun item => length item = length headers) data ->
  Forall Csv.without_carriage_return data ->
  last data <> Some [[]] ->
  (data <> [] -> Csv.read_csv (Csv.jsonToCSV data headers) = headers :: data)
  /\ (data = [] -> Csv.jsonToCSV data headers = [])
  /\ (forall data',
        Forall (fun item => length item = length headers) data' ->
        Forall Csv.without_carriage_return data' ->
        last data' <> Some [[]] ->
        data <> [] -> data' <> [] ->
        Csv.jsonToCSV data headers = Csv.jsonToCSV data' headers ->
        data = data').
Proof.
  intros Hheaders Hplain Hwidth Hcr Hlast.
  assert (forall rows,
            Forall (fun item => length item = length headers) rows ->
            Forall Csv.without_carriage_return rows ->
            last rows <> Some [[]] ->
            rows <> [] ->
            Csv.read_csv (Csv.jsonToCSV rows headers) = headers :: rows) as Hread.
  { intros rows Hrows Hrowscr Hrowslast Hne. unfold Csv.read_csv, Csv.jsonToCSV.
    destruct rows as [|row rows]; [done|].
    replace (Csv.join Csv.comma headers)
      with (Csv.join Csv.comma (Csv.escape <$> headers)).
    - apply (read_lines (headers :: row :: rows)); [done| | |].
      + constructor; [done|].
        eapply Forall_impl; [exact Hrows|]. intros item Hlen ->.
        destruct headers; [done|]. simpl in Hlen. lia.
      + constructor; [|done].
        eapply Forall_impl; [exact Hplain|]. by intros h (_ & _ & _ & ?).
      + by rewrite last_cons_nonempty.
    - f_equal. clear Hheaders Hwidth Hrows.
      induction Hplain as [|h hs Hh _ IH]; [done|].
      rewrite fmap_cons, IH. f_equal. by apply escape_plain. }
  split; [by apply Hread|]. split; [by intros ->|].
  intros data' Hwidth' Hcr' Hlast' Hne Hne' Heq.
  assert (headers :: data = headers :: data') as [= ->]; [|done].
  by rewrite <- (Hread data), <- (Hread data'), Heq.
Qed.

(** A row whose cells hold a comma and a quote is written in quotes and
    read back as it was. *)
Lemma quoted_cells_read_back :
  let headers :=
    [String.list_ascii_of_string "Name"; String.list_ascii_of_string "Note"] in
  let data := [[String.list_ascii_of_string "Nails, 2 inch"; [Csv.quote]]] in
  Csv.read_csv (Csv.jsonToCSV data headers) = headers :: data.
Proof.
  intros headers data.
  refine (proj1 (jsonToCSV_reads_back data headers _ _ _ _ _) _).
  - done.
  - subst headers. repeat (apply Forall_cons; split); [| |constructor].
    all: repeat split; apply (bool_decide_unpack _); vm_compute; exact I.
  - subst data. apply Forall_cons. split; [reflexivity|constructor].
  - subst data. repeat (apply Forall_cons; split); try constructor.
    all: apply (bool_decide_unpack _); vm_compute; exact I.
  - done.
  - done.
Defined.

(** What is not read back. A cell that ends with a carriage return is
    written without quotes, and the reader takes the carriage return for
    a part of the line break: the cell comes back without it. A last row
    of one empty cell is written as nothing after the last line break,
    which the reader takes for the end of the text: the row is lost. *)
Example cells_not_read_back :
  let H := String.list_ascii_of_string "H" in
  let a := String.list_ascii_of_string "a" in
  Csv.read_csv (Csv.jsonToCSV [[(a ++ [Csv.carriage_return])%list]; [a]] [H])
  = [[H]; [a]; [a]]
  /\ Csv.read_csv (Csv.jsonToCSV [[a]; [[]]] [H]) = [[H]; [a]].
Proof. vm_compute. split; reflexivity. Qed.
